(** * restGo: the task service, embedded and verified

    A shallow embedding of the request pipeline of the restGo task service:
    decode -> validate -> repository call -> encode, for the five handlers of
    [internal/handlers/tasks.go] and [convertValidationError] of
    [internal/handlers/validation.go], over the MongoDB-backed repository of
    [internal/database/mongodb.go] and the storage record of
    [internal/database] ([Task], [ToProto], the [TaskRepository] interface).

    Go values are modelled as follows.
    - [string]: Rocq [string] (a sequence of bytes, as in Go); [len(s)] is
      [String.length s].
    - [int64] Unix seconds: [Z].  The code never does arithmetic on them, so
      no wrap-around can occur.
    - [uuid.UUID] (an array of sixteen bytes): a constructor with sixteen
      byte fields.
    - [bson.M] (a Go map): [gmap string Bson.value].
    - the Mongo collection: the list of its documents, with the fate of the
      coming driver calls (delivered, dropped, reply lost).
    - the HTTP exchange: a request record in, a response record out; the
      handlers thread the repository through a small state monad.  Requests
      are served one after the other; headers are not modelled.
    - the clock and the identifier generator: each request is served with
      the reading and the identifier it draws.
    The libraries the service imports (google/uuid, protojson, timestamppb,
    the Mongo driver, unicode/utf8, strings) are modelled by the part of
    their behaviour the service exercises.  Code of the repository that is
    not at hand (the generated messages and validators, the package
    [internal/errors], [helpers.Map]) is modelled from the spec; each such
    definition says so. *)

From Stdlib Require Import ZArith Ascii String Lia Sorted.
From stdpp Require Import base tactics option strings list gmap.

#[local] Set Warnings "-register-all".

Local Open Scope string_scope.
Local Open Scope Z_scope.

(** Go's [byte]. *)
Abbreviation byte := ascii (only parsing).

Definition byte_val (b : byte) : N := N_of_ascii b.

(* ===================================================================== *)
(** * Package [strings] of the Go standard library (the functions used by
      [convertValidationError] and by [uuid.Parse]) *)
(* ===================================================================== *)

Module GoStrings.

Fixpoint drop (n : nat) (s : string) : string :=
  match n, s with
  | O, _ => s
  | S _, EmptyString => EmptyString
  | S n', String _ s' => drop n' s'
  end.

(** [strings.HasPrefix(s, prefix)] *)
Definition HasPrefix (s prefix : string) : bool := String.prefix prefix s.

(** [strings.TrimPrefix(s, prefix)] *)
Definition TrimPrefix (s prefix : string) : string :=
  if HasPrefix s prefix then drop (String.length prefix) s else s.

(** [strings.Cut(s, sep)] for a one-byte separator: the text before and
    after the first [sep], or [None] when [sep] does not occur. *)
Fixpoint Cut (s : string) (sep : byte) : option (string * string) :=
  match s with
  | EmptyString => None
  | String c s' =>
      if Ascii.eqb c sep then Some (EmptyString, s')
      else match Cut s' sep with
           | Some (before, after) => Some (String c before, after)
           | None => None
           end
  end.

(** [strings.SplitN(s, sep, n)] for a one-byte separator and [n >= 0]:
    at most [n] pieces, the last one being the unsplit remainder. *)
Fixpoint SplitN (s : string) (sep : byte) (n : nat) : list string :=
  match n with
  | O => []
  | S O => [s]
  | S n' =>
      match Cut s sep with
      | Some (before, after) => before :: SplitN after sep n'
      | None => [s]
      end
  end.

(** [strings.Split(s, sep)] for a one-byte separator: all the pieces. *)
Fixpoint Split (s : string) (sep : byte) : list string :=
  match s with
  | EmptyString => [EmptyString]
  | String c s' =>
      if Ascii.eqb c sep then EmptyString :: Split s' sep
      else match Split s' sep with
           | piece :: pieces => String c piece :: pieces
           | [] => [String c EmptyString]
           end
  end.

(** The six ASCII white-space bytes of [strings.TrimSpace]. *)
Definition asciiSpace (c : byte) : bool :=
  match c with
  | "009" | "010" | "011" | "012" | "013" | " " => true
  | _ => false
  end%char.

Definition of_bytes (l : list nat) : string :=
  string_of_list_ascii (ascii_of_nat <$> l).

(** UTF-8 encodings of the remaining code points of [unicode.IsSpace]:
    U+0085, U+00A0, U+1680, U+2000..U+200A, U+2028, U+2029, U+202F,
    U+205F, U+3000. *)
Definition wideSpaces : list string :=
  of_bytes <$>
    [ [194; 133]; [194; 160]; [225; 154; 128];
      [226; 128; 128]; [226; 128; 129]; [226; 128; 130]; [226; 128; 131];
      [226; 128; 132]; [226; 128; 133]; [226; 128; 134]; [226; 128; 135];
      [226; 128; 136]; [226; 128; 137]; [226; 128; 138];
      [226; 128; 168]; [226; 128; 169]; [226; 128; 175];
      [226; 129; 159]; [227; 128; 128] ]%nat.

Fixpoint trimLeft (spaces : list string) (fuel : nat) (s : string) : string :=
  match fuel with
  | O => s
  | S fuel' =>
      match s with
      | EmptyString => s
      | String c s' =>
          if asciiSpace c then trimLeft spaces fuel' s'
          else match List.find (HasPrefix s) spaces with
               | Some sp => trimLeft spaces fuel' (drop (String.length sp) s)
               | None => s
               end
      end
  end.

(** [strings.TrimSpace(s)]: leading and trailing white space removed.  The
    trailing side is trimmed on the reversed string against the reversed
    encodings. *)
Definition TrimSpace (s : string) : string :=
  let s1 := trimLeft wideSpaces (String.length s) s in
  String.rev (trimLeft (String.rev <$> wideSpaces) (String.length s1) (String.rev s1)).

(** [strings.EqualFold] restricted to ASCII letters (enough for the
    all-ASCII, fold-stable literal it is used with). *)
Definition lower (c : byte) : byte :=
  let n := nat_of_ascii c in
  if ((65 <=? n) && (n <=? 90))%nat then ascii_of_nat (n + 32) else c.

Fixpoint EqualFold (s t : string) : bool :=
  match s, t with
  | EmptyString, EmptyString => true
  | String a s', String b t' => Ascii.eqb (lower a) (lower b) && EqualFold s' t'
  | _, _ => false
  end.

End GoStrings.

(* ===================================================================== *)
(** * [unicode/utf8]: [utf8.ValidString] *)
(* ===================================================================== *)

Module Utf8.

Definition in_range (lo hi : N) (b : byte) : bool :=
  ((lo <=? byte_val b) && (byte_val b <=? hi))%N.

Definition cont (b : byte) : bool := in_range 128 191 b.

(** The accept ranges of Go's decoder: the lead byte fixes the length of
    the sequence and the range of the second byte; surrogates, overlong
    forms and code points above U+10FFFF are rejected. *)
Fixpoint ValidString (s : string) : bool :=
  match s with
  | EmptyString => true
  | String b0 s1 =>
      if (byte_val b0 <? 128)%N then ValidString s1
      else if in_range 194 223 b0 then
        match s1 with
        | String b1 s2 => cont b1 && ValidString s2
        | _ => false
        end
      else if in_range 224 239 b0 then
        match s1 with
        | String b1 (String b2 s3) =>
            (if (byte_val b0 =? 224)%N then in_range 160 191 b1
             else if (byte_val b0 =? 237)%N then in_range 128 159 b1
             else cont b1)
            && cont b2 && ValidString s3
        | _ => false
        end
      else if in_range 240 244 b0 then
        match s1 with
        | String b1 (String b2 (String b3 s4)) =>
            (if (byte_val b0 =? 240)%N then in_range 144 191 b1
             else if (byte_val b0 =? 244)%N then in_range 128 143 b1
             else cont b1)
            && cont b2 && cont b3 && ValidString s4
        | _ => false
        end
      else false
  end.

End Utf8.

(* ===================================================================== *)
(** * [github.com/google/uuid]: the value type, [String] and [Parse] *)
(* ===================================================================== *)

Module Uuid.

(** [type UUID [16]byte] *)
Inductive UUID :=
  MkUUID (b0 b1 b2 b3 b4 b5 b6 b7 b8 b9 b10 b11 b12 b13 b14 b15 : byte).

Global Instance UUID_eq_dec : EqDecision UUID.
Proof. solve_decision. Defined.

Definition to_bytes (u : UUID) : list byte :=
  let 'MkUUID b0 b1 b2 b3 b4 b5 b6 b7 b8 b9 b10 b11 b12 b13 b14 b15 := u in
  [b0; b1; b2; b3; b4; b5; b6; b7; b8; b9; b10; b11; b12; b13; b14; b15].

Definition of_bytes (l : list byte) : option UUID :=
  match l with
  | [b0; b1; b2; b3; b4; b5; b6; b7; b8; b9; b10; b11; b12; b13; b14; b15] =>
      Some (MkUUID b0 b1 b2 b3 b4 b5 b6 b7 b8 b9 b10 b11 b12 b13 b14 b15)
  | _ => None
  end.

(** [uuid.Nil], the zero value of the array. *)
Definition Nil : UUID :=
  let z := "000"%char in MkUUID z z z z z z z z z z z z z z z z.

Definition hextable : string := "0123456789abcdef".

Definition hexdigit (n : N) : byte :=
  default "0"%char (String.get (N.to_nat n) hextable).

(** [hex.Encode] of one byte: high nibble, then low nibble. *)
Definition hex (b : byte) : string :=
  String (hexdigit (N.shiftr (byte_val b) 4))
    (String (hexdigit (N.land (byte_val b) 15)) EmptyString).

Definition hexs (l : list byte) : string :=
  foldr (λ b acc, hex b +:+ acc) EmptyString l.

(** [UUID.String]: xxxxxxxx-xxxx-xxxx-xxxx-xxxxxxxxxxxx, lower case. *)
Definition String_ (u : UUID) : string :=
  let bs := to_bytes u in
  hexs (take 4 bs) +:+ "-" +:+ hexs (take 2 (List.skipn 4 bs)) +:+ "-" +:+
  hexs (take 2 (List.skipn 6 bs)) +:+ "-" +:+ hexs (take 2 (List.skipn 8 bs)) +:+ "-" +:+
  hexs (List.skipn 10 bs).

(** The [xvalues] table: the value of a hexadecimal digit of either case,
    [None] standing for the table's 255. *)
Definition xvalue (c : byte) : option N :=
  let n := byte_val c in
  if ((48 <=? n) && (n <=? 57))%N then Some (n - 48)%N
  else if ((97 <=? n) && (n <=? 102))%N then Some (n - 87)%N
  else if ((65 <=? n) && (n <=? 70))%N then Some (n - 55)%N
  else None.

(** [xtob(x1, x2)]: the byte written by two hexadecimal digits. *)
Definition xtob (x1 x2 : byte) : option byte :=
  match xvalue x1, xvalue x2 with
  | Some h, Some l => Some (ascii_of_N (N.lor (N.shiftl h 4) l))
  | _, _ => None
  end.

Definition xtob_at (s : string) (x : nat) : option byte :=
  match String.get x s, String.get (S x) s with
  | Some x1, Some x2 => xtob x1 x2
  | _, _ => None
  end.

Definition dash_at (s : string) (i : nat) : bool :=
  bool_decide (String.get i s = Some "-"%char).

(** The tail of [Parse], once [s] is known to hold the dashed form. *)
Definition parse_dashed (s : string) : option UUID :=
  if dash_at s 8 && dash_at s 13 && dash_at s 18 && dash_at s 23 then
    mapM (xtob_at s) [0; 2; 4; 6; 9; 11; 14; 16; 19; 21; 24; 26; 28; 30; 32; 34]%nat
      ≫= of_bytes
  else None.

(** [uuid.Parse]: the four accepted lengths (plain dashed form, with the
    [urn:uuid:] prefix, in braces, and thirty-two bare digits); [None] is
    the error return. *)
Definition Parse (s : string) : option UUID :=
  match String.length s with
  | 36%nat => parse_dashed s
  | 45%nat =>
      if GoStrings.EqualFold (String.substring 0 9 s) "urn:uuid:"
      then parse_dashed (GoStrings.drop 9 s) else None
  | 38%nat => parse_dashed (GoStrings.drop 1 s)
  | 32%nat =>
      mapM (λ i, xtob_at s (2 * i)) (seq 0 16) ≫= of_bytes
  | _ => None
  end.

End Uuid.

(* ===================================================================== *)
(** * JSON values: what [protojson] reads and writes *)
(* ===================================================================== *)

Module Json.

(** The parsed form of a JSON text.  White space and member formatting,
    which [protojson] leaves unspecified, are abstracted away. *)
Inductive value :=
| Null
| Bool (b : bool)
| Number (n : Z)
| Str (s : string)
| Array (items : list value)
| Object (members : list (string * value)).

(** [member name v]: the value of the first member called [name] when [v]
    is an object. *)
Definition member (name : string) (v : value) : option value :=
  match v with
  | Object members => snd <$> List.find (λ m, String.eqb (fst m) name) members
  | _ => None
  end.

End Json.

(* ===================================================================== *)
(** * [api/proto/v1]: the messages of the wire protocol

      The generated Go types are not part of the sources at hand; the
      records below carry the fields the handlers and [ToProto] read and
      write ([req.Title], [req.Completed != nil], [tasks.Task{Id: ...}]),
      under the wire names of section 6 of the spec. *)
(* ===================================================================== *)

Module Tasks.

(** [timestamppb.Timestamp] *)
Record Timestamp := { Seconds : Z; Nanos : Z }.

(** Modelled from the spec: the message [CreateTaskRequest], whose
    declaration is not at hand.  Create request: [{title: string,
    description: string}]. *)
Record CreateTaskRequest := { CreateTitle : string; CreateDescription : string }.

(** Modelled from the spec: the message [UpdateTaskRequest], whose
    declaration is not at hand.  Update request: [{title: string,
    description: string, completed: bool|absent}].  [Completed] is a
    pointer to bool in Go: [None] is the nil pointer of a field the request
    does not carry. *)
Record UpdateTaskRequest :=
  { UpdateTitle : string; UpdateDescription : string; UpdateCompleted : option bool }.

(** Modelled from the spec: the message [Task], whose declaration is not at
    hand.  Task representation: [{id, title, description, completed,
    createdAt, updatedAt}], the last two being timestamp messages. *)
Record Task :=
  { Id : string;
    Title : string;
    Description : string;
    Completed : bool;
    CreatedAt : option Timestamp;
    UpdatedAt : option Timestamp }.

(** Modelled from the spec: the message [GetTaskResponse], whose declaration
    is not at hand.  Single-task response: [{task: Task}]. *)
Record GetTaskResponse := { Task_ : option Task }.

(** Modelled from the spec: the message [ListTasksResponse], whose
    declaration is not at hand.  List response: [{tasks: [Task, ...]}]. *)
Record ListTasksResponse := { Tasks_ : list Task }.

Global Instance Timestamp_eq_dec : EqDecision Timestamp.
Proof. solve_decision. Defined.
Global Instance Task_eq_dec : EqDecision Task.
Proof. solve_decision. Defined.

End Tasks.

(* ===================================================================== *)
(** * [timestamppb] and the RFC 3339 rendering of a timestamp *)
(* ===================================================================== *)

Module Timestamppb.
Import Tasks.

(** [timestamppb.New(time.Unix(sec, 0))]: whole seconds, no nanoseconds. *)
Definition New_Unix (sec : Z) : Timestamp := {| Seconds := sec; Nanos := 0 |}.

(** 0001-01-01T00:00:00Z and 9999-12-31T23:59:59Z in Unix seconds. *)
Definition minTimestampSeconds : Z := -62135596800.
Definition maxTimestampSeconds : Z := 253402300799.

(** [Timestamp.CheckValid] as [protojson] applies it. *)
Definition valid (ts : Timestamp) : bool :=
  (minTimestampSeconds <=? Seconds ts) && (Seconds ts <=? maxTimestampSeconds)
  && (0 <=? Nanos ts) && (Nanos ts <? 1000000000).

(** Days since 1970-01-01 to (year, month, day) in the proleptic
    Gregorian calendar. *)
Definition civil_from_days (days : Z) : Z * Z * Z :=
  let z := days + 719468 in
  let era := z / 146097 in
  let doe := z - era * 146097 in
  let yoe := (doe - doe / 1460 + doe / 36524 - doe / 146096) / 365 in
  let doy := doe - (365 * yoe + yoe / 4 - yoe / 100) in
  let mp := (5 * doy + 2) / 153 in
  let d := doy - (153 * mp + 2) / 5 + 1 in
  let m := if mp <? 10 then mp + 3 else mp - 9 in
  let y := yoe + era * 400 in
  (if m <=? 2 then y + 1 else y, m, d).

Definition digit (n : Z) : byte := ascii_of_N (Z.to_N (48 + n mod 10)).
Definition pad2 (n : Z) : string :=
  String (digit (n / 10)) (String (digit n) EmptyString).
Definition pad4 (n : Z) : string := pad2 (n / 100) +:+ pad2 (n mod 100).

(** Fraction of a second as [protojson] prints it: nothing, or three, six
    or nine digits. *)
Definition fraction (nanos : Z) : string :=
  if nanos =? 0 then ""
  else if nanos mod 1000000 =? 0 then
    "." +:+ String (digit (nanos / 100000000)) EmptyString +:+ pad2 (nanos / 1000000)
  else if nanos mod 1000 =? 0 then
    "." +:+ pad2 (nanos / 10000000) +:+ pad4 (nanos / 1000)
  else "." +:+ String (digit (nanos / 100000000)) EmptyString +:+ pad4 (nanos / 10000)
           +:+ pad4 nanos.

(** The JSON text of a valid timestamp, in UTC with a [Z] suffix. *)
Definition rfc3339 (ts : Timestamp) : string :=
  let '(y, m, d) := civil_from_days (Seconds ts / 86400) in
  let r := Seconds ts mod 86400 in
  pad4 y +:+ "-" +:+ pad2 m +:+ "-" +:+ pad2 d +:+ "T" +:+
  pad2 (r / 3600) +:+ ":" +:+ pad2 (r mod 3600 / 60) +:+ ":" +:+ pad2 (r mod 60) +:+
  fraction (Nanos ts) +:+ "Z".

End Timestamppb.

(* ===================================================================== *)
(** * [protojson]: [Unmarshal] of the two request messages, [Marshal] of
      the two response messages, with the default options *)
(* ===================================================================== *)

Module Protojson.
Import Tasks.

(** What [io.ReadAll] hands to [Unmarshal]: bytes that are no JSON text
    at all, or the text of a JSON value. *)
Inductive data := NotJSON | Text (v : Json.value).

Inductive kind := StringKind | BoolKind.
Inductive scalar := VString (s : string) | VBool (b : bool).

(** A scalar field accepts exactly the JSON token of its kind; strings
    must be valid UTF-8. *)
Definition unmarshalScalar (k : kind) (v : Json.value) : option scalar :=
  match k, v with
  | StringKind, Json.Str s => if Utf8.ValidString s then Some (VString s) else None
  | BoolKind, Json.Bool b => Some (VBool b)
  | _, _ => None
  end.

(** The member loop of [unmarshalMessage]: a name no field of the message
    has is an error ([DiscardUnknown] is off), so is a field named twice;
    a [null] leaves the field unset; anything else must decode. *)
Fixpoint unmarshalFields (fields : gmap string kind) (seen : list string)
    (members : list (string * Json.value)) (msg : gmap string scalar)
    : option (gmap string scalar) :=
  match members with
  | [] => Some msg
  | (name, v) :: rest =>
      match fields !! name with
      | None => None
      | Some k =>
          if bool_decide (name ∈ seen) then None
          else match v with
               | Json.Null => unmarshalFields fields (name :: seen) rest msg
               | _ =>
                   match unmarshalScalar k v with
                   | Some x => unmarshalFields fields (name :: seen) rest (<[name := x]> msg)
                   | None => None
                   end
               end
      end
  end.

Definition unmarshalMessage (fields : gmap string kind) (d : data)
    : option (gmap string scalar) :=
  match d with
  | Text (Json.Object members) => unmarshalFields fields [] members ∅
  | _ => None
  end.

(** Reading a field of the decoded message: an unset field has the zero
    value of its type. *)
Definition getString (msg : gmap string scalar) (name : string) : string :=
  match msg !! name with Some (VString s) => s | _ => "" end.

Definition getOptBool (msg : gmap string scalar) (name : string) : option bool :=
  match msg !! name with Some (VBool b) => Some b | _ => None end.

Definition CreateTaskRequest_fields : gmap string kind :=
  {[ "title" := StringKind; "description" := StringKind ]}.

Definition UpdateTaskRequest_fields : gmap string kind :=
  {[ "title" := StringKind; "description" := StringKind; "completed" := BoolKind ]}.

(** [protojson.Unmarshal(data, &req)] for [CreateTaskRequest]; [None] is
    the error return. *)
Definition Unmarshal_CreateTaskRequest (d : data) : option CreateTaskRequest :=
  msg ← unmarshalMessage CreateTaskRequest_fields d;
  Some {| CreateTitle := getString msg "title";
          CreateDescription := getString msg "description" |}.

(** [protojson.Unmarshal(data, &req)] for [UpdateTaskRequest]. *)
Definition Unmarshal_UpdateTaskRequest (d : data) : option UpdateTaskRequest :=
  msg ← unmarshalMessage UpdateTaskRequest_fields d;
  Some {| UpdateTitle := getString msg "title";
          UpdateDescription := getString msg "description";
          UpdateCompleted := getOptBool msg "completed" |}.

(** Marshalling leaves out every unpopulated field ([EmitUnpopulated] is
    off): the empty string, [false], the nil message, the empty list. *)
Definition marshalString (name s : string) : option (list (string * Json.value)) :=
  if bool_decide (s = "") then Some []
  else if Utf8.ValidString s then Some [(name, Json.Str s)] else None.

Definition marshalBool (name : string) (b : bool) : option (list (string * Json.value)) :=
  Some (if b then [(name, Json.Bool true)] else []).

Definition marshalTimestamp (name : string) (ts : option Timestamp)
    : option (list (string * Json.value)) :=
  match ts with
  | None => Some []
  | Some t =>
      if Timestamppb.valid t then Some [(name, Json.Str (Timestamppb.rfc3339 t))]
      else None
  end.

Definition marshalTask (t : Task) : option Json.value :=
  id ← marshalString "id" (Id t);
  title ← marshalString "title" (Title t);
  description ← marshalString "description" (Description t);
  completed ← marshalBool "completed" (Completed t);
  createdAt ← marshalTimestamp "createdAt" (CreatedAt t);
  updatedAt ← marshalTimestamp "updatedAt" (UpdatedAt t);
  Some (Json.Object (id ++ title ++ description ++ completed ++ createdAt ++ updatedAt)).

(** [protojson.Marshal(response)] for [GetTaskResponse]. *)
Definition Marshal_GetTaskResponse (r : GetTaskResponse) : option Json.value :=
  match Task_ r with
  | None => Some (Json.Object [])
  | Some t => j ← marshalTask t; Some (Json.Object [("task", j)])
  end.

(** [protojson.Marshal(response)] for [ListTasksResponse]. *)
Definition Marshal_ListTasksResponse (r : ListTasksResponse) : option Json.value :=
  match Tasks_ r with
  | [] => Some (Json.Object [])
  | ts => js ← mapM marshalTask ts; Some (Json.Object [("tasks", Json.Array js)])
  end.

End Protojson.

(* ===================================================================== *)
(** * Go's [error] values, as far as the service tells them apart *)
(* ===================================================================== *)

Module GoError.

(** Modelled from the spec: a failed field rule of the generated
    validators, which are not at hand: the offending field and a
    human-readable reason (spec, section 4.2). *)
Record Violation := { ViolationField : string; ViolationReason : string }.

(** The values of Go's [error] interface that occur: the driver's sentinel
    for an empty result, any other failure of the driver, a wrapped error,
    and the failure of a generated validator with its diagnostics. *)
Inductive error :=
| ErrNoDocuments                       (* mongo.ErrNoDocuments *)
| DriverError (msg : string)           (* any other error of the driver *)
| Errorf (msg : string) (cause : error) (* fmt.Errorf(msg + ": %w", cause) *)
| ValidationFailed (message : string) (violations : list Violation).

Global Instance Violation_eq_dec : EqDecision Violation.
Proof. solve_decision. Defined.
Global Instance error_eq_dec : EqDecision error.
Proof. solve_decision. Defined.

(** A Go result pair [(value, error)] of which exactly one side is set. *)
Inductive result (A : Type) := Ok (a : A) | Err (e : error).
Global Arguments Ok {A} a.
Global Arguments Err {A} e.

(** Modelled from the spec: the line of the validation failure message for
    one diagnostic, in the shape [convertValidationError] takes apart:
    [invalid Message.Field: reason] (spec, section 4.2). *)
Definition violation_line (message : string) (v : Violation) : string :=
  "invalid " +:+ message +:+ "." +:+ ViolationField v +:+ ": " +:+ ViolationReason v.

Definition newline : string := String "010"%char EmptyString.

(** [err.Error()] *)
Fixpoint Error (e : error) : string :=
  match e with
  | ErrNoDocuments => "mongo: no documents in result"
  | DriverError msg => msg
  | Errorf msg cause => msg +:+ ": " +:+ Error cause
  | ValidationFailed message vs =>
      String.concat newline (violation_line message <$> vs)
  end.

End GoError.

(* ===================================================================== *)
(** * [internal/errors]: the error taxonomy and its response writer *)
(* ===================================================================== *)

Module Errors.

(** Modelled from the spec: the error kinds of [internal/errors], whose
    source is not at hand (spec, sections 6 and 7). *)
Inductive ErrorType := VALIDATION_ERROR | NOT_FOUND | BAD_REQUEST | INTERNAL_ERROR.

(** Modelled from the spec: a field-level diagnostic, naming the offending
    field and a human-readable reason (spec, section 4.2);
    [convertValidationError] fills its [Field] and [Message]. *)
Record ValidationErrorDetail := { Field : string; Message : string }.

(** Modelled from the spec: the [details] member of the error envelope is
    absent, a list of field diagnostics, or a free-form map (spec, section
    9, dynamic error detail shape). *)
Inductive Details :=
| NoDetails
| FieldDetails (l : list ValidationErrorDetail)
| MapDetails (m : gmap string string).

(** Modelled from the spec: the error envelope [{type, message, details}]
    (spec, section 6). *)
Record APIError := { Type_ : ErrorType; ErrMessage : string; ErrDetails : Details }.

(** Modelled from the spec: [errors.NewValidationError], whose source is not
    at hand, builds the envelope of kind VALIDATION_ERROR with its
    field-level details (spec, section 7). *)
Definition NewValidationError (message : string) (details : Details) : APIError :=
  {| Type_ := VALIDATION_ERROR; ErrMessage := message; ErrDetails := details |}.

(** Modelled from the spec: [errors.NewNotFoundError], whose source is not
    at hand, builds the envelope of kind NOT_FOUND (spec, section 7). *)
Definition NewNotFoundError (message : string) : APIError :=
  {| Type_ := NOT_FOUND; ErrMessage := message; ErrDetails := NoDetails |}.

(** Modelled from the spec: [errors.NewBadRequestError], whose source is not
    at hand, builds the envelope of kind BAD_REQUEST (spec, section 7). *)
Definition NewBadRequestError (message : string) : APIError :=
  {| Type_ := BAD_REQUEST; ErrMessage := message; ErrDetails := NoDetails |}.

(** Modelled from the spec: [errors.NewInternalError], whose source is not
    at hand, builds the envelope of kind INTERNAL_ERROR (spec, section 7). *)
Definition NewInternalError (message : string) : APIError :=
  {| Type_ := INTERNAL_ERROR; ErrMessage := message; ErrDetails := NoDetails |}.

End Errors.

(* ===================================================================== *)
(** * [net/http]: what a handler receives and what it leaves in the
      [ResponseWriter] *)
(* ===================================================================== *)

Module Http.

Definition StatusOK : Z := 200.
Definition StatusCreated : Z := 201.
Definition StatusNoContent : Z := 204.
Definition StatusBadRequest : Z := 400.
Definition StatusNotFound : Z := 404.
Definition StatusInternalServerError : Z := 500.

(** The request as the handlers see it: the [{id}] path parameter
    ([chi.URLParam(r, "id")]) and the outcome of [io.ReadAll(r.Body)],
    [None] when reading fails.  Headers are not modelled. *)
Record Request := { URLParam_id : string; ReadAll : option Protojson.data }.

Inductive Body :=
| NoBody
| ErrorBody (e : Errors.APIError)
| Data (j : Json.value).

Record Response := { Status : Z; Body_ : Body }.

(** Modelled from the spec: [errors.RespondWithError(w, status, apiErr)],
    whose source is not at hand, writes the status and the error envelope
    (spec, section 7). *)
Definition RespondWithError (status : Z) (apiErr : Errors.APIError) : Response :=
  {| Status := status; Body_ := ErrorBody apiErr |}.

(** [w.WriteHeader(status); w.Write(data)] *)
Definition WriteHeader_Write (status : Z) (data : Json.value) : Response :=
  {| Status := status; Body_ := Data data |}.

(** [w.Write(data)] with no [WriteHeader] before it: status 200. *)
Definition Write (data : Json.value) : Response := WriteHeader_Write StatusOK data.

(** [w.WriteHeader(status)] and nothing written. *)
Definition WriteHeader (status : Z) : Response := {| Status := status; Body_ := NoBody |}.

End Http.

(* ===================================================================== *)
(** * The generated validators of [api/proto/v1] *)
(* ===================================================================== *)

Module Validate.
Import Tasks GoError.

(** Modelled from the spec: the rule on [title] of the generated
    validators, which are not at hand: non-empty and at most 100 characters
    (spec, sections 3 and 4.2).  Length is the length of the string value. *)
Definition titleRule (title : string) : list Violation :=
  if bool_decide (1 ≤ String.length title ≤ 100)%nat then []
  else [{| ViolationField := "Title";
           ViolationReason := "value length must be between 1 and 100 characters" |}].

(** Modelled from the spec: the rule on [description] of the generated
    validators, which are not at hand: at most 500 characters, the empty
    string being valid (spec, sections 3 and 4.2). *)
Definition descriptionRule (description : string) : list Violation :=
  if bool_decide (String.length description ≤ 500)%nat then []
  else [{| ViolationField := "Description";
           ViolationReason := "value length must be at most 500 characters" |}].

(** Modelled from the spec: the outcome of a validator is acceptance
    ([None], Go's nil error) or a non-empty ordered list of field
    diagnostics (spec, section 4.2). *)
Definition check (message : string) (vs : list Violation) : option error :=
  match vs with
  | [] => None
  | _ => Some (ValidationFailed message vs)
  end.

(** Modelled from the spec: [CreateTaskRequest.Validate], generated code
    that is not at hand.  Spec, section 4.2: the title must be non-empty
    and at most 100 characters, the description at most 500. *)
Definition CreateTaskRequest_Validate (req : CreateTaskRequest) : option error :=
  check "CreateTaskRequest"
    (titleRule (CreateTitle req) ++ descriptionRule (CreateDescription req)).

(** Modelled from the spec: [UpdateTaskRequest.Validate], generated code
    that is not at hand.  Spec, section 4.2: the same rules on title and
    description; [completed] is optional and unconstrained. *)
Definition UpdateTaskRequest_Validate (req : UpdateTaskRequest) : option error :=
  check "UpdateTaskRequest"
    (titleRule (UpdateTitle req) ++ descriptionRule (UpdateDescription req)).

End Validate.

(* ===================================================================== *)
(** * [internal/handlers/validation.go] *)
(* ===================================================================== *)

Module Validation.
Import GoStrings Errors.

(** The body of the loop over the lines of the message: the detail a line
    contributes, if any. *)
Definition lineDetail (line : string) : option ValidationErrorDetail :=
  let line := TrimSpace line in
  if bool_decide (line = "") then None
  else if HasPrefix line "invalid " then
    match SplitN line ":"%char 2 with
    | [part0; part1] =>
        let fieldPart := TrimPrefix part0 "invalid " in
        let fieldParts := Split fieldPart "."%char in
        let fieldName :=
          if (1 <? length fieldParts)%nat
          then List.last fieldParts fieldPart else fieldPart in
        let message := TrimSpace part1 in
        Some {| Field := fieldName; Message := message |}
    | _ => None
    end
  else None.

(** [(h *TaskHandler) convertValidationError(err)] *)
Definition convertValidationError (err : GoError.error) : APIError :=
  let errorMsg := GoError.Error err in
  let lines := Split errorMsg "010"%char in
  let details := omap lineDetail lines in
  if bool_decide (length details = 0)%nat then
    NewValidationError "Validation failed" (MapDetails {[ "error" := errorMsg ]})
  else NewValidationError "Validation failed" (FieldDetails details).

End Validation.

(* ===================================================================== *)
(** * State passing: a computation reads and updates the store it runs on *)
(* ===================================================================== *)

Module State.

Definition M (S A : Type) : Type := S → A * S.

Global Instance M_ret {S} : MRet (M S) := λ A a s, (a, s).
Global Instance M_bind {S} : MBind (M S) :=
  λ A B f m s, let '(a, s') := m s in f a s'.

End State.

(* ===================================================================== *)
(** * BSON documents and the collection primitives of the Mongo driver *)
(* ===================================================================== *)

Module Bson.

(** The element types the [Task] struct maps to: binary data (a
    [[16]byte] is written as such), string, boolean, 64-bit integer. *)
Inductive value :=
| Binary (data : list byte)
| String_ (s : string)
| Boolean (b : bool)
| Int64 (n : Z).

Global Instance value_eq_dec : EqDecision value.
Proof. solve_decision. Defined.

End Bson.

Module Mongo.
Import State GoError.

(** What happens to one call on its way to the server and back: it goes
    through; it fails before the server acts on it (connection error,
    deadline of the call's context); or the server acts on it and the
    answer is lost. *)
Inductive transport := Delivered | Dropped | ReplyLost.

(** The state behind a [*mongo.Collection]: the documents held by the
    server, in natural order, and the fate of the calls to come (calls
    beyond the end of the list go through). *)
Record Collection :=
  { documents : list (gmap string Bson.value);
    network : list transport }.

Definition transportError : error := DriverError "server selection error".
Definition duplicateKey : error := DriverError "E11000 duplicate key error".
Definition unknownModifier : error := DriverError "unknown update operator".
Definition missingID : error := DriverError "document without _id".

Definition next : M Collection transport := λ c,
  match network c with
  | [] => (Delivered, c)
  | t :: ts => (t, {| documents := documents c; network := ts |})
  end.

Definition store (docs : list (gmap string Bson.value)) : M Collection unit := λ c,
  ((), {| documents := docs; network := network c |}).

Definition snapshot : M Collection (list (gmap string Bson.value)) := λ c,
  (documents c, c).

(** A filter document selects the documents that hold each of its
    elements ([bson.M{}] selects all). *)
Definition matches (filter doc : gmap string Bson.value) : Prop :=
  map_Forall (λ k v, doc !! k = Some v) filter.

Global Instance matches_dec filter doc : Decision (matches filter doc).
Proof. unfold matches. apply _. Defined.

Definition reply {A} (t : transport) (a : A) : result A :=
  match t with ReplyLost => Err transportError | _ => Ok a end.

(** [collection.InsertOne(ctx, doc)]: the unique index on [_id] rejects a
    second document with the same [_id].  A document without [_id], for
    which the driver would mint an identifier, is never sent by the service
    and is refused here. *)
Definition InsertOne (doc : gmap string Bson.value) : M Collection (result unit) :=
  t ← next;
  docs ← snapshot;
  match t with
  | Dropped => mret (Err transportError)
  | _ =>
      match doc !! "_id" with
      | None => mret (Err missingID)
      | Some id =>
          if bool_decide (Exists (λ d, d !! "_id" = Some id) docs)
          then mret (Err duplicateKey)
          else store (docs ++ [doc]);; mret (reply t ())
      end
  end.

(** [collection.FindOne(ctx, filter)]: the first match, or
    [ErrNoDocuments]. *)
Definition FindOne (filter : gmap string Bson.value)
    : M Collection (result (gmap string Bson.value)) :=
  t ← next;
  docs ← snapshot;
  match t with
  | Delivered =>
      match list_find (matches filter) docs with
      | Some (_, doc) => mret (Ok doc)
      | None => mret (Err ErrNoDocuments)
      end
  | _ => mret (Err transportError)
  end.

(** [collection.Find(ctx, filter)]: a cursor over the matches. *)
Definition Find (filter : gmap string Bson.value)
    : M Collection (result (list (gmap string Bson.value))) :=
  t ← next;
  docs ← snapshot;
  match t with
  | Delivered => mret (Ok (List.filter (λ d, bool_decide (matches filter d)) docs))
  | _ => mret (Err transportError)
  end.

(** [cursor.All(ctx, &results)]: fetch what remains of the cursor. *)
Definition Cursor_All (cursor : list (gmap string Bson.value))
    : M Collection (result (list (gmap string Bson.value))) :=
  t ← next;
  match t with
  | Delivered => mret (Ok cursor)
  | _ => mret (Err transportError)
  end.

(** An update document [{"$set": fields}] writes the given elements and
    leaves the others. *)
Definition applyUpdate (update : gmap string (gmap string Bson.value))
    (doc : gmap string Bson.value) : result (gmap string Bson.value) :=
  match map_to_list update with
  | [(op, fields)] =>
      if bool_decide (op = "$set") then Ok (fields ∪ doc) else Err unknownModifier
  | _ => Err unknownModifier
  end.

(** [collection.UpdateOne(ctx, filter, update)]: updates the first match;
    no match is no error.  The value is the matched count. *)
Definition UpdateOne (filter : gmap string Bson.value)
    (update : gmap string (gmap string Bson.value)) : M Collection (result Z) :=
  t ← next;
  docs ← snapshot;
  match t with
  | Dropped => mret (Err transportError)
  | _ =>
      match list_find (matches filter) docs with
      | None => mret (reply t 0)
      | Some (i, doc) =>
          match applyUpdate update doc with
          | Ok doc' => store (<[i := doc']> docs);; mret (reply t 1)
          | Err e => mret (Err e)
          end
      end
  end.

(** [collection.DeleteOne(ctx, filter)]: removes the first match; no
    match is no error.  The value is the deleted count. *)
Definition DeleteOne (filter : gmap string Bson.value) : M Collection (result Z) :=
  t ← next;
  docs ← snapshot;
  match t with
  | Dropped => mret (Err transportError)
  | _ =>
      match list_find (matches filter) docs with
      | None => mret (reply t 0)
      | Some (i, _) => store (delete i docs);; mret (reply t 1)
      end
  end.

End Mongo.

(* ===================================================================== *)
(** * [internal/database]: the storage record, its projection to the wire
      and the repository interface *)
(* ===================================================================== *)

Module Database.
Import State GoError Uuid.

(** [type Task struct] with its [bson] tags. *)
Record Task :=
  { ID : UUID;              (* bson:"_id" *)
    Title : string;         (* bson:"title" *)
    Description : string;   (* bson:"description" *)
    Completed : bool;       (* bson:"completed" *)
    CreatedAt : Z;          (* bson:"createdAt" *)
    UpdatedAt : Z }.        (* bson:"updatedAt" *)

Global Instance Task_eq_dec : EqDecision Task.
Proof. solve_decision. Defined.

(** [(t *Task) ToProto()] *)
Definition ToProto (t : Task) : Tasks.Task :=
  {| Tasks.Id := Uuid.String_ (ID t);
     Tasks.Title := Title t;
     Tasks.Description := Description t;
     Tasks.Completed := Completed t;
     Tasks.CreatedAt := Some (Timestamppb.New_Unix (CreatedAt t));
     Tasks.UpdatedAt := Some (Timestamppb.New_Unix (UpdatedAt t)) |}.

(** [type TaskRepository interface], each method a computation on the
    state [R] of the implementation.  [FindByID] returns Go's pair
    of a task pointer and an error: [(None, None)] is the absent task. *)
Class TaskRepository (R : Type) :=
  { Create : Task → M R (option error);
    FindByID : UUID → M R (option Task * option error);
    FindAll : M R (list Task * option error);
    Update : UUID → Task → M R (option error);
    Delete : UUID → M R (option error) }.

(** The document the driver writes for a [Task]: one element per tagged
    field. *)
Definition marshal (t : Task) : gmap string Bson.value :=
  {[ "_id" := Bson.Binary (to_bytes (ID t));
     "title" := Bson.String_ (Title t);
     "description" := Bson.String_ (Description t);
     "completed" := Bson.Boolean (Completed t);
     "createdAt" := Bson.Int64 (CreatedAt t);
     "updatedAt" := Bson.Int64 (UpdatedAt t) ]}.

Definition decodeError : error := DriverError "cannot decode document".

(** Decoding an element into a field: an absent element leaves the zero
    value, an element of another type is an error.  Binary data shorter
    than the array fills its front. *)
Definition decodeID (v : option Bson.value) : result UUID :=
  match v with
  | None => Ok Nil
  | Some (Bson.Binary data) =>
      match of_bytes (take 16 (data ++ replicate 16 "000"%char)) with
      | Some u => if bool_decide (length data ≤ 16)%nat then Ok u else Err decodeError
      | None => Err decodeError
      end
  | Some _ => Err decodeError
  end.

Definition decodeString (v : option Bson.value) : result string :=
  match v with
  | None => Ok ""
  | Some (Bson.String_ s) => Ok s
  | Some _ => Err decodeError
  end.

Definition decodeBool (v : option Bson.value) : result bool :=
  match v with
  | None => Ok false
  | Some (Bson.Boolean b) => Ok b
  | Some _ => Err decodeError
  end.

Definition decodeInt64 (v : option Bson.value) : result Z :=
  match v with
  | None => Ok 0
  | Some (Bson.Int64 n) => Ok n
  | Some _ => Err decodeError
  end.

(** The driver's decoding of a document into a [Task]; elements under
    other keys are ignored. *)
Definition decode (doc : gmap string Bson.value) : result Task :=
  match decodeID (doc !! "_id"), decodeString (doc !! "title"),
        decodeString (doc !! "description"), decodeBool (doc !! "completed"),
        decodeInt64 (doc !! "createdAt"), decodeInt64 (doc !! "updatedAt") with
  | Ok id, Ok title, Ok description, Ok completed, Ok createdAt, Ok updatedAt =>
      Ok {| ID := id; Title := title; Description := description;
            Completed := completed; CreatedAt := createdAt; UpdatedAt := updatedAt |}
  | _, _, _, _, _, _ => Err decodeError
  end.

(** [SingleResult.Decode(&task)] *)
Definition Decode (r : result (gmap string Bson.value)) : result Task :=
  match r with
  | Ok doc => decode doc
  | Err e => Err e
  end.

Fixpoint decodeAll (docs : list (gmap string Bson.value)) : result (list Task) :=
  match docs with
  | [] => Ok []
  | doc :: rest =>
      match decode doc, decodeAll rest with
      | Ok t, Ok ts => Ok (t :: ts)
      | Err e, _ => Err e
      | _, Err e => Err e
      end
  end.

End Database.

(** ** [internal/database/mongodb.go]: [MongoTaskRepository] *)

Module MongoTaskRepository.
Import State GoError Uuid Database.

(** The bound of five seconds each method puts on its context shows in
    the model as one of the failures of [Mongo.transport]. *)

Definition Create (task : Task) : M Mongo.Collection (option error) :=
  r ← Mongo.InsertOne (marshal task);
  match r with
  | Err err => mret (Some (Errorf "failed to create task" err))
  | Ok _ => mret None
  end.

Definition FindByID (id : UUID) : M Mongo.Collection (option Task * option error) :=
  let filter : gmap string Bson.value := {[ "_id" := Bson.Binary (to_bytes id) ]} in
  r ← Mongo.FindOne filter;
  match Decode r with
  | Err err =>
      if bool_decide (err = ErrNoDocuments) then mret (None, None)
      else mret (None, Some (Errorf "failed to find task" err))
  | Ok task => mret (Some task, None)
  end.

Definition FindAll : M Mongo.Collection (list Task * option error) :=
  r ← Mongo.Find ∅;
  match r with
  | Err err => mret ([], Some (Errorf "failed to find tasks" err))
  | Ok cursor =>
      r ← Mongo.Cursor_All cursor;
      match r with
      | Err err => mret ([], Some (Errorf "failed to decode tasks" err))
      | Ok docs =>
          match decodeAll docs with
          | Err err => mret ([], Some (Errorf "failed to decode tasks" err))
          | Ok tasks => mret (tasks, None)
          end
      end
  end.

Definition Update (id : UUID) (task : Task) : M Mongo.Collection (option error) :=
  let filter : gmap string Bson.value := {[ "_id" := Bson.Binary (to_bytes id) ]} in
  let update : gmap string (gmap string Bson.value) :=
    {[ "$set" :=
         {[ "title" := Bson.String_ (Title task);
            "description" := Bson.String_ (Description task);
            "completed" := Bson.Boolean (Completed task);
            "updatedAt" := Bson.Int64 (UpdatedAt task) ]} ]} in
  r ← Mongo.UpdateOne filter update;
  match r with
  | Err err => mret (Some (Errorf "failed to update task" err))
  | Ok _ => mret None
  end.

Definition Delete (id : UUID) : M Mongo.Collection (option error) :=
  let filter : gmap string Bson.value := {[ "_id" := Bson.Binary (to_bytes id) ]} in
  r ← Mongo.DeleteOne filter;
  match r with
  | Err err => mret (Some (Errorf "failed to delete task" err))
  | Ok _ => mret None
  end.

Global Instance repository : TaskRepository Mongo.Collection :=
  {| Database.Create := Create;
     Database.FindByID := FindByID;
     Database.FindAll := FindAll;
     Database.Update := Update;
     Database.Delete := Delete |}.

End MongoTaskRepository.

(* ===================================================================== *)
(** * [internal/handlers/tasks.go]: the five handlers *)
(* ===================================================================== *)

Module Handlers.
Import State GoError Errors Http Database.

(** Modelled from the spec: [helpers.Map], whose source is not at hand,
    converts each storage record of a list into its response form (spec,
    section 2, data flow). *)
Definition Map {A B} (l : list A) (f : A → B) : list B := f <$> l.

(** What a request draws from its surroundings: the reading of the clock
    ([timestamppb.Now().AsTime().Unix()]) and the identifier handed out by
    [uuid.New()]. *)
Record Env := { Now : Z; New : Uuid.UUID }.

Section TaskHandler.
(** [type TaskHandler struct { db database.Database }]: the handlers
    work on whatever implements the repository interface. *)
Context {R : Type} `{TaskRepository R}.

(** [GetAll(w, r)], tasks.go 27-50. *)
Definition GetAll (env : Env) (r : Request) : M R Response :=
  '(taskList, err) ← FindAll;
  match err with
  | Some _ =>
      mret (RespondWithError StatusInternalServerError
              (NewInternalError "Failed to retrieve tasks"))
  | None =>
      let response := {| Tasks.Tasks_ := Map taskList ToProto |} in
      match Protojson.Marshal_ListTasksResponse response with
      | None =>
          mret (RespondWithError StatusInternalServerError
                  (NewInternalError "Failed to encode response"))
      | Some data => mret (Write data)
      end
  end.

(** [Create(w, r)], tasks.go 52-105.  The clock and the identifier
    generator are read after validation, as in the source; the model
    passes their values in. *)
Definition Create (env : Env) (r : Request) : M R Response :=
  match ReadAll r with
  | None =>
      mret (RespondWithError StatusBadRequest
              (NewBadRequestError "Failed to read request body"))
  | Some data =>
  match Protojson.Unmarshal_CreateTaskRequest data with
  | None =>
      mret (RespondWithError StatusBadRequest (NewBadRequestError "Invalid JSON format"))
  | Some req =>
  match Validate.CreateTaskRequest_Validate req with
  | Some err =>
      let apiErr := Validation.convertValidationError err in
      mret (RespondWithError StatusBadRequest apiErr)
  | None =>
      let now := Now env in
      let taskID := New env in
      let taskDb :=
        {| ID := taskID;
           Title := Tasks.CreateTitle req;
           Description := Tasks.CreateDescription req;
           Completed := false;
           CreatedAt := now;
           UpdatedAt := now |} in
      err ← Database.Create taskDb;
      match err with
      | Some _ =>
          mret (RespondWithError StatusInternalServerError
                  (NewInternalError "Failed to create task"))
      | None =>
          let response := {| Tasks.Task_ := Some (ToProto taskDb) |} in
          match Protojson.Marshal_GetTaskResponse response with
          | None =>
              mret (RespondWithError StatusInternalServerError
                      (NewInternalError "Failed to encode response"))
          | Some data => mret (WriteHeader_Write StatusCreated data)
          end
      end
  end end end.

(** [GetByID(w, r)], tasks.go 107-143. *)
Definition GetByID (env : Env) (r : Request) : M R Response :=
  let idStr := URLParam_id r in
  match Uuid.Parse idStr with
  | None =>
      mret (RespondWithError StatusBadRequest (NewBadRequestError "Invalid task ID format"))
  | Some id =>
      '(taskDb, err) ← Database.FindByID id;
      match err with
      | Some _ =>
          mret (RespondWithError StatusInternalServerError
                  (NewInternalError "Failed to retrieve task"))
      | None =>
      match taskDb with
      | None => mret (RespondWithError StatusNotFound (NewNotFoundError "Task not found"))
      | Some taskDb =>
          let response := {| Tasks.Task_ := Some (ToProto taskDb) |} in
          match Protojson.Marshal_GetTaskResponse response with
          | None =>
              mret (RespondWithError StatusInternalServerError
                      (NewInternalError "Failed to encode response"))
          | Some data => mret (Write data)
          end
      end end
  end.

(** The assignments of [Update] to the record [FindByID] returned
    (tasks.go 187-194): title and description always, completed when the
    request carries it, updatedAt from the clock. *)
Definition amend (task : Task) (req : Tasks.UpdateTaskRequest) (now : Z) : Task :=
  {| ID := ID task;
     Title := Tasks.UpdateTitle req;
     Description := Tasks.UpdateDescription req;
     Completed :=
       match Tasks.UpdateCompleted req with
       | Some completed => completed
       | None => Completed task
       end;
     CreatedAt := CreatedAt task;
     UpdatedAt := now |}.

(** [Update(w, r)], tasks.go 145-215. *)
Definition Update (env : Env) (r : Request) : M R Response :=
  let idStr := URLParam_id r in
  match Uuid.Parse idStr with
  | None =>
      mret (RespondWithError StatusBadRequest (NewBadRequestError "Invalid task ID format"))
  | Some id =>
  match ReadAll r with
  | None =>
      mret (RespondWithError StatusBadRequest
              (NewBadRequestError "Failed to read request body"))
  | Some data =>
  match Protojson.Unmarshal_UpdateTaskRequest data with
  | None =>
      mret (RespondWithError StatusBadRequest (NewBadRequestError "Invalid JSON format"))
  | Some req =>
  match Validate.UpdateTaskRequest_Validate req with
  | Some err =>
      let apiErr := Validation.convertValidationError err in
      mret (RespondWithError StatusBadRequest apiErr)
  | None =>
      '(task, err) ← Database.FindByID id;
      match err with
      | Some _ =>
          mret (RespondWithError StatusInternalServerError
                  (NewInternalError "Failed to retrieve task"))
      | None =>
      match task with
      | None => mret (RespondWithError StatusNotFound (NewNotFoundError "Task not found"))
      | Some task =>
          let task := amend task req (Now env) in
          err ← Database.Update id task;
          match err with
          | Some _ =>
              mret (RespondWithError StatusInternalServerError
                      (NewInternalError "Failed to update task"))
          | None =>
              let response := {| Tasks.Task_ := Some (ToProto task) |} in
              match Protojson.Marshal_GetTaskResponse response with
              | None =>
                  mret (RespondWithError StatusInternalServerError
                          (NewInternalError "Failed to encode response"))
              | Some data => mret (Write data)
              end
          end
      end end
  end end end end.

(** [Delete(w, r)], tasks.go 217-234. *)
Definition Delete (env : Env) (r : Request) : M R Response :=
  let idStr := URLParam_id r in
  match Uuid.Parse idStr with
  | None =>
      mret (RespondWithError StatusBadRequest (NewBadRequestError "Invalid task ID format"))
  | Some id =>
      err ← Database.Delete id;
      match err with
      | Some _ =>
          mret (RespondWithError StatusInternalServerError
                  (NewInternalError "Failed to delete task"))
      | None => mret (WriteHeader StatusNoContent)
      end
  end.

(** The routes of [cmd/api/main.go] under [/api/v1/tasks]. *)
Inductive Route := GET_tasks | POST_tasks | GET_task | PUT_task | DELETE_task.

Definition serve (route : Route) : Env → Request → M R Response :=
  match route with
  | GET_tasks => GetAll
  | POST_tasks => Create
  | GET_task => GetByID
  | PUT_task => Update
  | DELETE_task => Delete
  end.

(** The server handling a sequence of requests one after the other:
    the state after the last one. *)
Fixpoint run (calls : list (Route * Env * Request)) (s : R) : R :=
  match calls with
  | [] => s
  | (route, env, r) :: rest => run rest (snd (serve route env r s))
  end.

End TaskHandler.

End Handlers.

(* ===================================================================== *)
(** * Vocabulary of the properties *)
(* ===================================================================== *)

Module Spec.
Import Uuid Database.

(** A string of 7-bit bytes only. *)
Fixpoint ascii_only (s : string) : bool :=
  match s with
  | EmptyString => true
  | String c s' => (byte_val c <? 128)%N && ascii_only s'
  end.

Definition scalar_valid (v : Protojson.scalar) : Prop :=
  match v with
  | Protojson.VString s => Utf8.ValidString s = true
  | Protojson.VBool _ => True
  end.

(** The filter [bson.M{"_id": id}] of the repository methods. *)
Definition byID (id : UUID) : gmap string Bson.value :=
  {[ "_id" := Bson.Binary (to_bytes id) ]}.

(** The document the collection answers a query by [id] with, and its
    position. *)
Definition located (id : UUID) (docs : list (gmap string Bson.value))
    : option (nat * gmap string Bson.value) :=
  list_find (Mongo.matches (byID id)) docs.

(** The stored record under [id]: the decoding of that document. *)
Definition stored (id : UUID) (c : Mongo.Collection) : option Task :=
  match located id (Mongo.documents c) with
  | Some (_, doc) =>
      match decode doc with
      | GoError.Ok t => Some t
      | GoError.Err _ => None
      end
  | None => None
  end.

(** The record [Create] builds for a decoded request. *)
Definition created (env : Handlers.Env) (req : Tasks.CreateTaskRequest) : Task :=
  {| ID := Handlers.New env;
     Title := Tasks.CreateTitle req;
     Description := Tasks.CreateDescription req;
     Completed := false;
     CreatedAt := Handlers.Now env;
     UpdatedAt := Handlers.Now env |}.

(** The clock reading is a date [protojson] can print (years 1 to 9999). *)
Definition printable (seconds : Z) : Prop :=
  Timestamppb.valid (Timestamppb.New_Unix seconds) = true.

(** The elements [Update] puts under [$set]. *)
Definition assignments (task : Task) : gmap string Bson.value :=
  {[ "title" := Bson.String_ (Title task);
     "description" := Bson.String_ (Description task);
     "completed" := Bson.Boolean (Completed task);
     "updatedAt" := Bson.Int64 (UpdatedAt task) ]}.

(** [doc'] differs from [doc] at most in the four elements an update
    assigns; in particular it has the same [_id] and [createdAt]. *)
Definition untouched (doc doc' : gmap string Bson.value) : Prop :=
  doc' !! "_id" = doc !! "_id"
  ∧ doc' !! "createdAt" = doc !! "createdAt"
  ∧ ∀ k, k ∉ ["title"; "description"; "completed"; "updatedAt"] → doc' !! k = doc !! k.

(** The same on the decoded records: a document that decoded before still
    decodes, to a record with the same id and createdAt. *)
Definition same_identity (doc doc' : gmap string Bson.value) : Prop :=
  ∀ t, decode doc = GoError.Ok t →
    ∃ t', decode doc' = GoError.Ok t' ∧ ID t' = ID t ∧ CreatedAt t' = CreatedAt t.

(** The reading of the clock a call is served at. *)
Definition clock (call : Handlers.Route * Handlers.Env * Http.Request) : Z :=
  Handlers.Now (snd (fst call)).

(** A document written by the service no later than [bound]: the storage
    form of a record whose createdAt is at most its updatedAt, itself at
    most [bound]. *)
Definition timely (bound : Z) (doc : gmap string Bson.value) : Prop :=
  ∃ t, doc = marshal t ∧ CreatedAt t ≤ UpdatedAt t ≤ bound.

(** The [_id] elements of the documents, in order. *)
Definition identifiers (docs : list (gmap string Bson.value)) : list (option Bson.value) :=
  (λ doc, doc !! "_id") <$> docs.

(** No document of the collection carries this identifier. *)
Definition unused (id : UUID) (c : Mongo.Collection) : Prop :=
  Forall (λ doc, doc !! "_id" ≠ Some (Bson.Binary (to_bytes id))) (Mongo.documents c).

(** The fate of the next call to the driver, and the collection once that
    call has been consumed from the schedule. *)
Definition fate (c : Mongo.Collection) : Mongo.transport :=
  hd Mongo.Delivered (Mongo.network c).

Definition after (c : Mongo.Collection) : Mongo.Collection :=
  {| Mongo.documents := Mongo.documents c; Mongo.network := tl (Mongo.network c) |}.

(** The error kind a response carries, if it is an error response. *)
Definition kind (resp : Http.Response) : option Errors.ErrorType :=
  match Http.Body_ resp with
  | Http.ErrorBody e => Some (Errors.Type_ e)
  | _ => None
  end.

(** The answer to a malformed request: 400 with kind BAD_REQUEST, hence
    neither 404 nor 500. *)
Definition bad_request (resp : Http.Response) : Prop :=
  Http.Status resp = Http.StatusBadRequest
  ∧ kind resp = Some Errors.BAD_REQUEST
  ∧ Http.Status resp ≠ Http.StatusNotFound
  ∧ Http.Status resp ≠ Http.StatusInternalServerError.

(** The body of a listing that shows an empty task sequence: an object
    whose [tasks] member is the empty array. *)
Definition lists_empty_sequence (resp : Http.Response) : Prop :=
  ∃ j, Http.Body_ resp = Http.Data j ∧ Json.member "tasks" j = Some (Json.Array []).

(** The next [n] calls to the driver go through. *)
Definition delivers (n : nat) (c : Mongo.Collection) : Prop :=
  Forall (λ t, t = Mongo.Delivered) (take n (Mongo.network c)).

(** The member [name] of the task object a response body carries. *)
Definition task_member (name : string) (resp : Http.Response) : option Json.value :=
  match Http.Body_ resp with
  | Http.Data j => Json.member "task" j ≫= Json.member name
  | _ => None
  end.

(** A record [protojson] can print: its texts are valid UTF-8 and its
    times are printable dates. *)
Definition encodable (t : Task) : Prop :=
  Utf8.ValidString (Title t) = true
  ∧ Utf8.ValidString (Description t) = true
  ∧ printable (CreatedAt t)
  ∧ printable (UpdatedAt t).

(** A document the service can show: the storage form of a record
    [protojson] can print. *)
Definition presentable (doc : gmap string Bson.value) : Prop :=
  ∃ t, doc = marshal t ∧ encodable t.

(** The answer of a handler whose response could not be encoded. *)
Definition encode_failure (resp : Http.Response) : Prop :=
  Http.Body_ resp = Http.ErrorBody (Errors.NewInternalError "Failed to encode response").

(** The route of a call leaves the collection alone by design. *)
Definition reads (call : Handlers.Route * Handlers.Env * Http.Request) : Prop :=
  fst (fst call) = Handlers.GET_tasks ∨ fst (fst call) = Handlers.GET_task.

(** The byte [c] does not occur in [s]. *)
Fixpoint free_of (c : byte) (s : string) : bool :=
  match s with
  | EmptyString => true
  | String a s' => negb (Ascii.eqb a c) && free_of c s'
  end.

(** An ASCII byte that is no white space; a byte that no ASCII character
    has, as the first byte of each multi-byte white space is. *)
Definition plain (c : byte) : bool :=
  (byte_val c <? 128)%N && negb (GoStrings.asciiSpace c).

Definition high (sp : string) : bool :=
  match sp with
  | String b _ => (128 <=? byte_val b)%N
  | EmptyString => false
  end.

Fixpoint ends_plain (s : string) : bool :=
  match s with
  | EmptyString => false
  | String c EmptyString => plain c
  | String _ s' => ends_plain s'
  end.

(** A text with nothing to trim: it is not empty and its first and last
    bytes are plain. *)
Definition trimmed (s : string) : bool :=
  match s with
  | EmptyString => false
  | String c _ => plain c
  end && ends_plain s.

(** One diagnostic of a failed validation as its message reports it: the
    path of the enclosing message, the field, the reason; and the line
    [convertValidationError] takes apart,
    [invalid Path.Name: Reason]. *)
Record Diagnostic := { Path : string; Name : string; Reason : string }.

Definition diagnostic_line (d : Diagnostic) : string :=
  "invalid " +:+ Path d +:+ "." +:+ Name d +:+ ": " +:+ Reason d.

Definition diagnostic_detail (d : Diagnostic) : Errors.ValidationErrorDetail :=
  {| Errors.Field := Name d; Errors.Message := Reason d |}.

(** The path holds no colon, the field name neither dot nor colon, no
    part a line feed, and the reason has nothing to trim. *)
Definition well_formed (d : Diagnostic) : Prop :=
  free_of ":" (Path d) = true
  ∧ free_of "010" (Path d) = true
  ∧ free_of "." (Name d) = true
  ∧ free_of ":" (Name d) = true
  ∧ free_of "010" (Name d) = true
  ∧ free_of "010" (Reason d) = true
  ∧ trimmed (Reason d) = true.

(** The identifier a call draws, and a call to the create endpoint whose
    body decodes and passes validation. *)
Definition drawn (call : Handlers.Route * Handlers.Env * Http.Request) : UUID :=
  Handlers.New (snd (fst call)).

Definition accepted_create (call : Handlers.Route * Handlers.Env * Http.Request) : Prop :=
  fst (fst call) = Handlers.POST_tasks
  ∧ ∃ data req,
      Http.ReadAll (snd call) = Some data
      ∧ Protojson.Unmarshal_CreateTaskRequest data = Some req
      ∧ Validate.CreateTaskRequest_Validate req = None.

End Spec.
(* ===================================================================== *)
(** * Properties *)
(* ===================================================================== *)

(** ** Identifiers: text form and parsing *)

Section UuidFacts.
Import Uuid.

Lemma xtob_hex (b : byte) :
  xtob (hexdigit (N.shiftr (byte_val b) 4)) (hexdigit (N.land (byte_val b) 15)) = Some b.
Proof. destruct b as [[] [] [] [] [] [] [] []]; reflexivity. Qed.

(** Parsing the text form of an identifier gives the identifier back. *)
Lemma Parse_String (u : UUID) : Parse (String_ u) = Some u.
Proof.
  destruct u as [b0 b1 b2 b3 b4 b5 b6 b7 b8 b9 b10 b11 b12 b13 b14 b15].
  cbv -[xtob hexdigit byte_val N.shiftr N.land].
  rewrite !xtob_hex. reflexivity.
Qed.

Lemma hexdigit_hi_ascii (b : byte) :
  (byte_val (hexdigit (N.shiftr (byte_val b) 4)) <? 128)%N = true.
Proof. destruct b as [[] [] [] [] [] [] [] []]; reflexivity. Qed.

Lemma hexdigit_lo_ascii (b : byte) :
  (byte_val (hexdigit (N.land (byte_val b) 15)) <? 128)%N = true.
Proof. destruct b as [[] [] [] [] [] [] [] []]; reflexivity. Qed.

Lemma ascii_only_valid (s : string) :
  Spec.ascii_only s = true → Utf8.ValidString s = true.
Proof.
  induction s as [|c s IH]; [reflexivity|].
  cbn [Spec.ascii_only Utf8.ValidString].
  intros [Hc Hs]%andb_true_iff. rewrite Hc. auto.
Qed.

Lemma String_ascii_only (u : UUID) : Spec.ascii_only (String_ u) = true.
Proof.
  destruct u as [b0 b1 b2 b3 b4 b5 b6 b7 b8 b9 b10 b11 b12 b13 b14 b15].
  cbv -[hexdigit byte_val N.shiftr N.land N.ltb].
  rewrite !hexdigit_hi_ascii, !hexdigit_lo_ascii. reflexivity.
Qed.

(** The text form of an identifier is valid UTF-8. *)
Lemma String_valid (u : UUID) : Utf8.ValidString (String_ u) = true.
Proof. apply ascii_only_valid, String_ascii_only. Qed.

Lemma of_bytes_to_bytes (u : UUID) :
  of_bytes (take 16 (to_bytes u ++ replicate 16 "000"%char)) = Some u.
Proof. destruct u; reflexivity. Qed.

Lemma to_bytes_length (u : UUID) : length (to_bytes u) = 16%nat.
Proof. destruct u; reflexivity. Qed.

End UuidFacts.

(** ** Decoding of request bodies *)

Section ProtojsonFacts.
Import Tasks Protojson Spec.

Lemma unmarshalFields_valid fields members :
  ∀ seen msg msg',
    map_Forall (λ _, scalar_valid) msg →
    unmarshalFields fields seen members msg = Some msg' →
    map_Forall (λ _, scalar_valid) msg'.
Proof.
  induction members as [|[name v] rest IH]; intros seen msg msg' Hmsg Hrun.
  - cbn in Hrun. by simplify_eq.
  - cbn [unmarshalFields] in Hrun.
    destruct (fields !! name) as [k|]; [|done].
    destruct (bool_decide (name ∈ seen)); [done|].
    assert (∀ x, unmarshalScalar k v = Some x → scalar_valid x) as Hscalar.
    { intros x. destruct k, v; cbn; try done.
      - destruct (Utf8.ValidString s) eqn:Hs; [|done]. by intros [= <-].
      - by intros [= <-]. }
    destruct v; try (by eapply IH);
      (destruct (unmarshalScalar k _) as [x|] eqn:Hx; [|done];
       eapply IH; [|exact Hrun]; apply map_Forall_insert_2; auto).
Qed.

Lemma getString_valid (msg : gmap string scalar) name :
  map_Forall (λ _, scalar_valid) msg → Utf8.ValidString (getString msg name) = true.
Proof.
  intros Hmsg. unfold getString.
  destruct (msg !! name) as [[s|b]|] eqn:Hlook; try reflexivity.
  exact (Hmsg _ _ Hlook).
Qed.

Lemma unmarshalMessage_valid fields d msg :
  unmarshalMessage fields d = Some msg → map_Forall (λ _, scalar_valid) msg.
Proof.
  destruct d as [|[]]; try done. cbn.
  apply unmarshalFields_valid, map_Forall_empty.
Qed.

(** A decoded create request carries valid UTF-8 only. *)
Lemma Unmarshal_CreateTaskRequest_valid d req :
  Unmarshal_CreateTaskRequest d = Some req →
  Utf8.ValidString (CreateTitle req) = true
  ∧ Utf8.ValidString (CreateDescription req) = true.
Proof.
  unfold Unmarshal_CreateTaskRequest.
  destruct (unmarshalMessage _ d) as [msg|] eqn:Hmsg; [|done].
  apply unmarshalMessage_valid in Hmsg. cbn. intros [= <-]. cbn.
  split; by apply getString_valid.
Qed.

End ProtojsonFacts.

(** ** Storage form of a record *)

Section BsonFacts.
Import GoError Uuid Database Spec.

Lemma decodeID_to_bytes (u : UUID) :
  decodeID (Some (Bson.Binary (to_bytes u))) = Ok u.
Proof.
  unfold decodeID. rewrite of_bytes_to_bytes, to_bytes_length. reflexivity.
Qed.

(** Decoding the document written for a record gives the record back. *)
Lemma decode_marshal (t : Task) : decode (marshal t) = Ok t.
Proof.
  destruct t as [id title description completed createdAt updatedAt].
  unfold decode.
  change (marshal _ !! "_id") with (Some (Bson.Binary (to_bytes id))).
  rewrite decodeID_to_bytes. reflexivity.
Qed.

End BsonFacts.

(** ** The driver and the repository *)

Section RepositoryFacts.
Import State GoError Uuid Database Mongo Spec.

Lemma next_eq (c : Collection) : next c = (fate c, after c).
Proof. destruct c as [docs [|t net]]; reflexivity. Qed.

Lemma marshal_id (t : Task) : marshal t !! "_id" = Some (Bson.Binary (to_bytes (ID t))).
Proof. reflexivity. Qed.

Lemma decode_Err doc e : decode doc = Err e → e = decodeError.
Proof.
  unfold decode.
  intros Hdec. repeat case_match; congruence.
Qed.

Lemma matches_byID id doc :
  matches (byID id) doc ↔ doc !! "_id" = Some (Bson.Binary (to_bytes id)).
Proof. unfold matches, byID. by rewrite map_Forall_singleton. Qed.

Lemma Create_eq (t : Task) (c : Collection) :
  MongoTaskRepository.Create t c =
    match fate c with
    | Dropped => (Some (Errorf "failed to create task" transportError), after c)
    | tr =>
        if bool_decide (Exists (λ d, d !! "_id" = Some (Bson.Binary (to_bytes (ID t))))
                          (documents c))
        then (Some (Errorf "failed to create task" duplicateKey), after c)
        else (match tr with
              | ReplyLost => Some (Errorf "failed to create task" transportError)
              | _ => None
              end,
              {| documents := documents c ++ [marshal t]; network := tl (network c) |})
    end.
Proof.
  unfold MongoTaskRepository.Create, InsertOne, mbind, M_bind.
  rewrite next_eq. unfold snapshot.
  destruct (fate c); try reflexivity; rewrite marshal_id;
    cbn [after documents network]; case_bool_decide; reflexivity.
Qed.

Lemma FindByID_eq (id : UUID) (c : Collection) :
  MongoTaskRepository.FindByID id c =
    (match fate c with
     | Delivered =>
         match located id (documents c) with
         | Some (_, doc) =>
             match decode doc with
             | Ok t => (Some t, None)
             | Err e => (None, Some (Errorf "failed to find task" e))
             end
         | None => (None, None)
         end
     | _ => (None, Some (Errorf "failed to find task" transportError))
     end, after c).
Proof.
  unfold MongoTaskRepository.FindByID, FindOne, mbind, M_bind.
  rewrite next_eq. unfold snapshot, located, byID.
  destruct (fate c); try reflexivity.
  destruct (list_find _ _) as [[i doc]|]; [|reflexivity].
  cbn. destruct (decode doc) as [t|e] eqn:Hdec; [reflexivity|].
  apply decode_Err in Hdec as ->. reflexivity.
Qed.

Lemma applyUpdate_set fields doc :
  applyUpdate {[ "$set" := fields ]} doc = Ok (fields ∪ doc).
Proof. unfold applyUpdate. rewrite map_to_list_singleton. reflexivity. Qed.

Lemma Update_eq (id : UUID) (task : Task) (c : Collection) :
  MongoTaskRepository.Update id task c =
    match fate c with
    | Dropped => (Some (Errorf "failed to update task" transportError), after c)
    | tr =>
        (match tr with
         | ReplyLost => Some (Errorf "failed to update task" transportError)
         | _ => None
         end,
         {| documents :=
              match located id (documents c) with
              | Some (i, doc) => <[i := assignments task ∪ doc]> (documents c)
              | None => documents c
              end;
            network := tl (network c) |})
    end.
Proof.
  unfold MongoTaskRepository.Update, UpdateOne, mbind, M_bind.
  rewrite next_eq. unfold snapshot, located, byID.
  destruct (fate c); try reflexivity; cbn [after documents network];
    (destruct (list_find _ _) as [[i doc]|]; [|reflexivity]);
    rewrite applyUpdate_set; reflexivity.
Qed.

Lemma Delete_eq (id : UUID) (c : Collection) :
  MongoTaskRepository.Delete id c =
    match fate c with
    | Dropped => (Some (Errorf "failed to delete task" transportError), after c)
    | tr =>
        (match tr with
         | ReplyLost => Some (Errorf "failed to delete task" transportError)
         | _ => None
         end,
         {| documents :=
              match located id (documents c) with
              | Some (i, _) => delete i (documents c)
              | None => documents c
              end;
            network := tl (network c) |})
    end.
Proof.
  unfold MongoTaskRepository.Delete, DeleteOne, mbind, M_bind.
  rewrite next_eq. unfold snapshot, located, byID.
  destruct (fate c); try reflexivity; cbn [after documents network];
    (destruct (list_find _ _) as [[i doc]|]; reflexivity).
Qed.

Lemma filter_all (docs : list (gmap string Bson.value)) :
  List.filter (λ d, bool_decide (matches ∅ d)) docs = docs.
Proof.
  induction docs as [|d docs IH]; [reflexivity|]. cbn.
  rewrite bool_decide_eq_true_2 by apply map_Forall_empty. by rewrite IH.
Qed.

Lemma FindAll_eq (c : Collection) :
  MongoTaskRepository.FindAll c =
    match fate c with
    | Delivered =>
        (match fate (after c) with
         | Delivered =>
             match decodeAll (documents c) with
             | Ok tasks => (tasks, None)
             | Err e => ([], Some (Errorf "failed to decode tasks" e))
             end
         | _ => ([], Some (Errorf "failed to decode tasks" transportError))
         end, after (after c))
    | _ => (([], Some (Errorf "failed to find tasks" transportError)), after c)
    end.
Proof.
  unfold MongoTaskRepository.FindAll, Find, Cursor_All, mbind, M_bind.
  rewrite next_eq. unfold snapshot.
  destruct (fate c); try reflexivity.
  rewrite filter_all. cbn. rewrite next_eq.
  destruct (fate (after c)); try reflexivity.
  cbn. destruct (decodeAll _); reflexivity.
Qed.

Lemma after_documents c : documents (after c) = documents c.
Proof. reflexivity. Qed.

End RepositoryFacts.

(** ** Validation *)

Section ValidationFacts.
Import Tasks GoError Errors Validate.

Lemma convertValidationError_type (err : error) :
  Type_ (Validation.convertValidationError err) = VALIDATION_ERROR.
Proof. unfold Validation.convertValidationError. by case_bool_decide. Qed.

Lemma check_None message vs : check message vs = None ↔ vs = [].
Proof. destruct vs; cbn; split; congruence. Qed.

Lemma titleRule_nil title : titleRule title = [] ↔ (1 ≤ String.length title ≤ 100)%nat.
Proof. unfold titleRule. case_bool_decide; split; (done || lia). Qed.

Lemma descriptionRule_nil description :
  descriptionRule description = [] ↔ (String.length description ≤ 500)%nat.
Proof. unfold descriptionRule. case_bool_decide; split; (done || lia). Qed.

(** The validators accept exactly the requests within the length rules. *)
Lemma CreateTaskRequest_Validate_None req :
  CreateTaskRequest_Validate req = None ↔
    (1 ≤ String.length (CreateTitle req) ≤ 100)%nat
    ∧ (String.length (CreateDescription req) ≤ 500)%nat.
Proof.
  unfold CreateTaskRequest_Validate.
  rewrite check_None, app_nil, titleRule_nil, descriptionRule_nil. done.
Qed.

Lemma UpdateTaskRequest_Validate_None req :
  UpdateTaskRequest_Validate req = None ↔
    (1 ≤ String.length (UpdateTitle req) ≤ 100)%nat
    ∧ (String.length (UpdateDescription req) ≤ 500)%nat.
Proof.
  unfold UpdateTaskRequest_Validate.
  rewrite check_None, app_nil, titleRule_nil, descriptionRule_nil. done.
Qed.

End ValidationFacts.

(** ** Malformed identifiers *)

Section MalformedIdentifier.
Import Errors Http Database Handlers Spec.
Context {R : Type} `{TaskRepository R}.

(** C8.  A request to the get-by-id or to the delete endpoint whose path
    id [uuid.Parse] rejects is answered 400 with kind BAD_REQUEST, which is
    neither 404 nor 500, whatever the repository is and holds; the repository
    is handed back as it was. *)
Theorem malformed_id_is_bad_request (env : Env) (r : Request) (s : R) :
  Uuid.Parse (URLParam_id r) = None →
  (bad_request (fst (GetByID env r s)) ∧ snd (GetByID env r s) = s)
  ∧ (bad_request (fst (Delete env r s)) ∧ snd (Delete env r s) = s).
Proof.
  intros Hparse. unfold GetByID, Delete, bad_request. rewrite Hparse. cbn.
  repeat split; discriminate.
Qed.

End MalformedIdentifier.

(** C8, at the request of the spec's example: GET /api/v1/tasks/not-a-uuid
    (and DELETE of the same path) on a store holding one task. *)
Lemma malformed_id_is_bad_request_witness :
  let c := snd (MongoTaskRepository.Create
                  {| Database.ID := Uuid.Nil; Database.Title := "t";
                     Database.Description := ""; Database.Completed := false;
                     Database.CreatedAt := 0; Database.UpdatedAt := 0 |}
                  {| Mongo.documents := []; Mongo.network := [] |}) in
  let env := {| Handlers.Now := 0; Handlers.New := Uuid.Nil |} in
  let r := {| Http.URLParam_id := "not-a-uuid"; Http.ReadAll := None |} in
  (Spec.bad_request (fst (Handlers.GetByID env r c)) ∧ snd (Handlers.GetByID env r c) = c)
  ∧ (Spec.bad_request (fst (Handlers.Delete env r c)) ∧ snd (Handlers.Delete env r c) = c).
Proof.
  intros c env r. apply (malformed_id_is_bad_request env r c). reflexivity.
Defined.

(** ** Rejected create requests *)

Section RejectedCreate.
Import Tasks Errors Http Database Handlers Spec.
Context {R : Type} `{TaskRepository R}.

(** C2.  A create request whose title is empty or longer than 100, or
    whose description is longer than 500, is answered 400 with kind
    VALIDATION_ERROR.  The answer is [convertValidationError] of the
    validator's verdict on the request alone, and the repository, whatever
    implements it, is handed back untouched: no operation of it runs. *)
Theorem invalid_create_is_validation_error
    (env : Env) (r : Request) (data : Protojson.data) (req : CreateTaskRequest) (s : R) :
  ReadAll r = Some data →
  Protojson.Unmarshal_CreateTaskRequest data = Some req →
  (String.length (CreateTitle req) = 0
   ∨ 100 < String.length (CreateTitle req)
   ∨ 500 < String.length (CreateDescription req))%nat →
  ∃ err,
    Validate.CreateTaskRequest_Validate req = Some err
    ∧ Create env r s
      = (RespondWithError StatusBadRequest (Validation.convertValidationError err), s)
    ∧ Status (fst (Create env r s)) = StatusBadRequest
    ∧ kind (fst (Create env r s)) = Some VALIDATION_ERROR.
Proof.
  intros Hread Hreq Hlen.
  destruct (Validate.CreateTaskRequest_Validate req) as [err|] eqn:Hval.
  - exists err. unfold Create. rewrite Hread, Hreq, Hval. cbn.
    unfold kind. cbn. rewrite convertValidationError_type. done.
  - apply CreateTaskRequest_Validate_None in Hval. lia.
Qed.

End RejectedCreate.

(** C2, on the three requests of [TestCreateValidation]: an empty title, a
    title of 101 bytes, a description of 501 bytes. *)
Lemma invalid_create_is_validation_error_witness :
  let c := {| Mongo.documents := []; Mongo.network := [] |} in
  let env := {| Handlers.Now := 0; Handlers.New := Uuid.Nil |} in
  let zeros n := string_of_list_ascii (replicate n "000"%char) in
  let post title description :=
    {| Http.URLParam_id := "";
       Http.ReadAll := Some (Protojson.Text (Json.Object
         [("title", Json.Str title); ("description", Json.Str description)])) |} in
  let rejected title description :=
    ∃ err,
      Validate.CreateTaskRequest_Validate
        {| Tasks.CreateTitle := title; Tasks.CreateDescription := description |} = Some err
      ∧ Handlers.Create env (post title description) c
        = (Http.RespondWithError Http.StatusBadRequest
             (Validation.convertValidationError err), c)
      ∧ Http.Status (fst (Handlers.Create env (post title description) c))
        = Http.StatusBadRequest
      ∧ Spec.kind (fst (Handlers.Create env (post title description) c))
        = Some Errors.VALIDATION_ERROR in
  rejected "" "Valid description"
  ∧ rejected (zeros 101%nat) "Valid description"
  ∧ rejected "Valid title" (zeros 501%nat).
Proof.
  intros c env zeros post rejected. split_and!.
  - apply (invalid_create_is_validation_error env (post "" "Valid description")
             (Protojson.Text (Json.Object
                [("title", Json.Str ""); ("description", Json.Str "Valid description")])));
      [reflexivity | vm_compute; reflexivity | left; reflexivity].
  - apply (invalid_create_is_validation_error env
             (post (zeros 101%nat) "Valid description")
             (Protojson.Text (Json.Object
                [("title", Json.Str (zeros 101%nat));
                 ("description", Json.Str "Valid description")])));
      [reflexivity | vm_compute; reflexivity | right; left; vm_compute; lia].
  - apply (invalid_create_is_validation_error env (post "Valid title" (zeros 501%nat))
             (Protojson.Text (Json.Object
                [("title", Json.Str "Valid title");
                 ("description", Json.Str (zeros 501%nat))])));
      [reflexivity | vm_compute; reflexivity | right; right; vm_compute; lia].
Defined.

(** ** Schedules of driver calls *)

Section ScheduleFacts.
Import Mongo Spec.

Lemma delivers_S n c : delivers (S n) c ↔ fate c = Delivered ∧ delivers n (after c).
Proof.
  unfold delivers, fate, after. destruct c as [docs [|t net]]; cbn.
  - rewrite take_nil. split; [intros _; split; [done|constructor]|constructor].
  - rewrite Forall_cons. done.
Qed.

Lemma unused_located id c : unused id c ↔ located id (documents c) = None.
Proof.
  unfold unused, located. rewrite list_find_None.
  apply Forall_proper; [|done]. intros doc. by rewrite matches_byID.
Qed.

End ScheduleFacts.

(** ** Listing an empty store *)

Section EmptyListing.
Import Tasks Http Mongo Handlers Spec.

(** C9, amended.  When the collection holds no document and the two
    driver calls of [FindAll] go through, the list endpoint answers 200
    and its body is the JSON text of a response whose task sequence is
    empty.  That text is the empty object: [protojson] leaves an empty
    repeated field out, so the [tasks] member is absent (and not null). *)
Theorem empty_store_lists_empty_object (env : Env) (r : Request) (c : Collection) :
  documents c = [] →
  delivers 2 c →
  Status (fst (GetAll env r c)) = StatusOK
  ∧ Body_ (fst (GetAll env r c)) = Data (Json.Object [])
  ∧ Protojson.Marshal_ListTasksResponse {| Tasks_ := [] |} = Some (Json.Object [])
  ∧ Json.member "tasks" (Json.Object []) = None
  ∧ documents (snd (GetAll env r c)) = [].
Proof.
  intros Hdocs (Hfirst & (Hsecond & _)%delivers_S)%delivers_S.
  unfold GetAll, mbind, State.M_bind.
  cbn [Database.FindAll MongoTaskRepository.repository].
  rewrite FindAll_eq, Hfirst, Hsecond, Hdocs. cbn. done.
Qed.

End EmptyListing.

(** C9, amended, on the empty store of [TestGetAllEmpty]. *)
Lemma empty_store_lists_empty_object_witness :
  let c := {| Mongo.documents := []; Mongo.network := [Mongo.Delivered] |} in
  let env := {| Handlers.Now := 0; Handlers.New := Uuid.Nil |} in
  let r := {| Http.URLParam_id := ""; Http.ReadAll := None |} in
  fst (Handlers.GetAll env r c) = Http.Write (Json.Object []).
Proof.
  intros c env r.
  destruct (empty_store_lists_empty_object env r c eq_refl) as (Hs & Hb & _).
  { repeat constructor. }
  destruct (fst (Handlers.GetAll env r c)) as [status body]. cbn in Hs, Hb. by subst.
Defined.

(** C9 in its original wording does not hold: on the empty store the answer is 200 and
    its body is the empty object, which has no [tasks] member, so no
    [tasks] member shows an empty sequence. *)
Lemma empty_listing_has_no_tasks_member :
  let c := {| Mongo.documents := []; Mongo.network := [] |} in
  let env := {| Handlers.Now := 0; Handlers.New := Uuid.Nil |} in
  let r := {| Http.URLParam_id := ""; Http.ReadAll := None |} in
  Http.Status (fst (Handlers.GetAll env r c)) = Http.StatusOK
  ∧ Http.Body_ (fst (Handlers.GetAll env r c)) = Http.Data (Json.Object [])
  ∧ Json.member "tasks" (Json.Object []) = None
  ∧ ¬ Spec.lists_empty_sequence (fst (Handlers.GetAll env r c)).
Proof.
  intros c env r. split_and!; [reflexivity..|].
  intros (j & Hbody & Hmember). vm_compute in Hbody.
  injection Hbody as <-. discriminate Hmember.
Qed.

(** ** Update and delete of an identifier the collection does not hold *)

Section MissingIdentifier.
Import Database Mongo Spec.

(** C3.  When no document carries [id], the repository's [Update] and
    [Delete] leave the documents of the collection as they are, and, the
    driver call going through, both return no error. *)
Theorem update_delete_of_missing_id_succeed (id : Uuid.UUID) (task : Task) (c : Collection) :
  unused id c →
  documents (snd (MongoTaskRepository.Update id task c)) = documents c
  ∧ documents (snd (MongoTaskRepository.Delete id c)) = documents c
  ∧ (fate c = Delivered →
       fst (MongoTaskRepository.Update id task c) = None
       ∧ fst (MongoTaskRepository.Delete id c) = None).
Proof.
  intros Hunused%unused_located.
  rewrite Update_eq, Delete_eq, Hunused.
  split_and!; try (by destruct (fate c)); by intros ->.
Qed.

End MissingIdentifier.

(** ** Encoding of responses *)

Section MarshalFacts.
Import Tasks Protojson Database Spec.

Lemma marshalString_Some name s :
  Utf8.ValidString s = true → is_Some (marshalString name s).
Proof. intros Hs. unfold marshalString. rewrite Hs. case_bool_decide; eauto. Qed.

Lemma marshalTimestamp_Some name seconds :
  printable seconds → is_Some (marshalTimestamp name (Some (Timestamppb.New_Unix seconds))).
Proof. intros Hs. unfold marshalTimestamp. rewrite Hs. eauto. Qed.

(** A record with valid text and printable dates can be put on the wire. *)
Lemma Marshal_ToProto_Some (t : Task) :
  Utf8.ValidString (Title t) = true →
  Utf8.ValidString (Description t) = true →
  printable (CreatedAt t) →
  printable (UpdatedAt t) →
  is_Some (Marshal_GetTaskResponse {| Task_ := Some (ToProto t) |}).
Proof.
  intros Htitle Hdescription Hcreated Hupdated.
  unfold Marshal_GetTaskResponse, marshalTask, ToProto.
  cbn -[marshalString marshalTimestamp].
  destruct (marshalString_Some "id" _ (String_valid (ID t))) as [? ->].
  destruct (marshalString_Some "title" _ Htitle) as [? ->].
  destruct (marshalString_Some "description" _ Hdescription) as [? ->].
  destruct (marshalTimestamp_Some "createdAt" _ Hcreated) as [? ->].
  destruct (marshalTimestamp_Some "updatedAt" _ Hupdated) as [? ->].
  cbn. eauto.
Qed.

End MarshalFacts.

(** ** The members of a task object on the wire *)

Section WireFacts.
Import Tasks Http Database Spec.

Lemma String_nonempty (u : Uuid.UUID) : Uuid.String_ u ≠ "".
Proof.
  destruct u. cbv -[Uuid.hexdigit byte_val N.shiftr N.land]. discriminate.
Qed.

Lemma task_member_id (t : Task) (wire : Json.value) (status : Z) :
  Protojson.Marshal_GetTaskResponse {| Task_ := Some (ToProto t) |} = Some wire →
  task_member "id" (WriteHeader_Write status wire)
  = Some (Json.Str (Uuid.String_ (ID t))).
Proof.
  unfold Protojson.Marshal_GetTaskResponse, Protojson.marshalTask, ToProto.
  cbn -[Protojson.marshalString Protojson.marshalTimestamp].
  assert (Protojson.marshalString "id" (Uuid.String_ (ID t))
          = Some [("id", Json.Str (Uuid.String_ (ID t)))]) as ->.
  { unfold Protojson.marshalString.
    rewrite bool_decide_eq_false_2 by apply String_nonempty. by rewrite String_valid. }
  cbn -[Protojson.marshalString Protojson.marshalTimestamp].
  destruct (Protojson.marshalString "title" _); [|done].
  destruct (Protojson.marshalString "description" _); [|done].
  cbn -[Protojson.marshalString Protojson.marshalTimestamp].
  destruct (Protojson.marshalTimestamp "createdAt" _); [|done].
  destruct (Protojson.marshalTimestamp "updatedAt" _); [|done].
  cbn. by intros [= <-].
Qed.

Lemma marshalString_inv name s l :
  Protojson.marshalString name s = Some l →
  l = if bool_decide (s = "") then [] else [(name, Json.Str s)].
Proof.
  unfold Protojson.marshalString. destruct (bool_decide (s = "")); [by intros [= <-]|].
  destruct (Utf8.ValidString s); [by intros [= <-]|done].
Qed.

Lemma marshalTimestamp_inv name ts l :
  Protojson.marshalTimestamp name (Some ts) = Some l →
  l = [(name, Json.Str (Timestamppb.rfc3339 ts))].
Proof.
  unfold Protojson.marshalTimestamp. destruct (Timestamppb.valid ts); [by intros [= <-]|done].
Qed.

(** The members of the task object in the wire form of a record: an
    empty text and a false flag are left out, the times are printed as
    RFC 3339 texts. *)
Lemma task_members (t : Task) (wire : Json.value) (status : Z) :
  Protojson.Marshal_GetTaskResponse {| Task_ := Some (ToProto t) |} = Some wire →
  task_member "title" (WriteHeader_Write status wire)
  = (if bool_decide (Title t = "") then None else Some (Json.Str (Title t)))
  ∧ task_member "description" (WriteHeader_Write status wire)
    = (if bool_decide (Description t = "") then None
       else Some (Json.Str (Description t)))
  ∧ task_member "completed" (WriteHeader_Write status wire)
    = (if Completed t then Some (Json.Bool true) else None)
  ∧ task_member "createdAt" (WriteHeader_Write status wire)
    = Some (Json.Str (Timestamppb.rfc3339 (Timestamppb.New_Unix (CreatedAt t))))
  ∧ task_member "updatedAt" (WriteHeader_Write status wire)
    = Some (Json.Str (Timestamppb.rfc3339 (Timestamppb.New_Unix (UpdatedAt t)))).
Proof.
  unfold Protojson.Marshal_GetTaskResponse, Protojson.marshalTask, ToProto.
  cbn -[Protojson.marshalString Protojson.marshalTimestamp].
  assert (Protojson.marshalString "id" (Uuid.String_ (ID t))
          = Some [("id", Json.Str (Uuid.String_ (ID t)))]) as ->.
  { unfold Protojson.marshalString.
    rewrite bool_decide_eq_false_2 by apply String_nonempty. by rewrite String_valid. }
  destruct (Protojson.marshalString "title" (Title t)) as [title|] eqn:Htitle; [|done].
  destruct (Protojson.marshalString "description" (Description t))
    as [description|] eqn:Hdescription; [|done].
  destruct (Protojson.marshalTimestamp "createdAt" _) as [createdAt|] eqn:Hcreated; [|done].
  destruct (Protojson.marshalTimestamp "updatedAt" _) as [updatedAt|] eqn:Hupdated; [|done].
  apply marshalString_inv in Htitle as ->.
  apply marshalString_inv in Hdescription as ->.
  apply marshalTimestamp_inv in Hcreated as ->.
  apply marshalTimestamp_inv in Hupdated as ->.
  cbn -[Timestamppb.rfc3339 Timestamppb.New_Unix]. intros [= <-].
  unfold task_member, WriteHeader_Write, Json.member. cbn [Body_].
  destruct (bool_decide (Title t = "")), (bool_decide (Description t = "")),
    (Completed t); by split_and!.
Qed.

End WireFacts.

(** ** Creating a task *)

Section Creation.
Import Tasks Http Database Mongo Handlers Spec.

Lemma located_appended id (docs : list (gmap string Bson.value)) (t : Task) :
  ID t = id →
  located id docs = None →
  located id (docs ++ [marshal t]) = Some (length docs, marshal t).
Proof.
  intros <- Hnone. unfold located in *.
  rewrite list_find_app_r by done. cbn.
  rewrite decide_True by (by apply matches_byID). reflexivity.
Qed.

Lemma Create_accepted (env : Env) (r : Request) data req (c : Collection) :
  ReadAll r = Some data →
  Protojson.Unmarshal_CreateTaskRequest data = Some req →
  Validate.CreateTaskRequest_Validate req = None →
  Create env r c =
    let '(err, c') := MongoTaskRepository.Create (created env req) c in
    match err with
    | Some _ =>
        (RespondWithError StatusInternalServerError
           (Errors.NewInternalError "Failed to create task"), c')
    | None =>
        match Protojson.Marshal_GetTaskResponse
                {| Task_ := Some (ToProto (created env req)) |} with
        | None =>
            (RespondWithError StatusInternalServerError
               (Errors.NewInternalError "Failed to encode response"), c')
        | Some data' => (WriteHeader_Write StatusCreated data', c')
        end
    end.
Proof.
  intros Hread Hreq Hval. unfold Create. rewrite Hread, Hreq, Hval.
  unfold mbind, State.M_bind. cbn [Database.Create MongoTaskRepository.repository].
  fold (created env req).
  destruct (MongoTaskRepository.Create _ c) as [[e|] c']; [reflexivity|].
  destruct (Protojson.Marshal_GetTaskResponse _); reflexivity.
Qed.

(** C1.  For a create request whose title has length 1 to 100 and whose
    description has length at most 500, with the clock at a printable
    date:
    - whenever the answer is 201, the identifier drawn from [uuid.New]
      was carried by no document of the collection;
    - when the driver call goes through and the identifier is unused,
      the answer is 201 and a record is appended to the collection and
      found under its identifier afterwards; the record's id is the
      drawn identifier, its completed flag is false, and createdAt and
      updatedAt are both the one clock reading;
    - the body of that answer is the JSON text of the task message
      [ToProto] makes of that record: its id is the drawn identifier as
      [UUID.String] prints it (which parses back to that identifier), its
      title and description are the decoded ones, its completed flag is
      false, and its createdAt and updatedAt are the same timestamp, the
      clock reading;
    - in the JSON body itself the [id] member is that text, the [title]
      member is the decoded title, there is no [completed] member (the
      way [protojson] writes false), and the [createdAt] and [updatedAt]
      members are one and the same RFC 3339 text of the clock reading. *)
Theorem valid_create_stores_fresh_task
    (env : Env) (r : Request) (data : Protojson.data) (req : CreateTaskRequest)
    (c : Collection) :
  ReadAll r = Some data →
  Protojson.Unmarshal_CreateTaskRequest data = Some req →
  (1 ≤ String.length (CreateTitle req) ≤ 100)%nat →
  (String.length (CreateDescription req) ≤ 500)%nat →
  printable (Now env) →
  (Status (fst (Create env r c)) = StatusCreated → unused (New env) c)
  ∧ (fate c = Delivered → unused (New env) c →
     ∃ (task : Task) (made : Tasks.Task) (wire : Json.value),
       Create env r c
       = (WriteHeader_Write StatusCreated wire,
          {| documents := documents c ++ [marshal task]; network := tl (network c) |})
       ∧ Protojson.Marshal_GetTaskResponse {| Task_ := Some made |} = Some wire
       ∧ made = ToProto task
       ∧ stored (ID task) (snd (Create env r c)) = Some task
       ∧ ID task = New env
       ∧ Title task = CreateTitle req
       ∧ Description task = CreateDescription req
       ∧ Completed task = false
       ∧ CreatedAt task = Now env
       ∧ UpdatedAt task = Now env
       ∧ CreatedAt task = UpdatedAt task
       ∧ Tasks.Id made = Uuid.String_ (New env)
       ∧ Uuid.Parse (Tasks.Id made) = Some (New env)
       ∧ Tasks.Title made = CreateTitle req
       ∧ Tasks.Description made = CreateDescription req
       ∧ Tasks.Completed made = false
       ∧ Tasks.CreatedAt made = Some (Timestamppb.New_Unix (Now env))
       ∧ Tasks.UpdatedAt made = Tasks.CreatedAt made
       ∧ task_member "id" (fst (Create env r c))
         = Some (Json.Str (Uuid.String_ (New env)))
       ∧ task_member "title" (fst (Create env r c)) = Some (Json.Str (CreateTitle req))
       ∧ task_member "description" (fst (Create env r c))
         = (if bool_decide (CreateDescription req = "") then None
            else Some (Json.Str (CreateDescription req)))
       ∧ task_member "completed" (fst (Create env r c)) = None
       ∧ task_member "createdAt" (fst (Create env r c))
         = Some (Json.Str (Timestamppb.rfc3339 (Timestamppb.New_Unix (Now env))))
       ∧ task_member "updatedAt" (fst (Create env r c))
         = task_member "createdAt" (fst (Create env r c))).
Proof.
  intros Hread Hreq Htitle Hdescription Hclock.
  assert (Validate.CreateTaskRequest_Validate req = None) as Hval
    by (by apply CreateTaskRequest_Validate_None).
  destruct (Unmarshal_CreateTaskRequest_valid _ _ Hreq) as [Hutf1 Hutf2].
  destruct (Marshal_ToProto_Some (created env req)) as [wire Hwire]; [done..|].
  rewrite (Create_accepted env r data req c Hread Hreq Hval), Create_eq, Hwire.
  split.
  - destruct (fate c); try case_bool_decide as Hdup; cbn; try discriminate; intros _;
      apply Forall_forall; intros doc Hin Hid; apply Hdup, Exists_exists; eauto.
  - intros -> Hunused.
    rewrite (bool_decide_eq_false_2 (Exists _ (documents c))).
    2:{ intros (doc & Hin & Hid)%Exists_exists. unfold unused in Hunused.
        rewrite Forall_forall in Hunused. exact (Hunused doc Hin Hid). }
    pose proof (task_member_id (created env req) wire StatusCreated Hwire) as Hmid.
    destruct (task_members (created env req) wire StatusCreated Hwire)
      as (Hmtitle & Hmdescription & Hmcompleted & Hmcreated & Hmupdated).
    cbn [created Title Description Completed CreatedAt UpdatedAt ID]
      in Hmid, Hmtitle, Hmdescription, Hmcompleted, Hmcreated, Hmupdated.
    rewrite (bool_decide_eq_false_2 (CreateTitle req = "")) in Hmtitle
      by (intros Hempty; rewrite Hempty in Htitle; cbn in Htitle; lia).
    exists (created env req), (ToProto (created env req)), wire. cbn [fst snd].
    split_and!.
    + reflexivity.
    + exact Hwire.
    + reflexivity.
    + unfold stored. cbn [documents created ID].
      apply unused_located in Hunused.
      rewrite (located_appended (New env)) by done. by rewrite decode_marshal.
    + reflexivity.
    + reflexivity.
    + reflexivity.
    + reflexivity.
    + reflexivity.
    + reflexivity.
    + reflexivity.
    + reflexivity.
    + apply Parse_String.
    + reflexivity.
    + reflexivity.
    + reflexivity.
    + reflexivity.
    + reflexivity.
    + exact Hmid.
    + exact Hmtitle.
    + exact Hmdescription.
    + exact Hmcompleted.
    + exact Hmcreated.
    + by rewrite Hmupdated, Hmcreated.
Qed.

(** What an answer of 201 tells about the request and the collection. *)
Lemma Create_201 (env : Env) (r : Request) (c : Collection) :
  Status (fst (Create env r c)) = StatusCreated →
  ∃ data req wire,
    ReadAll r = Some data
    ∧ Protojson.Unmarshal_CreateTaskRequest data = Some req
    ∧ Validate.CreateTaskRequest_Validate req = None
    ∧ fate c = Delivered
    ∧ unused (New env) c
    ∧ Protojson.Marshal_GetTaskResponse {| Task_ := Some (ToProto (created env req)) |}
      = Some wire
    ∧ Create env r c
      = (WriteHeader_Write StatusCreated wire,
         {| documents := documents c ++ [marshal (created env req)];
            network := tl (network c) |}).
Proof.
  intros Hstatus.
  destruct (ReadAll r) as [data|] eqn:Hread;
    [|by unfold Create in Hstatus; rewrite Hread in Hstatus].
  destruct (Protojson.Unmarshal_CreateTaskRequest data) as [req|] eqn:Hreq;
    [|by unfold Create in Hstatus; rewrite Hread, Hreq in Hstatus].
  destruct (Validate.CreateTaskRequest_Validate req) as [err|] eqn:Hval;
    [by unfold Create in Hstatus; rewrite Hread, Hreq, Hval in Hstatus|].
  rewrite (Create_accepted env r data req c Hread Hreq Hval), Create_eq in Hstatus |- *.
  destruct (Protojson.Marshal_GetTaskResponse _) as [wire|] eqn:Hwire;
    destruct (fate c); try case_bool_decide as Hdup; cbn in Hstatus; try discriminate.
  exists data, req, wire. split_and!; try done.
  apply Forall_forall; intros doc Hin Hid; apply Hdup, Exists_exists; eauto.
Qed.

End Creation.

(** C1 on the example of the spec: POST of the title "My Task" and the
    description "desc". *)
Lemma valid_create_stores_fresh_task_witness :
  let c := {| Mongo.documents := []; Mongo.network := [] |} in
  let id := default Uuid.Nil (Uuid.Parse "550e8400-e29b-41d4-a716-446655440000") in
  let env := {| Handlers.Now := 1234567890; Handlers.New := id |} in
  let r := {| Http.URLParam_id := "";
              Http.ReadAll := Some (Protojson.Text (Json.Object
                [("title", Json.Str "My Task"); ("description", Json.Str "desc")])) |} in
  Http.Status (fst (Handlers.Create env r c)) = Http.StatusCreated
  ∧ Spec.stored id (snd (Handlers.Create env r c))
    = Some {| Database.ID := id; Database.Title := "My Task";
              Database.Description := "desc"; Database.Completed := false;
              Database.CreatedAt := 1234567890; Database.UpdatedAt := 1234567890 |}
  ∧ Spec.task_member "id" (fst (Handlers.Create env r c))
    = Some (Json.Str "550e8400-e29b-41d4-a716-446655440000")
  ∧ Spec.task_member "title" (fst (Handlers.Create env r c)) = Some (Json.Str "My Task")
  ∧ Spec.task_member "completed" (fst (Handlers.Create env r c)) = None
  ∧ Spec.task_member "createdAt" (fst (Handlers.Create env r c))
    = Some (Json.Str "2009-02-13T23:31:30Z")
  ∧ Spec.task_member "updatedAt" (fst (Handlers.Create env r c))
    = Some (Json.Str "2009-02-13T23:31:30Z").
Proof.
  intros c id env r.
  destruct (valid_create_stores_fresh_task env r _ _ c eq_refl eq_refl) as [_ Hcreated].
  - vm_compute. lia.
  - vm_compute. lia.
  - reflexivity.
  - destruct Hcreated
      as (task & made & wire & Heq & _ & _ & Hstored & Hid & Ht & Hd & Hc & Hca & Hua & _
          & _ & _ & _ & _ & _ & _ & _ & Hmid & Hmtitle & _ & Hmcompleted & Hmcreated
          & Hmupdated).
    + reflexivity.
    + constructor.
    + split_and!.
      * by rewrite Heq.
      * rewrite Hid in Hstored. change (Handlers.New env) with id in Hstored.
        rewrite Hstored. destruct task. cbn in Hid, Ht, Hd, Hc, Hca, Hua. by subst.
      * rewrite Hmid. vm_compute. reflexivity.
      * exact Hmtitle.
      * exact Hmcompleted.
      * rewrite Hmcreated. vm_compute. reflexivity.
      * rewrite Hmupdated, Hmcreated. vm_compute. reflexivity.
Defined.

(** ** Create, then fetch *)

Section RoundTrip.
Import Tasks Http Database Mongo Handlers Spec.

(** C5.  When a create request is answered 201, the answer is the wire
    form of a task; fetching by the id of that task, the driver call going
    through, is answered 200 with the wire form of a task whose title,
    description, completed flag and updatedAt are those of the created
    one.  (Only valid create requests are answered 201.) *)
Theorem create_then_fetch_round_trip (env env' : Env) (r : Request) (c : Collection) :
  Status (fst (Create env r c)) = StatusCreated →
  fate (snd (Create env r c)) = Delivered →
  ∃ (made : Tasks.Task) (wire : Json.value),
    fst (Create env r c) = WriteHeader_Write StatusCreated wire
    ∧ Protojson.Marshal_GetTaskResponse {| Task_ := Some made |} = Some wire
    ∧ ∀ r', URLParam_id r' = Tasks.Id made →
        ∃ (fetched : Tasks.Task) (wire' : Json.value),
          fst (GetByID env' r' (snd (Create env r c))) = Write wire'
          ∧ Status (fst (GetByID env' r' (snd (Create env r c)))) = StatusOK
          ∧ Protojson.Marshal_GetTaskResponse {| Task_ := Some fetched |} = Some wire'
          ∧ Tasks.Title fetched = Tasks.Title made
          ∧ Tasks.Description fetched = Tasks.Description made
          ∧ Tasks.Completed fetched = Tasks.Completed made
          ∧ Tasks.UpdatedAt fetched = Tasks.UpdatedAt made.
Proof.
  intros (data & req & wire & _ & _ & _ & _ & Hunused & Hwire & Heq)%Create_201 Hfate.
  rewrite Heq in *. cbn [fst snd] in *.
  exists (ToProto (created env req)), wire. split_and!; [done..|].
  intros r' Hid. exists (ToProto (created env req)), wire.
  unfold GetByID. rewrite Hid. cbn [Tasks.Id ToProto]. rewrite Parse_String.
  unfold mbind, State.M_bind. cbn [Database.FindByID MongoTaskRepository.repository].
  rewrite FindByID_eq, Hfate. cbn [documents].
  apply unused_located in Hunused.
  rewrite (located_appended (New env)) by done.
  rewrite decode_marshal, Hwire. done.
Qed.

End RoundTrip.

(** C5 on the first two steps of [TestIntegrationFullWorkflow]. *)
Lemma create_then_fetch_round_trip_witness :
  let c := {| Mongo.documents := []; Mongo.network := [] |} in
  let id := default Uuid.Nil (Uuid.Parse "550e8400-e29b-41d4-a716-446655440000") in
  let env := {| Handlers.Now := 1234567890; Handlers.New := id |} in
  let env' := {| Handlers.Now := 1234567895; Handlers.New := Uuid.Nil |} in
  let r := {| Http.URLParam_id := "";
              Http.ReadAll := Some (Protojson.Text (Json.Object
                [("title", Json.Str "Workflow Task");
                 ("description", Json.Str "Testing full workflow")])) |} in
  ∃ made wire,
    fst (Handlers.Create env r c) = Http.WriteHeader_Write Http.StatusCreated wire
    ∧ Protojson.Marshal_GetTaskResponse {| Tasks.Task_ := Some made |} = Some wire
    ∧ ∀ r', Http.URLParam_id r' = Tasks.Id made →
        ∃ fetched wire',
          fst (Handlers.GetByID env' r' (snd (Handlers.Create env r c))) = Http.Write wire'
          ∧ Http.Status (fst (Handlers.GetByID env' r' (snd (Handlers.Create env r c))))
            = Http.StatusOK
          ∧ Protojson.Marshal_GetTaskResponse {| Tasks.Task_ := Some fetched |} = Some wire'
          ∧ Tasks.Title fetched = Tasks.Title made
          ∧ Tasks.Description fetched = Tasks.Description made
          ∧ Tasks.Completed fetched = Tasks.Completed made
          ∧ Tasks.UpdatedAt fetched = Tasks.UpdatedAt made.
Proof.
  intros c id env env' r.
  apply (create_then_fetch_round_trip env env' r c); vm_compute; reflexivity.
Defined.

(** ** Updating a task *)

Section Updating.
Import Tasks GoError Http Database Mongo Handlers Spec.

Lemma assignments_frame (task : Task) (k : string) :
  k ∉ ["title"; "description"; "completed"; "updatedAt"] →
  assignments task !! k = None.
Proof.
  rewrite !not_elem_of_cons. intros (? & ? & ? & ? & _).
  unfold assignments. by rewrite !lookup_insert_ne, lookup_singleton_ne.
Qed.

Lemma assigned_frame (task : Task) (doc : gmap string Bson.value) (k : string) :
  k ∉ ["title"; "description"; "completed"; "updatedAt"] →
  (assignments task ∪ doc) !! k = doc !! k.
Proof. intros Hk. by rewrite lookup_union_r by by apply assignments_frame. Qed.

Lemma id_not_assigned : "_id" ∉ ["title"; "description"; "completed"; "updatedAt"].
Proof. rewrite !not_elem_of_cons. split_and!; [discriminate..|apply not_elem_of_nil]. Qed.

Lemma createdAt_not_assigned :
  "createdAt" ∉ ["title"; "description"; "completed"; "updatedAt"].
Proof. rewrite !not_elem_of_cons. split_and!; [discriminate..|apply not_elem_of_nil]. Qed.

Lemma decode_Ok doc t :
  decode doc = Ok t →
  decodeID (doc !! "_id") = Ok (ID t)
  ∧ decodeInt64 (doc !! "createdAt") = Ok (CreatedAt t).
Proof. unfold decode. intros Hdec. repeat case_match; by simplify_eq. Qed.

(** The document an update leaves decodes to the old record with the four
    assigned fields replaced. *)
Lemma decode_assigned (task prior : Task) (doc : gmap string Bson.value) :
  decode doc = Ok prior →
  decode (assignments task ∪ doc)
  = Ok {| ID := ID prior; Title := Title task; Description := Description task;
          Completed := Completed task; CreatedAt := CreatedAt prior;
          UpdatedAt := UpdatedAt task |}.
Proof.
  intros [Hid Hcreated]%decode_Ok. unfold decode.
  rewrite (assigned_frame task doc "_id") by apply id_not_assigned.
  rewrite (assigned_frame task doc "createdAt") by apply createdAt_not_assigned.
  rewrite Hid, Hcreated.
  rewrite (lookup_union_Some_l _ _ "title" (Bson.String_ (Title task))) by done.
  rewrite (lookup_union_Some_l _ _ "description" (Bson.String_ (Description task))) by done.
  rewrite (lookup_union_Some_l _ _ "completed" (Bson.Boolean (Completed task))) by done.
  rewrite (lookup_union_Some_l _ _ "updatedAt" (Bson.Int64 (UpdatedAt task))) by done.
  reflexivity.
Qed.

Lemma located_Some id docs i doc :
  located id docs = Some (i, doc) →
  docs !! i = Some doc ∧ doc !! "_id" = Some (Bson.Binary (Uuid.to_bytes id)).
Proof.
  unfold located. intros (Hi & Hm & _)%list_find_Some. by apply matches_byID in Hm.
Qed.

Lemma located_assigned id docs i doc (task : Task) :
  located id docs = Some (i, doc) →
  located id (<[i := assignments task ∪ doc]> docs) = Some (i, assignments task ∪ doc).
Proof.
  unfold located. intros (Hi & Hm & Hfirst)%list_find_Some.
  apply list_find_insert_Some. right; left. split_and!; try done.
  - by eapply lookup_lt_Some.
  - apply matches_byID. rewrite assigned_frame by apply id_not_assigned.
    by apply matches_byID.
Qed.

(** The four outcomes of [Update] that leave the documents alone, and the
    one that rewrites a document. *)
Lemma Update_effect (env : Env) (r : Request) (c : Collection) :
  documents (snd (Update env r c)) = documents c
  ∨ ∃ id data req i doc prior,
      Uuid.Parse (URLParam_id r) = Some id
      ∧ ReadAll r = Some data
      ∧ Protojson.Unmarshal_UpdateTaskRequest data = Some req
      ∧ Validate.UpdateTaskRequest_Validate req = None
      ∧ located id (documents c) = Some (i, doc)
      ∧ decode doc = Ok prior
      ∧ documents (snd (Update env r c))
        = <[i := assignments (amend prior req (Now env)) ∪ doc]> (documents c).
Proof.
  unfold Update.
  destruct (Uuid.Parse _) as [id|] eqn:Hid; [|by left].
  destruct (ReadAll r) as [data|] eqn:Hread; [|by left].
  destruct (Protojson.Unmarshal_UpdateTaskRequest data) as [req|] eqn:Hreq; [|by left].
  destruct (Validate.UpdateTaskRequest_Validate req) eqn:Hval; [by left|].
  unfold mbind, State.M_bind.
  cbn [Database.FindByID Database.Update MongoTaskRepository.repository].
  rewrite FindByID_eq.
  destruct (fate c); [|by left..].
  destruct (located id (documents c)) as [[i doc]|] eqn:Hloc; [|by left].
  destruct (decode doc) as [prior|] eqn:Hdec; [|by left].
  rewrite Update_eq, after_documents, Hloc.
  destruct (fate (after c)); [| by left |];
    (right; exists id, data, req, i, doc, prior; split_and!; try done;
     try (by destruct (Protojson.Marshal_GetTaskResponse _))).
Qed.

(** [Update] on a stored record, both driver calls going through. *)
Lemma Update_applied (env : Env) (r : Request) id data req (c : Collection) i doc prior :
  Uuid.Parse (URLParam_id r) = Some id →
  ReadAll r = Some data →
  Protojson.Unmarshal_UpdateTaskRequest data = Some req →
  Validate.UpdateTaskRequest_Validate req = None →
  delivers 2 c →
  located id (documents c) = Some (i, doc) →
  decode doc = Ok prior →
  documents (snd (Update env r c))
  = <[i := assignments (amend prior req (Now env)) ∪ doc]> (documents c)
  ∧ stored id (snd (Update env r c)) = Some (amend prior req (Now env)).
Proof.
  intros Hid Hread Hreq Hval (Hfirst & (Hsecond & _)%delivers_S)%delivers_S Hloc Hdec.
  assert (documents (snd (Update env r c))
          = <[i := assignments (amend prior req (Now env)) ∪ doc]> (documents c)) as Hdocs.
  { unfold Update. rewrite Hid, Hread, Hreq, Hval.
    unfold mbind, State.M_bind.
    cbn [Database.FindByID Database.Update MongoTaskRepository.repository].
    rewrite FindByID_eq, Hfirst, Hloc, Hdec, Update_eq, Hsecond, after_documents, Hloc.
    by destruct (Protojson.Marshal_GetTaskResponse _). }
  split; [done|].
  unfold stored. rewrite Hdocs, (located_assigned id _ i doc) by done.
  rewrite (decode_assigned _ prior) by done. reflexivity.
Qed.

End Updating.

Section UpdateFrame.
Import Tasks GoError Http Database Mongo Handlers Spec.

Lemma assigned_untouched (task : Task) doc :
  untouched doc (assignments task ∪ doc) ∧ same_identity doc (assignments task ∪ doc).
Proof.
  split; [split_and!|].
  - apply assigned_frame, id_not_assigned.
  - apply assigned_frame, createdAt_not_assigned.
  - intros k. apply assigned_frame.
  - intros t Hdec. rewrite (decode_assigned task t doc Hdec). eauto.
Qed.

Lemma same_untouched doc : untouched doc doc ∧ same_identity doc doc.
Proof. split; [done|]. intros t Hdec. eauto. Qed.

Lemma rewritten_lookup (docs : list (gmap string Bson.value)) id j d (task : Task) i doc :
  located id docs = Some (j, d) →
  docs !! i = Some doc →
  ∃ doc', <[j := assignments task ∪ d]> docs !! i = Some doc'
          ∧ untouched doc doc' ∧ same_identity doc doc'.
Proof.
  intros [Hj _]%located_Some Hi. destruct (decide (j = i)) as [->|Hne].
  - rewrite Hi in Hj. injection Hj as <-.
    exists (assignments task ∪ doc). split; [|apply assigned_untouched].
    apply list_lookup_insert_eq. by eapply lookup_lt_Some.
  - exists doc. rewrite list_lookup_insert_ne by done. split; [done|apply same_untouched].
Qed.

(** C7.  An update, through the repository method or through the handler,
    keeps every document of the collection in its place and changes at
    most the elements title, description, completed and updatedAt of it:
    [_id] and [createdAt] are as before, and a document that decoded to a
    record still decodes to one with the same id and createdAt. *)
Theorem update_keeps_id_and_createdAt
    (env : Env) (r : Request) (id : Uuid.UUID) (task : Task) (c : Collection)
    (i : nat) (doc : gmap string Bson.value) :
  documents c !! i = Some doc →
  (∃ doc', documents (snd (MongoTaskRepository.Update id task c)) !! i = Some doc'
           ∧ untouched doc doc' ∧ same_identity doc doc')
  ∧ (∃ doc', documents (snd (Handlers.Update env r c)) !! i = Some doc'
             ∧ untouched doc doc' ∧ same_identity doc doc')
  ∧ length (documents (snd (MongoTaskRepository.Update id task c))) = length (documents c)
  ∧ length (documents (snd (Handlers.Update env r c))) = length (documents c).
Proof.
  intros Hi.
  assert (∃ doc', documents c !! i = Some doc'
                  ∧ untouched doc doc' ∧ same_identity doc doc') as Hsame
    by (exists doc; split; [done|apply same_untouched]).
  split_and!.
  - rewrite Update_eq. destruct (fate c); cbn [snd documents after]; try done;
      (destruct (located id (documents c)) as [[j d]|] eqn:Hloc; [|done]);
      by eapply rewritten_lookup.
  - destruct (Update_effect env r c)
      as [-> | (id' & data & req & j & d & prior & _ & _ & _ & _ & Hloc & _ & ->)];
      [done|]. by eapply rewritten_lookup.
  - rewrite Update_eq. destruct (fate c); cbn [snd documents after]; try done;
      (destruct (located id (documents c)) as [[j d]|]; [|done]);
      apply length_insert.
  - destruct (Update_effect env r c)
      as [-> | (id' & data & req & j & d & prior & _ & _ & _ & _ & _ & _ & ->)];
      [done|]. apply length_insert.
Qed.

Lemma stored_Some id c t :
  stored id c = Some t →
  ∃ i doc, located id (documents c) = Some (i, doc) ∧ decode doc = Ok t.
Proof.
  unfold stored. destruct (located id (documents c)) as [[i doc]|]; [|done].
  destruct (decode doc) as [t'|] eqn:Hdec; [|done]. intros [= <-]. eauto.
Qed.

(** The stored record is what the repository's [FindByID] returns when the
    driver call goes through. *)
Lemma FindByID_stored id (c : Collection) t :
  fate c = Delivered →
  stored id c = Some t →
  fst (MongoTaskRepository.FindByID id c) = (Some t, None).
Proof.
  intros Hfate (i & doc & Hloc & Hdec)%stored_Some.
  by rewrite FindByID_eq, Hfate, Hloc, Hdec.
Qed.

(** C4.  For a stored task and a valid update request, both driver calls
    going through: when the request carries no [completed], the stored
    record keeps its completed flag; when it carries [completed = true],
    the flag is true afterwards; and updatedAt, set to the clock reading,
    is no earlier than before when the clock has not gone back. *)
Theorem update_completed_and_updatedAt
    (env : Env) (r : Request) (id : Uuid.UUID) (data : Protojson.data)
    (req : UpdateTaskRequest) (c : Collection) (prior : Task) :
  Uuid.Parse (URLParam_id r) = Some id →
  ReadAll r = Some data →
  Protojson.Unmarshal_UpdateTaskRequest data = Some req →
  (1 ≤ String.length (UpdateTitle req) ≤ 100)%nat →
  (String.length (UpdateDescription req) ≤ 500)%nat →
  stored id c = Some prior →
  delivers 2 c →
  UpdatedAt prior ≤ Now env →
  ∃ updated,
    stored id (snd (Handlers.Update env r c)) = Some updated
    ∧ (UpdateCompleted req = None → Completed updated = Completed prior)
    ∧ (UpdateCompleted req = Some true → Completed updated = true)
    ∧ UpdatedAt updated = Now env
    ∧ UpdatedAt prior ≤ UpdatedAt updated.
Proof.
  intros Hid Hread Hreq Htitle Hdescription (i & doc & Hloc & Hdec)%stored_Some Hnet Hclock.
  assert (Validate.UpdateTaskRequest_Validate req = None) as Hval
    by (by apply UpdateTaskRequest_Validate_None).
  destruct (Update_applied env r id data req c i doc prior) as [_ Hstored]; try done.
  exists (amend prior req (Now env)). split_and!; try done.
  - cbn. by intros ->.
  - cbn. by intros ->.
Qed.

End UpdateFrame.

(** C3 on the store of [TestIntegrationDelete] and the identifier of
    [TestIntegrationDeleteNotFound]. *)
Lemma update_delete_of_missing_id_succeed_witness :
  let present := default Uuid.Nil (Uuid.Parse "550e8400-e29b-41d4-a716-446655440004") in
  let missing := default Uuid.Nil (Uuid.Parse "550e8400-e29b-41d4-a716-999999999998") in
  let task := {| Database.ID := present; Database.Title := "Task to Delete";
                 Database.Description := "Will be deleted"; Database.Completed := false;
                 Database.CreatedAt := 1234567890; Database.UpdatedAt := 1234567890 |} in
  let c := {| Mongo.documents := [Database.marshal task]; Mongo.network := [] |} in
  Mongo.documents (snd (MongoTaskRepository.Update missing task c)) = Mongo.documents c
  ∧ Mongo.documents (snd (MongoTaskRepository.Delete missing c)) = Mongo.documents c
  ∧ fst (MongoTaskRepository.Update missing task c) = None
  ∧ fst (MongoTaskRepository.Delete missing c) = None.
Proof.
  intros present missing task c.
  destruct (update_delete_of_missing_id_succeed missing task c) as (Hu & Hd & Hok).
  - apply Forall_cons_2; [|apply Forall_nil_2]. vm_compute. discriminate.
  - destruct (Hok eq_refl) as [Hu' Hd']. exact (conj Hu (conj Hd (conj Hu' Hd'))).
Defined.

(** C7 on the request of [TestIntegrationUpdate]. *)
Lemma update_keeps_id_and_createdAt_witness :
  let id := default Uuid.Nil (Uuid.Parse "550e8400-e29b-41d4-a716-446655440002") in
  let task := {| Database.ID := id; Database.Title := "Original Title";
                 Database.Description := "Original Description";
                 Database.Completed := false;
                 Database.CreatedAt := 1234567890; Database.UpdatedAt := 1234567890 |} in
  let c := {| Mongo.documents := [Database.marshal task]; Mongo.network := [] |} in
  let env := {| Handlers.Now := 1234567899; Handlers.New := Uuid.Nil |} in
  let r := {| Http.URLParam_id := "550e8400-e29b-41d4-a716-446655440002";
              Http.ReadAll := Some (Protojson.Text (Json.Object
                [("title", Json.Str "Updated Title");
                 ("description", Json.Str "Updated Description")])) |} in
  ∃ doc', Mongo.documents (snd (Handlers.Update env r c)) !! 0%nat = Some doc'
          ∧ Spec.untouched (Database.marshal task) doc'
          ∧ Spec.same_identity (Database.marshal task) doc'.
Proof.
  intros id task c env r.
  exact (proj1 (proj2 (update_keeps_id_and_createdAt env r id task c 0 _ eq_refl))).
Defined.

(** C4 on the request of [TestIntegrationUpdateCompleted]. *)
Lemma update_completed_and_updatedAt_witness :
  let id := default Uuid.Nil (Uuid.Parse "550e8400-e29b-41d4-a716-446655440003") in
  let prior := {| Database.ID := id; Database.Title := "Task to Complete";
                  Database.Description := "Description"; Database.Completed := false;
                  Database.CreatedAt := 1234567890; Database.UpdatedAt := 1234567890 |} in
  let c := {| Mongo.documents := [Database.marshal prior]; Mongo.network := [] |} in
  let env := {| Handlers.Now := 1234567899; Handlers.New := Uuid.Nil |} in
  let req := {| Tasks.UpdateTitle := "Task to Complete";
                Tasks.UpdateDescription := "Description";
                Tasks.UpdateCompleted := Some true |} in
  let data := Protojson.Text (Json.Object
                [("title", Json.Str "Task to Complete");
                 ("description", Json.Str "Description");
                 ("completed", Json.Bool true)]) in
  let r := {| Http.URLParam_id := "550e8400-e29b-41d4-a716-446655440003";
              Http.ReadAll := Some data |} in
  ∃ updated,
    Spec.stored id (snd (Handlers.Update env r c)) = Some updated
    ∧ (Tasks.UpdateCompleted req = None →
       Database.Completed updated = Database.Completed prior)
    ∧ (Tasks.UpdateCompleted req = Some true → Database.Completed updated = true)
    ∧ Database.UpdatedAt updated = Handlers.Now env
    ∧ Database.UpdatedAt prior ≤ Database.UpdatedAt updated.
Proof.
  intros id prior c env req data r.
  apply (update_completed_and_updatedAt env r id data req c prior).
  - vm_compute. reflexivity.
  - reflexivity.
  - vm_compute. reflexivity.
  - vm_compute. lia.
  - vm_compute. lia.
  - vm_compute. reflexivity.
  - apply Forall_nil_2.
  - vm_compute. discriminate.
Defined.

(** ** Absent members of an update body *)

Section AbsentMembers.
Import Tasks GoError Errors Http Database Mongo Handlers Spec.

Lemma unmarshalFields_absent fields name members :
  name ∉ members.*1 →
  ∀ seen msg msg',
    Protojson.unmarshalFields fields seen members msg = Some msg' →
    msg' !! name = msg !! name.
Proof.
  induction members as [|[n v] rest IH]; intros Habsent seen msg msg' Hrun.
  - cbn in Hrun. by simplify_eq.
  - cbn in Habsent. apply not_elem_of_cons in Habsent as [Hne Habsent].
    cbn [Protojson.unmarshalFields] in Hrun.
    destruct (fields !! n) as [k|]; [|done].
    destruct (bool_decide (n ∈ seen)); [done|].
    destruct v; try (by eapply IH);
      (destruct (Protojson.unmarshalScalar k _) as [x|]; [|done];
       rewrite (IH Habsent _ _ _ Hrun); by apply lookup_insert_ne).
Qed.

(** A member the body does not carry decodes to the empty string. *)
Lemma Unmarshal_UpdateTaskRequest_absent members req :
  Protojson.Unmarshal_UpdateTaskRequest (Protojson.Text (Json.Object members)) = Some req →
  ("title" ∉ members.*1 → UpdateTitle req = "")
  ∧ ("description" ∉ members.*1 → UpdateDescription req = "").
Proof.
  unfold Protojson.Unmarshal_UpdateTaskRequest, Protojson.unmarshalMessage.
  destruct (Protojson.unmarshalFields _ _ _ _) as [msg|] eqn:Hmsg; [|done].
  cbn. intros [= <-]. cbn. unfold Protojson.getString.
  split; intros Habsent;
    by rewrite (unmarshalFields_absent _ _ _ Habsent _ _ _ Hmsg), lookup_empty.
Qed.

(** C10.  For an update request with a parseable id whose body is a JSON
    object that decodes:
    - a body without a [title] member decodes to the empty title, which
      validation rejects: the answer is 400 with kind VALIDATION_ERROR
      and the collection is left as it was;
    - a body without a [description] member decodes to the empty
      description;
    - when the request passes validation, the record is stored and both
      driver calls go through, the stored title and description
      afterwards are the decoded ones, so a body that omits the
      description leaves the stored description empty. *)
Theorem update_overwrites_title_and_description
    (env : Env) (r : Request) (id : Uuid.UUID) (members : list (string * Json.value))
    (req : UpdateTaskRequest) (c : Collection) :
  Uuid.Parse (URLParam_id r) = Some id →
  ReadAll r = Some (Protojson.Text (Json.Object members)) →
  Protojson.Unmarshal_UpdateTaskRequest (Protojson.Text (Json.Object members)) = Some req →
  ("title" ∉ members.*1 →
     UpdateTitle req = ""
     ∧ Status (fst (Handlers.Update env r c)) = StatusBadRequest
     ∧ kind (fst (Handlers.Update env r c)) = Some VALIDATION_ERROR
     ∧ snd (Handlers.Update env r c) = c)
  ∧ ("description" ∉ members.*1 → UpdateDescription req = "")
  ∧ (Validate.UpdateTaskRequest_Validate req = None →
     delivers 2 c →
     ∀ prior, stored id c = Some prior →
       ∃ updated,
         stored id (snd (Handlers.Update env r c)) = Some updated
         ∧ Title updated = UpdateTitle req
         ∧ Description updated = UpdateDescription req
         ∧ ("description" ∉ members.*1 → Description updated = "")).
Proof.
  intros Hid Hread Hreq.
  destruct (Unmarshal_UpdateTaskRequest_absent members req Hreq) as [Htitle Hdescription].
  split_and!; [|done|].
  - intros Habsent. specialize (Htitle Habsent). split; [done|].
    destruct (Validate.UpdateTaskRequest_Validate req) as [err|] eqn:Hval.
    + unfold Handlers.Update. rewrite Hid, Hread, Hreq, Hval. cbn.
      unfold kind. cbn. by rewrite convertValidationError_type.
    + apply UpdateTaskRequest_Validate_None in Hval. rewrite Htitle in Hval.
      cbn in Hval. lia.
  - intros Hval Hnet prior (i & doc & Hloc & Hdec)%stored_Some.
    destruct (Update_applied env r id (Protojson.Text (Json.Object members)) req c
                i doc prior) as [_ Hstored]; try done.
    exists (amend prior req (Now env)). split_and!; try done.
Qed.

End AbsentMembers.

(** ** The timestamps of every reachable record *)

Section Timestamps.
Import Tasks GoError Http Database Mongo Handlers Spec.

Lemma assigned_marshal (t : Task) (req : UpdateTaskRequest) (now : Z) :
  assignments (amend t req now) ∪ marshal t = marshal (amend t req now).
Proof. destruct t. reflexivity. Qed.

Lemma timely_mono lb lb' doc : lb ≤ lb' → timely lb doc → timely lb' doc.
Proof. intros Hle (t & -> & Ht). exists t. split; [done|lia]. Qed.

Lemma Create_effect (env : Env) (r : Request) (c : Collection) :
  documents (snd (Create env r c)) = documents c
  ∨ ∃ req, unused (New env) c
           ∧ documents (snd (Create env r c))
             = (documents c ++ [marshal (created env req)])%list.
Proof.
  unfold Create.
  destruct (ReadAll r) as [data|]; [|by left].
  destruct (Protojson.Unmarshal_CreateTaskRequest data) as [req|]; [|by left].
  destruct (Validate.CreateTaskRequest_Validate req); [by left|].
  unfold mbind, State.M_bind. cbn [Database.Create MongoTaskRepository.repository].
  fold (created env req). rewrite Create_eq.
  destruct (fate c); try case_bool_decide as Hdup; try (by left);
    right; exists req;
    (split;
     [apply Forall_forall; intros doc Hin Hid; apply Hdup, Exists_exists; eauto
     |first [done | by destruct (Protojson.Marshal_GetTaskResponse _)]]).
Qed.

Lemma Delete_effect (env : Env) (r : Request) (c : Collection) :
  documents (snd (Delete env r c)) = documents c
  ∨ ∃ i, documents (snd (Delete env r c)) = delete i (documents c).
Proof.
  unfold Delete. destruct (Uuid.Parse _) as [id|]; [|by left].
  unfold mbind, State.M_bind. cbn [Database.Delete MongoTaskRepository.repository].
  rewrite Delete_eq.
  destruct (fate c); try (by left);
    (destruct (located id (documents c)) as [[i doc]|]; [right; by exists i|by left]).
Qed.

Lemma GetAll_effect (env : Env) (r : Request) (c : Collection) :
  documents (snd (GetAll env r c)) = documents c.
Proof.
  unfold GetAll, mbind, State.M_bind.
  cbn [Database.FindAll MongoTaskRepository.repository]. rewrite FindAll_eq.
  destruct (fate c); try done.
  destruct (fate (after c)); try done.
  destruct (decodeAll _); try done.
  by destruct (Protojson.Marshal_ListTasksResponse _).
Qed.

Lemma GetByID_effect (env : Env) (r : Request) (c : Collection) :
  documents (snd (GetByID env r c)) = documents c.
Proof.
  unfold GetByID. destruct (Uuid.Parse _) as [id|]; [|done].
  unfold mbind, State.M_bind.
  cbn [Database.FindByID MongoTaskRepository.repository]. rewrite FindByID_eq.
  destruct (fate c); try done.
  destruct (located id (documents c)) as [[i doc]|]; [|done].
  destruct (decode doc); [|done].
  by destruct (Protojson.Marshal_GetTaskResponse _).
Qed.

(** One request keeps every document timely, up to the reading of the
    clock it was served at. *)
Lemma serve_timely route (env : Env) (r : Request) (c : Collection) (bound : Z) :
  Forall (timely bound) (documents c) →
  bound ≤ Now env →
  Forall (timely (Now env)) (documents (snd (serve route env r c))).
Proof.
  intros Hdocs Hclock.
  assert (Forall (timely (Now env)) (documents c)) as Hnow
    by (eapply Forall_impl; [done|]; intros doc; by apply timely_mono).
  destruct route; cbn [serve].
  - by rewrite GetAll_effect.
  - destruct (Create_effect env r c) as [-> | (req & _ & ->)]; [done|].
    apply Forall_app. split; [done|]. apply Forall_singleton.
    exists (created env req). split; [done|]. cbn. lia.
  - by rewrite GetByID_effect.
  - destruct (Update_effect env r c)
      as [-> | (id & data & req & i & doc & prior & _ & _ & _ & _ & Hloc & Hdec & ->)];
      [done|].
    apply Forall_insert; [done|].
    apply located_Some in Hloc as [Hi _].
    destruct (Forall_lookup_1 _ _ _ _ Hdocs Hi) as (t & -> & Ht).
    rewrite decode_marshal in Hdec. injection Hdec as <-.
    rewrite assigned_marshal. eexists. split; [done|]. cbn. lia.
  - destruct (Delete_effect env r c) as [-> | [i ->]]; [done|].
    by apply Forall_delete.
Qed.

Lemma run_timely calls :
  ∀ (c : Collection) (bound : Z),
    Forall (timely bound) (documents c) →
    Forall (λ call, bound ≤ clock call) calls →
    StronglySorted Z.le (clock <$> calls) →
    ∃ bound', Forall (timely bound') (documents (run calls c)).
Proof.
  induction calls as [|[[route env] r] rest IH]; intros c bound Hdocs Hbound Hsorted.
  - exists bound. done.
  - cbn [run]. apply Forall_cons in Hbound as [Hnow _]. cbn in Hnow.
    cbn in Hsorted. apply StronglySorted_inv in Hsorted as [Hsorted Hrest].
    apply (IH _ (Now env)); [by eapply serve_timely| |done].
    rewrite Forall_fmap in Hrest. exact Hrest.
Qed.

(** C6.  Starting from the empty collection, after any sequence of
    requests (create, update, delete, and the two reads) served at clock
    readings that never go back, every document of the collection decodes
    to a record whose createdAt is at most its updatedAt. *)
Theorem createdAt_le_updatedAt_always
    (calls : list (Route * Env * Request)) (c : Collection) :
  documents c = [] →
  Sorted Z.le (clock <$> calls) →
  ∀ doc, doc ∈ documents (run calls c) →
    ∃ t, decode doc = Ok t ∧ CreatedAt t ≤ UpdatedAt t.
Proof.
  intros Hempty Hsorted%Sorted_StronglySorted doc Hdoc; [|intros x y z; apply Z.le_trans].
  set (bound := match calls with [] => 0 | call :: _ => clock call end).
  destruct (run_timely calls c bound) as [bound' Hall].
  - rewrite Hempty. constructor.
  - destruct calls as [|call rest]; [constructor|].
    cbn in Hsorted. apply StronglySorted_inv in Hsorted as [_ Hrest].
    constructor; [subst bound; cbn; lia|]. rewrite Forall_fmap in Hrest. exact Hrest.
  - done.
  - rewrite Forall_forall in Hall. destruct (Hall doc Hdoc) as (t & -> & Ht).
    exists t. split; [apply decode_marshal|lia].
Qed.

End Timestamps.

(** C6 on a create, an update of the created task, a second create and its
    deletion; the first task is in the collection at the end. *)
Lemma createdAt_le_updatedAt_always_witness :
  let c := {| Mongo.documents := []; Mongo.network := [] |} in
  let a := default Uuid.Nil (Uuid.Parse "550e8400-e29b-41d4-a716-446655440000") in
  let b := default Uuid.Nil (Uuid.Parse "550e8400-e29b-41d4-a716-446655440001") in
  let body members := Some (Protojson.Text (Json.Object members)) in
  let calls :=
    [ (Handlers.POST_tasks, {| Handlers.Now := 1234567890; Handlers.New := a |},
       {| Http.URLParam_id := "";
          Http.ReadAll := body [("title", Json.Str "Workflow Task")] |});
      (Handlers.PUT_task, {| Handlers.Now := 1234567899; Handlers.New := Uuid.Nil |},
       {| Http.URLParam_id := "550e8400-e29b-41d4-a716-446655440000";
          Http.ReadAll := body [("title", Json.Str "Updated Workflow Task");
                                ("completed", Json.Bool true)] |});
      (Handlers.POST_tasks, {| Handlers.Now := 1234567899; Handlers.New := b |},
       {| Http.URLParam_id := "";
          Http.ReadAll := body [("title", Json.Str "Another")] |});
      (Handlers.DELETE_task, {| Handlers.Now := 1234567900; Handlers.New := Uuid.Nil |},
       {| Http.URLParam_id := "550e8400-e29b-41d4-a716-446655440001";
          Http.ReadAll := None |}) ] in
  length (Mongo.documents (Handlers.run calls c)) = 1%nat
  ∧ ∀ doc, doc ∈ Mongo.documents (Handlers.run calls c) →
      ∃ t, Database.decode doc = GoError.Ok t
           ∧ Database.CreatedAt t ≤ Database.UpdatedAt t.
Proof.
  intros c a b body calls. split; [vm_compute; reflexivity|].
  apply (createdAt_le_updatedAt_always calls c); [reflexivity|].
  cbn. repeat (constructor; try (vm_compute; discriminate)).
Defined.

(** C10 on the update of the README, whose body has no description, and on
    a body without a title. *)
Lemma update_overwrites_title_and_description_witness :
  let id := default Uuid.Nil (Uuid.Parse "550e8400-e29b-41d4-a716-446655440002") in
  let prior := {| Database.ID := id; Database.Title := "Original Title";
                  Database.Description := "Original Description";
                  Database.Completed := false;
                  Database.CreatedAt := 1234567890; Database.UpdatedAt := 1234567890 |} in
  let c := {| Mongo.documents := [Database.marshal prior]; Mongo.network := [] |} in
  let env := {| Handlers.Now := 1234567899; Handlers.New := Uuid.Nil |} in
  let put members :=
    {| Http.URLParam_id := "550e8400-e29b-41d4-a716-446655440002";
       Http.ReadAll := Some (Protojson.Text (Json.Object members)) |} in
  let no_description := [("title", Json.Str "Updated Task"); ("completed", Json.Bool true)] in
  let no_title := [("description", Json.Str "Updated Description")] in
  (∃ updated,
     Spec.stored id (snd (Handlers.Update env (put no_description) c)) = Some updated
     ∧ Database.Title updated = "Updated Task"
     ∧ Database.Description updated = "")
  ∧ Http.Status (fst (Handlers.Update env (put no_title) c)) = Http.StatusBadRequest
  ∧ Spec.kind (fst (Handlers.Update env (put no_title) c)) = Some Errors.VALIDATION_ERROR
  ∧ snd (Handlers.Update env (put no_title) c) = c.
Proof.
  intros id prior c env put no_description no_title. split.
  - destruct (update_overwrites_title_and_description env (put no_description) id
                no_description
                {| Tasks.UpdateTitle := "Updated Task"; Tasks.UpdateDescription := "";
                   Tasks.UpdateCompleted := Some true |} c)
      as (_ & _ & Hstored); [vm_compute; reflexivity|reflexivity|vm_compute; reflexivity|].
    destruct (Hstored ltac:(vm_compute; reflexivity) ltac:(apply Forall_nil_2) prior)
      as (updated & Hu & Ht & _ & Hd); [vm_compute; reflexivity|].
    exists updated. split_and!; [exact Hu|exact Ht|].
    apply Hd. vm_compute. intros Hin. by repeat (apply elem_of_cons in Hin as [?|Hin]);
      try apply elem_of_nil in Hin.
  - destruct (update_overwrites_title_and_description env (put no_title) id no_title
                {| Tasks.UpdateTitle := ""; Tasks.UpdateDescription := "Updated Description";
                   Tasks.UpdateCompleted := None |} c)
      as (Hrejected & _ & _); [vm_compute; reflexivity|reflexivity|vm_compute; reflexivity|].
    destruct Hrejected as (_ & Hs & Hk & Hc); [|exact (conj Hs (conj Hk Hc))].
    vm_compute. intros Hin. by repeat (apply elem_of_cons in Hin as [?|Hin]);
      try apply elem_of_nil in Hin.
Defined.


(** ** Further properties of the service *)

Section Identifiers.
Import Tasks GoError Errors Http Database Mongo Handlers Spec.

Lemma identifiers_lookup (docs : list (gmap string Bson.value)) i doc :
  docs !! i = Some doc → identifiers docs !! i = Some (doc !! "_id").
Proof. intros Hi. unfold identifiers. by rewrite list_lookup_fmap, Hi. Qed.

(** One request keeps the identifiers of the collection pairwise distinct:
    an insert is refused when the identifier is taken, an update leaves
    [_id] alone, a delete only removes. *)
Lemma serve_unique route (env : Env) (r : Request) (c : Collection) :
  NoDup (identifiers (documents c)) →
  NoDup (identifiers (documents (snd (serve route env r c)))).
Proof.
  intros Hdocs. destruct route; cbn [serve].
  - by rewrite GetAll_effect.
  - destruct (Create_effect env r c) as [-> | (req & Hunused & ->)]; [done|].
    unfold identifiers. rewrite fmap_app. apply NoDup_app. split_and!; [done| |].
    + intros x (doc & -> & Hin)%list_elem_of_fmap Hx. cbn in Hx.
      apply list_elem_of_singleton in Hx. unfold unused in Hunused.
      rewrite Forall_forall in Hunused. exact (Hunused doc Hin Hx).
    + apply NoDup_singleton.
  - by rewrite GetByID_effect.
  - destruct (Update_effect env r c)
      as [-> | (id & data & req & i & doc & prior & _ & _ & _ & _ & Hloc & _ & ->)];
      [done|].
    apply located_Some in Hloc as [Hi _].
    unfold identifiers. rewrite list_fmap_insert.
    rewrite assigned_frame by apply id_not_assigned.
    rewrite list_insert_id; [done|]. by apply identifiers_lookup.
  - destruct (Delete_effect env r c) as [-> | [i ->]]; [done|].
    unfold identifiers. rewrite list_fmap_delete.
    eapply sublist_NoDup; [exact Hdocs|apply sublist_delete].
Qed.

(** X1.  Starting from the empty collection, after any sequence of
    requests the documents of the collection have pairwise distinct
    identifiers. *)
Theorem identifiers_unique_always (calls : list (Route * Env * Request)) (c : Collection) :
  documents c = [] →
  NoDup (identifiers (documents (run calls c))).
Proof.
  intros Hempty.
  assert (NoDup (identifiers (documents c))) as Hdocs by (rewrite Hempty; constructor).
  clear Hempty. revert c Hdocs.
  induction calls as [|[[route env] r] rest IH]; intros c Hdocs; [done|].
  cbn [run]. by apply IH, serve_unique.
Qed.

Lemma located_deleted id (docs : list (gmap string Bson.value)) i doc :
  NoDup (identifiers docs) →
  located id docs = Some (i, doc) →
  located id (delete i docs) = None.
Proof.
  intros Hdup [Hi Hid]%located_Some.
  unfold located. apply list_find_None, Forall_lookup. intros j d Hj Hm.
  apply matches_byID in Hm.
  assert (∃ k, k ≠ i ∧ docs !! k = Some d) as (k & Hne & Hk).
  { destruct (decide (j < i)%nat).
    - exists j. split; [lia|]. by rewrite list_lookup_delete_lt in Hj.
    - exists (S j). split; [lia|]. by rewrite list_lookup_delete_ge in Hj by lia. }
  apply Hne. eapply (NoDup_lookup _ k i); [exact Hdup|..].
  - rewrite (identifiers_lookup _ _ _ Hk), Hm. reflexivity.
  - rewrite (identifiers_lookup _ _ _ Hi), Hid. reflexivity.
Qed.

(** X2.  Deleting a stored task and then fetching it: when the identifiers
    of the collection are pairwise distinct, the path id parses and is
    carried by a document, and both driver calls go through, the delete is
    answered 204 and the fetch 404 with kind NOT_FOUND. *)
Theorem delete_then_fetch_is_not_found
    (env env' : Env) (r : Request) (id : Uuid.UUID) (c : Collection) :
  NoDup (identifiers (documents c)) →
  Uuid.Parse (URLParam_id r) = Some id →
  is_Some (located id (documents c)) →
  fate c = Delivered →
  fate (snd (Delete env r c)) = Delivered →
  fst (Delete env r c) = WriteHeader StatusNoContent
  ∧ Status (fst (GetByID env' r (snd (Delete env r c)))) = StatusNotFound
  ∧ kind (fst (GetByID env' r (snd (Delete env r c)))) = Some NOT_FOUND.
Proof.
  intros Hdup Hparse [[i doc] Hloc] Hfate.
  assert (Delete env r c
          = (WriteHeader StatusNoContent,
             {| documents := delete i (documents c); network := tl (network c) |})) as ->.
  { unfold Delete. rewrite Hparse. unfold mbind, State.M_bind.
    cbn [Database.Delete MongoTaskRepository.repository].
    by rewrite Delete_eq, Hfate, Hloc. }
  cbn [fst snd]. intros Hfate'. split; [done|].
  unfold GetByID. rewrite Hparse. unfold mbind, State.M_bind.
  cbn [Database.FindByID MongoTaskRepository.repository].
  rewrite FindByID_eq, Hfate'. cbn [documents].
  rewrite (located_deleted id _ i doc) by done. done.
Qed.

(** X3.  An update of an identifier no document carries, with a body that
    decodes and passes validation and the lookup going through, is answered
    404 with kind NOT_FOUND and leaves the documents as they are. *)
Theorem update_of_absent_is_not_found
    (env : Env) (r : Request) (id : Uuid.UUID) (data : Protojson.data)
    (req : UpdateTaskRequest) (c : Collection) :
  Uuid.Parse (URLParam_id r) = Some id →
  ReadAll r = Some data →
  Protojson.Unmarshal_UpdateTaskRequest data = Some req →
  Validate.UpdateTaskRequest_Validate req = None →
  unused id c →
  fate c = Delivered →
  Status (fst (Handlers.Update env r c)) = StatusNotFound
  ∧ kind (fst (Handlers.Update env r c)) = Some NOT_FOUND
  ∧ documents (snd (Handlers.Update env r c)) = documents c.
Proof.
  intros Hparse Hread Hreq Hval Hunused%unused_located Hfate.
  unfold Handlers.Update. rewrite Hparse, Hread, Hreq, Hval.
  unfold mbind, State.M_bind. cbn [Database.FindByID MongoTaskRepository.repository].
  rewrite FindByID_eq, Hfate, Hunused. done.
Qed.

End Identifiers.

(** X1 on a create, an update, a second create and a delete. *)
Lemma identifiers_unique_always_witness :
  let c := {| Mongo.documents := []; Mongo.network := [] |} in
  let a := default Uuid.Nil (Uuid.Parse "550e8400-e29b-41d4-a716-446655440000") in
  let b := default Uuid.Nil (Uuid.Parse "550e8400-e29b-41d4-a716-446655440001") in
  let body members := Some (Protojson.Text (Json.Object members)) in
  let calls :=
    [ (Handlers.POST_tasks, {| Handlers.Now := 1234567890; Handlers.New := a |},
       {| Http.URLParam_id := "";
          Http.ReadAll := body [("title", Json.Str "Workflow Task")] |});
      (Handlers.PUT_task, {| Handlers.Now := 1234567899; Handlers.New := Uuid.Nil |},
       {| Http.URLParam_id := "550e8400-e29b-41d4-a716-446655440000";
          Http.ReadAll := body [("title", Json.Str "Updated Workflow Task")] |});
      (Handlers.POST_tasks, {| Handlers.Now := 1234567899; Handlers.New := b |},
       {| Http.URLParam_id := "";
          Http.ReadAll := body [("title", Json.Str "Another")] |});
      (Handlers.POST_tasks, {| Handlers.Now := 1234567900; Handlers.New := b |},
       {| Http.URLParam_id := "";
          Http.ReadAll := body [("title", Json.Str "Same identifier again")] |}) ] in
  length (Mongo.documents (Handlers.run calls c)) = 2%nat
  ∧ NoDup (Spec.identifiers (Mongo.documents (Handlers.run calls c))).
Proof.
  intros c a b body calls. split; [vm_compute; reflexivity|].
  apply (identifiers_unique_always calls c). reflexivity.
Defined.

(** X2 on the store and the request of [TestIntegrationDelete]. *)
Lemma delete_then_fetch_is_not_found_witness :
  let id := default Uuid.Nil (Uuid.Parse "550e8400-e29b-41d4-a716-446655440004") in
  let task := {| Database.ID := id; Database.Title := "Task to Delete";
                 Database.Description := "Will be deleted"; Database.Completed := false;
                 Database.CreatedAt := 1234567890; Database.UpdatedAt := 1234567890 |} in
  let c := {| Mongo.documents := [Database.marshal task]; Mongo.network := [] |} in
  let env := {| Handlers.Now := 1234567899; Handlers.New := Uuid.Nil |} in
  let r := {| Http.URLParam_id := "550e8400-e29b-41d4-a716-446655440004";
              Http.ReadAll := None |} in
  fst (Handlers.Delete env r c) = Http.WriteHeader Http.StatusNoContent
  ∧ Http.Status (fst (Handlers.GetByID env r (snd (Handlers.Delete env r c))))
    = Http.StatusNotFound
  ∧ Spec.kind (fst (Handlers.GetByID env r (snd (Handlers.Delete env r c))))
    = Some Errors.NOT_FOUND.
Proof.
  intros id task c env r.
  apply (delete_then_fetch_is_not_found env env r id c).
  - apply NoDup_singleton.
  - vm_compute. reflexivity.
  - eexists. vm_compute. reflexivity.
  - reflexivity.
  - vm_compute. reflexivity.
Defined.

(** X3 on the identifier of [TestIntegrationGetByIDNotFound] and the empty
    store. *)
Lemma update_of_absent_is_not_found_witness :
  let id := default Uuid.Nil (Uuid.Parse "550e8400-e29b-41d4-a716-999999999999") in
  let c := {| Mongo.documents := []; Mongo.network := [] |} in
  let env := {| Handlers.Now := 1234567899; Handlers.New := Uuid.Nil |} in
  let data := Protojson.Text (Json.Object [("title", Json.Str "Updated Title")]) in
  let r := {| Http.URLParam_id := "550e8400-e29b-41d4-a716-999999999999";
              Http.ReadAll := Some data |} in
  Http.Status (fst (Handlers.Update env r c)) = Http.StatusNotFound
  ∧ Spec.kind (fst (Handlers.Update env r c)) = Some Errors.NOT_FOUND
  ∧ Mongo.documents (snd (Handlers.Update env r c)) = Mongo.documents c.
Proof.
  intros id c env data r.
  apply (update_of_absent_is_not_found env r id data
           {| Tasks.UpdateTitle := "Updated Title"; Tasks.UpdateDescription := "";
              Tasks.UpdateCompleted := None |} c).
  - vm_compute. reflexivity.
  - reflexivity.
  - vm_compute. reflexivity.
  - vm_compute. reflexivity.
  - apply Forall_nil_2.
  - reflexivity.
Defined.

(* ===================================================================== *)
(** * Further properties: the handlers over any repository *)
(* ===================================================================== *)

Section BodyFacts.
Import Tasks Protojson.

(** One member that no field accepts makes the whole body undecodable. *)
Lemma unmarshalFields_refused fields name v members :
  (name, v) ∈ members →
  (∀ k, fields !! name = Some k → v ≠ Json.Null ∧ unmarshalScalar k v = None) →
  ∀ seen msg, unmarshalFields fields seen members msg = None.
Proof.
  induction members as [|[n w] rest IH]; intros Hin Hrefused seen msg.
  - by apply elem_of_nil in Hin.
  - cbn [unmarshalFields].
    destruct (fields !! n) as [k|] eqn:Hk; [|done].
    case_bool_decide; [done|].
    apply elem_of_cons in Hin as [[= <- <-]|Hin].
    + destruct (Hrefused k Hk) as [Hnull Hscalar].
      rewrite Hscalar. by destruct v.
    + destruct w; repeat case_match; eauto.
Qed.

(** The values no field of either request message accepts: a number, an
    array, an object, a string that is not valid UTF-8. *)
Lemma unmarshalScalar_refused k v :
  (∃ n, v = Json.Number n) ∨ (∃ items, v = Json.Array items)
  ∨ (∃ members, v = Json.Object members)
  ∨ (∃ s, v = Json.Str s ∧ Utf8.ValidString s = false) →
  v ≠ Json.Null ∧ unmarshalScalar k v = None.
Proof.
  intros [[n ->]|[[items ->]|[[members ->]|(s & -> & Hs)]]];
    (split; [done|]); destruct k; cbn; by rewrite ?Hs.
Qed.

Lemma CreateTaskRequest_fields_unknown name :
  name ∉ ["title"; "description"; "completed"] → CreateTaskRequest_fields !! name = None.
Proof.
  rewrite !not_elem_of_cons. intros (? & ? & ? & _).
  unfold CreateTaskRequest_fields. by rewrite lookup_insert_ne, lookup_singleton_ne.
Qed.

Lemma UpdateTaskRequest_fields_unknown name :
  name ∉ ["title"; "description"; "completed"] → UpdateTaskRequest_fields !! name = None.
Proof.
  rewrite !not_elem_of_cons. intros (? & ? & ? & _).
  unfold UpdateTaskRequest_fields. by rewrite !lookup_insert_ne, lookup_singleton_ne.
Qed.

Lemma Unmarshal_refused (d : data) :
  d = NotJSON
  ∨ (∃ v, d = Text v ∧ ∀ members, v ≠ Json.Object members)
  ∨ (∃ members name v,
       d = Text (Json.Object members)
       ∧ (name, v) ∈ members
       ∧ (name ∉ ["title"; "description"; "completed"]
          ∨ (∃ n, v = Json.Number n) ∨ (∃ items, v = Json.Array items)
          ∨ (∃ inner, v = Json.Object inner)
          ∨ (∃ s, v = Json.Str s ∧ Utf8.ValidString s = false))) →
  Unmarshal_CreateTaskRequest d = None ∧ Unmarshal_UpdateTaskRequest d = None.
Proof.
  unfold Unmarshal_CreateTaskRequest, Unmarshal_UpdateTaskRequest, unmarshalMessage.
  intros [->|[(v & -> & Hv)|(members & name & v & -> & Hin & Hv)]].
  - done.
  - destruct v; try done. by destruct (Hv members).
  - rewrite !(unmarshalFields_refused _ name v members Hin); [done|..];
      (destruct Hv as [Hname|Hv]; [|intros k _; by apply unmarshalScalar_refused]);
      intros k Hk.
    + by rewrite UpdateTaskRequest_fields_unknown in Hk.
    + by rewrite CreateTaskRequest_fields_unknown in Hk.
Qed.

End BodyFacts.

Section AnyRepository.
Import Tasks GoError Errors Http Database Handlers Spec.
Context {R : Type} `{TaskRepository R}.

Local Ltac handler_cases :=
  unfold serve, GetAll, Create, GetByID, Update, Delete, mbind, State.M_bind;
  repeat (case_match; simplify_eq/=; try done).

(** X4.  The status codes each handler can answer with, whatever the
    repository does: the listing 200 or 500; create 201, 400 or 500;
    get-by-id and update 200, 400, 404 or 500; delete 204, 400 or 500 (never
    404). *)
Theorem status_codes_of_the_handlers (env : Env) (r : Request) (s : R) :
  Status (fst (GetAll env r s)) ∈ [StatusOK; StatusInternalServerError]
  ∧ Status (fst (Create env r s))
    ∈ [StatusCreated; StatusBadRequest; StatusInternalServerError]
  ∧ Status (fst (GetByID env r s))
    ∈ [StatusOK; StatusBadRequest; StatusNotFound; StatusInternalServerError]
  ∧ Status (fst (Update env r s))
    ∈ [StatusOK; StatusBadRequest; StatusNotFound; StatusInternalServerError]
  ∧ Status (fst (Delete env r s))
    ∈ [StatusNoContent; StatusBadRequest; StatusInternalServerError].
Proof.
  split_and!; handler_cases; set_solver.
Qed.

(** X5.  Status and body agree on every answer of every route: a body
    with an error envelope of kind BAD_REQUEST or VALIDATION_ERROR comes
    with 400, NOT_FOUND with 404, INTERNAL_ERROR with 500, and an answer
    without an error envelope has status 200, 201 or 204. *)
Theorem error_kind_agrees_with_status (route : Route) (env : Env) (r : Request) (s : R) :
  match kind (fst (serve route env r s)) with
  | Some BAD_REQUEST | Some VALIDATION_ERROR =>
      Status (fst (serve route env r s)) = StatusBadRequest
  | Some NOT_FOUND => Status (fst (serve route env r s)) = StatusNotFound
  | Some INTERNAL_ERROR => Status (fst (serve route env r s)) = StatusInternalServerError
  | None => Status (fst (serve route env r s)) ∈ [StatusOK; StatusCreated; StatusNoContent]
  end.
Proof.
  destruct route; handler_cases; unfold kind in *; cbn in *;
    rewrite ?convertValidationError_type in *; try done; set_solver.
Qed.

(** X6.  A request answered 400 never reached the repository: every
    check that answers 400 (path id, body read, JSON decoding,
    validation) comes before the first repository call, so the repository
    is handed back exactly as it was. *)
Theorem bad_request_leaves_repository_alone
    (route : Route) (env : Env) (r : Request) (s : R) :
  Status (fst (serve route env r s)) = StatusBadRequest →
  snd (serve route env r s) = s.
Proof.
  destruct route; handler_cases.
Qed.

(** X7.  A create or update request whose body cannot be read, is no
    JSON text, is a JSON value other than an object, or is an object with
    a member that is no field of the message or whose value is a number,
    an array, an object or a string that is not valid UTF-8, is answered
    400 with kind BAD_REQUEST, and the repository is not consulted. *)
Theorem undecodable_body_is_bad_request (env : Env) (r : Request) (s : R) :
  ReadAll r = None
  ∨ ReadAll r = Some Protojson.NotJSON
  ∨ (∃ v, ReadAll r = Some (Protojson.Text v) ∧ ∀ members, v ≠ Json.Object members)
  ∨ (∃ members name v,
       ReadAll r = Some (Protojson.Text (Json.Object members))
       ∧ (name, v) ∈ members
       ∧ (name ∉ ["title"; "description"; "completed"]
          ∨ (∃ n, v = Json.Number n) ∨ (∃ items, v = Json.Array items)
          ∨ (∃ inner, v = Json.Object inner)
          ∨ (∃ s, v = Json.Str s ∧ Utf8.ValidString s = false))) →
  (bad_request (fst (Create env r s)) ∧ snd (Create env r s) = s)
  ∧ (bad_request (fst (Update env r s)) ∧ snd (Update env r s) = s).
Proof.
  intros Hbody.
  assert (ReadAll r = None
          ∨ ∃ d, ReadAll r = Some d
                 ∧ Protojson.Unmarshal_CreateTaskRequest d = None
                 ∧ Protojson.Unmarshal_UpdateTaskRequest d = None) as Hrefused.
  { destruct Hbody as [Hread|[Hread|[(v & Hread & Hv)|(members & name & v & Hread & Hv)]]];
      [by left|right; eexists; split; [done|]; apply Unmarshal_refused..].
    - by left.
    - right; left. by exists v.
    - right; right. by exists members, name, v. }
  unfold Create, Update, bad_request, kind.
  destruct Hrefused as [->|(d & -> & -> & ->)];
    destruct (Uuid.Parse (URLParam_id r)); cbn; done.
Qed.

End AnyRepository.

(** X6 on the body of [TestCreateInvalidJSON], which no handler lets
    through to the repository. *)
Lemma bad_request_leaves_repository_alone_witness :
  let c := {| Mongo.documents := []; Mongo.network := [] |} in
  let env := {| Handlers.Now := 0; Handlers.New := Uuid.Nil |} in
  let r := {| Http.URLParam_id := ""; Http.ReadAll := Some Protojson.NotJSON |} in
  snd (Handlers.serve Handlers.POST_tasks env r c) = c.
Proof.
  intros c env r.
  apply (bad_request_leaves_repository_alone Handlers.POST_tasks env r c). reflexivity.
Defined.

(** X7 on the body of [TestCreateInvalidJSON]. *)
Lemma undecodable_body_is_bad_request_witness :
  let c := {| Mongo.documents := []; Mongo.network := [] |} in
  let env := {| Handlers.Now := 0; Handlers.New := Uuid.Nil |} in
  let r := {| Http.URLParam_id := "550e8400-e29b-41d4-a716-446655440000";
              Http.ReadAll := Some Protojson.NotJSON |} in
  (Spec.bad_request (fst (Handlers.Create env r c)) ∧ snd (Handlers.Create env r c) = c)
  ∧ (Spec.bad_request (fst (Handlers.Update env r c)) ∧ snd (Handlers.Update env r c) = c).
Proof.
  intros c env r. apply (undecodable_body_is_bad_request env r c). right; left. reflexivity.
Defined.

(* ===================================================================== *)
(** * Further properties: the repository over the Mongo collection *)
(* ===================================================================== *)

Section Repository.
Import GoError Uuid Database Mongo Spec.

(** A nil return of [Create]: the call went through, the identifier was
    unused and the task's document is now the last one. *)
Lemma Create_nil (task : Task) (c : Collection) :
  fst (MongoTaskRepository.Create task c) = None →
  fate c = Delivered
  ∧ unused (ID task) c
  ∧ snd (MongoTaskRepository.Create task c)
    = {| documents := documents c ++ [marshal task]; network := tl (network c) |}.
Proof.
  rewrite Create_eq.
  destruct (fate c); try done; case_bool_decide as Hdup; try done.
  intros _. split_and!; [done| |done].
  unfold unused. apply Forall_forall. intros d Hd Hid.
  apply Hdup, Exists_exists. by exists d.
Qed.

Lemma not_unused id (c : Collection) :
  is_Some (located id (documents c)) →
  Exists (λ d, d !! "_id" = Some (Bson.Binary (to_bytes id))) (documents c).
Proof.
  intros [[i doc] [Hi Hid]%located_Some]. apply Exists_exists. exists doc.
  split; [by eapply list_elem_of_lookup_2|done].
Qed.

(** X8.  A task the repository's [Create] accepted (it returned nil) is
    what [FindByID] returns for its identifier, when that call goes
    through: every field comes back as it was stored. *)
Theorem created_task_is_found (task : Task) (c : Collection) :
  fst (MongoTaskRepository.Create task c) = None →
  fate (snd (MongoTaskRepository.Create task c)) = Delivered →
  fst (MongoTaskRepository.FindByID (ID task) (snd (MongoTaskRepository.Create task c)))
  = (Some task, None).
Proof.
  intros (_ & Hunused%unused_located & ->)%Create_nil Hfate.
  rewrite FindByID_eq, Hfate. cbn [fst documents].
  rewrite (located_appended (ID task) _ task eq_refl Hunused).
  by rewrite decode_marshal.
Qed.

(** X9.  The repository's [Create] never stores a second task under an
    identifier the collection already holds: it returns an error and the
    documents stay as they were; the create handler then answers 500. *)
Theorem create_of_taken_identifier_fails (task : Task) (c : Collection) :
  is_Some (located (ID task) (documents c)) →
  is_Some (fst (MongoTaskRepository.Create task c))
  ∧ documents (snd (MongoTaskRepository.Create task c)) = documents c
  ∧ ∀ env r,
      Handlers.New env = ID task →
      Http.Status (fst (Handlers.Create env r c)) ∈
        [Http.StatusBadRequest; Http.StatusInternalServerError]
      ∧ documents (snd (Handlers.Create env r c)) = documents c.
Proof.
  intros Htaken%not_unused. split_and!.
  - rewrite Create_eq. destruct (fate c); rewrite ?bool_decide_eq_true_2 by done; by eexists.
  - rewrite Create_eq. destruct (fate c); rewrite ?bool_decide_eq_true_2 by done; done.
  - intros env r Hid. rewrite <- Hid in Htaken.
    destruct (Http.ReadAll r) as [data|] eqn:Hread;
      [|unfold Handlers.Create; rewrite Hread; cbn; split; [set_solver|done]].
    destruct (Protojson.Unmarshal_CreateTaskRequest data) as [req|] eqn:Hreq;
      [|unfold Handlers.Create; rewrite Hread, Hreq; cbn; split; [set_solver|done]].
    destruct (Validate.CreateTaskRequest_Validate req) as [err|] eqn:Hval;
      [unfold Handlers.Create; rewrite Hread, Hreq, Hval; cbn; split; [set_solver|done]|].
    rewrite (Create_accepted env r data req c Hread Hreq Hval), Create_eq.
    cbn [ID created].
    destruct (fate c); rewrite ?bool_decide_eq_true_2 by done; cbn;
      (split; [set_solver|done]).
Qed.

(** X10.  What [FindByID] can return, and when: it never changes the
    documents; it returns the absent task without error exactly when the
    call goes through and no document carries the identifier; it returns
    a task exactly when the call goes through and the first document
    with the identifier decodes to it; and it never returns a task
    together with an error. *)
Theorem FindByID_outcomes (id : UUID) (c : Collection) :
  documents (snd (MongoTaskRepository.FindByID id c)) = documents c
  ∧ (fst (MongoTaskRepository.FindByID id c) = (None, None)
     ↔ fate c = Delivered ∧ unused id c)
  ∧ (∀ t, fst (MongoTaskRepository.FindByID id c) = (Some t, None)
          ↔ fate c = Delivered ∧ stored id c = Some t)
  ∧ (∀ t e, fst (MongoTaskRepository.FindByID id c) ≠ (Some t, Some e)).
Proof.
  rewrite FindByID_eq, unused_located. unfold stored. cbn [fst snd].
  split_and!; [done|..]; try intros t; try intros e;
    destruct (fate c); try (split; intros; by destruct_and?);
    try (destruct (located id (documents c)) as [[i doc]|];
         try destruct (decode doc); try split; intros; destruct_and?; by simplify_eq);
    done.
Qed.

(** X11.  After the repository's [Update] reached the server, [FindByID]
    returns the stored record with the title, description, completed flag
    and updatedAt of the argument; the identifier and createdAt are the
    stored ones, whatever the argument carries in those fields. *)
Theorem updated_task_is_found (id : UUID) (task prior : Task) (c : Collection) :
  stored id c = Some prior →
  fate c ≠ Dropped →
  fate (snd (MongoTaskRepository.Update id task c)) = Delivered →
  fst (MongoTaskRepository.FindByID id (snd (MongoTaskRepository.Update id task c)))
  = (Some {| ID := ID prior; Title := Title task; Description := Description task;
             Completed := Completed task; CreatedAt := CreatedAt prior;
             UpdatedAt := UpdatedAt task |}, None).
Proof.
  intros (i & doc & Hloc & Hdec)%stored_Some Hfate.
  rewrite Update_eq, Hloc.
  destruct (fate c) eqn:Hc; try done; cbn [snd]; intros Hnext;
    rewrite FindByID_eq, Hnext; cbn [fst documents];
    rewrite (located_assigned id _ i doc task Hloc), (decode_assigned task prior doc Hdec);
    done.
Qed.

(** X12.  The repository's [Update] is idempotent on the documents:
    once an update reached the server, repeating it with the same
    identifier and task leaves the documents as the first one left them,
    whether or not the second call goes through. *)
Theorem update_twice_is_update_once (id : UUID) (task : Task) (c : Collection) :
  fate c ≠ Dropped →
  documents (snd (MongoTaskRepository.Update id task
                    (snd (MongoTaskRepository.Update id task c))))
  = documents (snd (MongoTaskRepository.Update id task c)).
Proof.
  intros Hfate.
  assert (snd (MongoTaskRepository.Update id task c)
          = {| documents :=
                 match located id (documents c) with
                 | Some (i, doc) => <[i := assignments task ∪ doc]> (documents c)
                 | None => documents c
                 end;
               network := tl (network c) |}) as ->
    by (rewrite Update_eq; by destruct (fate c)).
  rewrite Update_eq. cbn [documents network].
  destruct (located id (documents c)) as [[i doc]|] eqn:Hloc.
  - rewrite (located_assigned id _ i doc task Hloc).
    rewrite list_insert_insert_eq, (assoc_L (∪)), (idemp_L (∪)).
    by destruct (fate {| documents := _; network := _ |}).
  - rewrite Hloc. by destruct (fate {| documents := _; network := _ |}).
Qed.

Lemma filter_delete {A} (P : A → Prop) `{!∀ x, Decision (P x)} (l : list A) i x :
  l !! i = Some x → ¬ P x → filter P (delete i l) = filter P l.
Proof.
  intros Hi Hx. rewrite <- (take_drop_middle l i x Hi) at 2.
  rewrite delete_take_drop, !filter_app, (filter_cons_False P x) by done. done.
Qed.

(** X13.  The repository's [Delete] removes at most one document, and
    only one that carries the identifier: the documents with any other
    identifier are all kept, in their order; when the call reaches the
    server and some document carries the identifier, exactly one document
    goes.  The delete handler passes the parsed path id unchanged. *)
Theorem delete_removes_only_the_addressed (id : UUID) (c : Collection) :
  let others := λ d : gmap string Bson.value,
                  d !! "_id" ≠ Some (Bson.Binary (to_bytes id)) in
  filter others (documents (snd (MongoTaskRepository.Delete id c)))
  = filter others (documents c)
  ∧ (length (documents c) ≤ S (length (documents (snd (MongoTaskRepository.Delete id c)))))%nat
  ∧ (fate c ≠ Dropped → is_Some (located id (documents c)) →
     S (length (documents (snd (MongoTaskRepository.Delete id c))))
     = length (documents c))
  ∧ (∀ env r, Uuid.Parse (Http.URLParam_id r) = Some id →
       snd (Handlers.Delete env r c) = snd (MongoTaskRepository.Delete id c)).
Proof.
  intros others. rewrite Delete_eq.
  assert (∀ i doc, located id (documents c) = Some (i, doc) →
            filter others (delete i (documents c)) = filter others (documents c)
            ∧ S (length (delete i (documents c))) = length (documents c)) as Hgone.
  { intros i doc [Hi Hid]%located_Some. split.
    - apply (filter_delete others _ i doc Hi). unfold others. by intros [].
    - rewrite length_delete by by eexists. apply lookup_lt_Some in Hi. lia. }
  split_and!.
  - destruct (fate c); cbn [snd documents after]; try done;
      (destruct (located id (documents c)) as [[i doc]|] eqn:Hloc; [|done]);
      by destruct (Hgone i doc).
  - destruct (fate c); cbn [snd documents after]; try lia;
      (destruct (located id (documents c)) as [[i doc]|] eqn:Hloc; [|lia]);
      destruct (Hgone i doc eq_refl); lia.
  - intros Hfate [[i doc] Hloc]. rewrite Hloc.
    destruct (fate c); try done; cbn [snd documents]; by destruct (Hgone i doc).
  - intros env r Hparse. unfold Handlers.Delete, mbind, State.M_bind. rewrite Hparse.
    cbn [Database.Delete MongoTaskRepository.repository]. rewrite Delete_eq.
    by destruct (fate c).
Qed.

(** X14.  An update touches only the addressed task: a document that
    carries another identifier is, at its position, the same document
    after the repository's [Update] and after the update handler for that
    path id, whatever the request and the fate of the driver calls. *)
Theorem update_leaves_other_tasks (id : UUID) (task : Task) (c : Collection)
    (j : nat) (doc : gmap string Bson.value) :
  documents c !! j = Some doc →
  doc !! "_id" ≠ Some (Bson.Binary (to_bytes id)) →
  documents (snd (MongoTaskRepository.Update id task c)) !! j = Some doc
  ∧ ∀ env r, Uuid.Parse (Http.URLParam_id r) = Some id →
      documents (snd (Handlers.Update env r c)) !! j = Some doc.
Proof.
  intros Hj Hother.
  assert (∀ i d (t : Task), located id (documents c) = Some (i, d) →
            <[i := assignments t ∪ d]> (documents c) !! j = Some doc) as Hkept.
  { intros i d t [Hi Hid]%located_Some. rewrite list_lookup_insert_ne; [done|].
    intros ->. by simplify_eq. }
  split.
  - rewrite Update_eq.
    destruct (fate c); cbn [snd documents after]; try done;
      (destruct (located id (documents c)) as [[i d]|] eqn:Hloc; [|done]); by eapply Hkept.
  - intros env r Hparse.
    destruct (Update_effect env r c)
      as [->|(id' & data & req & i & d & prior & Hparse' & _ & _ & _ & Hloc & _ & ->)];
      [done|].
    rewrite Hparse in Hparse'. simplify_eq. by eapply Hkept.
Qed.

Lemma decodeAll_marshal (ts : list Task) : decodeAll (marshal <$> ts) = Ok ts.
Proof.
  induction ts as [|t ts IH]; [done|]. cbn. by rewrite decode_marshal, IH.
Qed.

Lemma decodeAll_Ok docs ts :
  decodeAll docs = Ok ts → Forall2 (λ doc t, decode doc = Ok t) docs ts.
Proof.
  revert ts. induction docs as [|doc docs IH]; intros ts; cbn.
  - intros [= <-]. constructor.
  - destruct (decode doc) as [t|e] eqn:Hdoc; [|done].
    destruct (decodeAll docs) as [ts'|e]; [|done].
    intros [= <-]. constructor; eauto.
Qed.

(** X15.  [FindAll] returns the whole collection or nothing: a list
    returned without error holds the decoding of every document, in the
    order of the collection; with an error the list is empty; the
    documents are never changed; and when both driver calls go through
    and the documents are the storage forms of a list of tasks, that
    list is returned. *)
Theorem FindAll_outcomes (c : Collection) :
  documents (snd (MongoTaskRepository.FindAll c)) = documents c
  ∧ (∀ tasks, fst (MongoTaskRepository.FindAll c) = (tasks, None) →
       Forall2 (λ doc t, decode doc = Ok t) (documents c) tasks)
  ∧ (∀ tasks e, fst (MongoTaskRepository.FindAll c) = (tasks, Some e) → tasks = [])
  ∧ (∀ ts, delivers 2 c → documents c = marshal <$> ts →
       fst (MongoTaskRepository.FindAll c) = (ts, None)).
Proof.
  rewrite FindAll_eq. split_and!.
  - by destruct (fate c).
  - intros tasks. destruct (fate c); try done. cbn [fst].
    destruct (fate (after c)); try done.
    destruct (decodeAll (documents c)) as [ts|e] eqn:Hall; [|done].
    intros [= <-]. by apply decodeAll_Ok.
  - intros tasks e. destruct (fate c); cbn [fst]; try by intros [= <-].
    destruct (fate (after c)); try by intros [= <-].
    destruct (decodeAll (documents c)); [done|by intros [= <-]].
  - intros ts (-> & (-> & _)%delivers_S)%delivers_S ->. cbn [fst].
    by rewrite decodeAll_marshal.
Qed.

End Repository.

(** X8 on the record of [TestIntegrationGetByID] and the empty
    collection. *)
Lemma created_task_is_found_witness :
  let id := default Uuid.Nil (Uuid.Parse "550e8400-e29b-41d4-a716-446655440001") in
  let task := {| Database.ID := id; Database.Title := "Test Task";
                 Database.Description := "Test Description"; Database.Completed := false;
                 Database.CreatedAt := 1234567890; Database.UpdatedAt := 1234567890 |} in
  let c := {| Mongo.documents := []; Mongo.network := [] |} in
  fst (MongoTaskRepository.FindByID id (snd (MongoTaskRepository.Create task c)))
  = (Some task, None).
Proof.
  intros id task c. apply (created_task_is_found task c); vm_compute; reflexivity.
Defined.

(** X9 on a collection that already holds the record of
    [TestIntegrationGetByID]. *)
Lemma create_of_taken_identifier_fails_witness :
  let id := default Uuid.Nil (Uuid.Parse "550e8400-e29b-41d4-a716-446655440001") in
  let task := {| Database.ID := id; Database.Title := "Test Task";
                 Database.Description := "Test Description"; Database.Completed := false;
                 Database.CreatedAt := 1234567890; Database.UpdatedAt := 1234567890 |} in
  let c := {| Mongo.documents := [Database.marshal task]; Mongo.network := [] |} in
  is_Some (fst (MongoTaskRepository.Create task c))
  ∧ Mongo.documents (snd (MongoTaskRepository.Create task c)) = Mongo.documents c
  ∧ ∀ env r,
      Handlers.New env = Database.ID task →
      Http.Status (fst (Handlers.Create env r c)) ∈
        [Http.StatusBadRequest; Http.StatusInternalServerError]
      ∧ Mongo.documents (snd (Handlers.Create env r c)) = Mongo.documents c.
Proof.
  intros id task c. apply (create_of_taken_identifier_fails task c).
  exists (0%nat, Database.marshal task).
  apply (located_appended id [] task eq_refl eq_refl).
Defined.

(** X11 on the stored record of [TestIntegrationUpdate] and an argument
    that carries another identifier and creation time. *)
Lemma updated_task_is_found_witness :
  let id := default Uuid.Nil (Uuid.Parse "550e8400-e29b-41d4-a716-446655440002") in
  let prior := {| Database.ID := id; Database.Title := "Original Title";
                  Database.Description := "Original Description";
                  Database.Completed := false;
                  Database.CreatedAt := 1234567890; Database.UpdatedAt := 1234567890 |} in
  let task := {| Database.ID := Uuid.Nil; Database.Title := "Updated Title";
                 Database.Description := "Updated Description";
                 Database.Completed := true;
                 Database.CreatedAt := 7; Database.UpdatedAt := 1234567899 |} in
  let c := {| Mongo.documents := [Database.marshal prior]; Mongo.network := [] |} in
  fst (MongoTaskRepository.FindByID id (snd (MongoTaskRepository.Update id task c)))
  = (Some {| Database.ID := id; Database.Title := "Updated Title";
             Database.Description := "Updated Description"; Database.Completed := true;
             Database.CreatedAt := 1234567890; Database.UpdatedAt := 1234567899 |}, None).
Proof.
  intros id prior task c.
  apply (updated_task_is_found id task prior c);
    [vm_compute; reflexivity | discriminate | vm_compute; reflexivity].
Defined.

(** X12 on the same collection, the reply of the first update being lost
    and the update repeated. *)
Lemma update_twice_is_update_once_witness :
  let id := default Uuid.Nil (Uuid.Parse "550e8400-e29b-41d4-a716-446655440002") in
  let prior := {| Database.ID := id; Database.Title := "Original Title";
                  Database.Description := "Original Description";
                  Database.Completed := false;
                  Database.CreatedAt := 1234567890; Database.UpdatedAt := 1234567890 |} in
  let task := {| Database.ID := id; Database.Title := "Updated Title";
                 Database.Description := "Updated Description";
                 Database.Completed := true;
                 Database.CreatedAt := 1234567890; Database.UpdatedAt := 1234567899 |} in
  let c := {| Mongo.documents := [Database.marshal prior];
              Mongo.network := [Mongo.ReplyLost; Mongo.Delivered] |} in
  Mongo.documents (snd (MongoTaskRepository.Update id task
                          (snd (MongoTaskRepository.Update id task c))))
  = Mongo.documents (snd (MongoTaskRepository.Update id task c)).
Proof.
  intros id prior task c. apply (update_twice_is_update_once id task c). discriminate.
Defined.

(** X14 on a collection of two tasks, the first one being updated. *)
Lemma update_leaves_other_tasks_witness :
  let a := default Uuid.Nil (Uuid.Parse "550e8400-e29b-41d4-a716-446655440002") in
  let b := default Uuid.Nil (Uuid.Parse "550e8400-e29b-41d4-a716-446655440003") in
  let first := {| Database.ID := a; Database.Title := "Original Title";
                  Database.Description := "Original Description";
                  Database.Completed := false;
                  Database.CreatedAt := 1234567890; Database.UpdatedAt := 1234567890 |} in
  let second := {| Database.ID := b; Database.Title := "Task to Complete";
                   Database.Description := "Description"; Database.Completed := false;
                   Database.CreatedAt := 1234567890; Database.UpdatedAt := 1234567890 |} in
  let task := {| Database.ID := a; Database.Title := "Updated Title";
                 Database.Description := "Updated Description";
                 Database.Completed := true;
                 Database.CreatedAt := 1234567890; Database.UpdatedAt := 1234567899 |} in
  let c := {| Mongo.documents := [Database.marshal first; Database.marshal second];
              Mongo.network := [] |} in
  Mongo.documents (snd (MongoTaskRepository.Update a task c)) !! 1%nat
  = Some (Database.marshal second)
  ∧ ∀ env r, Uuid.Parse (Http.URLParam_id r) = Some a →
      Mongo.documents (snd (Handlers.Update env r c)) !! 1%nat
      = Some (Database.marshal second).
Proof.
  intros a b first second task c.
  apply (update_leaves_other_tasks a task c 1 (Database.marshal second));
    [reflexivity | intros Hsame; vm_compute in Hsame; discriminate Hsame].
Defined.

(* ===================================================================== *)
(** * Further properties: the handlers over the Mongo repository *)
(* ===================================================================== *)

Section Answers.
Import Tasks GoError Errors Http Database Mongo Handlers Spec.

Lemma GetByID_eq (env : Env) (r : Request) id (c : Collection) :
  Uuid.Parse (URLParam_id r) = Some id →
  GetByID env r c =
    (match fate c with
     | Delivered =>
         match located id (documents c) with
         | Some (_, doc) =>
             match decode doc with
             | Ok t =>
                 match Protojson.Marshal_GetTaskResponse {| Task_ := Some (ToProto t) |} with
                 | Some wire => Write wire
                 | None =>
                     RespondWithError StatusInternalServerError
                       (NewInternalError "Failed to encode response")
                 end
             | Err _ =>
                 RespondWithError StatusInternalServerError
                   (NewInternalError "Failed to retrieve task")
             end
         | None => RespondWithError StatusNotFound (NewNotFoundError "Task not found")
         end
     | _ =>
         RespondWithError StatusInternalServerError
           (NewInternalError "Failed to retrieve task")
     end, after c).
Proof.
  intros Hparse. unfold GetByID. rewrite Hparse.
  unfold mbind, State.M_bind.
  cbn [Database.FindByID MongoTaskRepository.repository]. rewrite FindByID_eq.
  destruct (fate c); try done.
  destruct (located id (documents c)) as [[i doc]|]; [|done].
  destruct (decode doc); [|done].
  by destruct (Protojson.Marshal_GetTaskResponse _).
Qed.

(** An update answered 200: what the request and the collection were,
    and what the collection is afterwards. *)
Lemma Update_200 (env : Env) (r : Request) (c : Collection) :
  Status (fst (Update env r c)) = StatusOK →
  ∃ id data req i doc prior wire,
    Uuid.Parse (URLParam_id r) = Some id
    ∧ ReadAll r = Some data
    ∧ Protojson.Unmarshal_UpdateTaskRequest data = Some req
    ∧ Validate.UpdateTaskRequest_Validate req = None
    ∧ delivers 2 c
    ∧ located id (documents c) = Some (i, doc)
    ∧ decode doc = Ok prior
    ∧ Protojson.Marshal_GetTaskResponse
        {| Task_ := Some (ToProto (amend prior req (Now env))) |} = Some wire
    ∧ Update env r c
      = (Write wire,
         {| documents := <[i := assignments (amend prior req (Now env)) ∪ doc]> (documents c);
            network := tl (tl (network c)) |}).
Proof.
  unfold Update.
  destruct (Uuid.Parse _) as [id|] eqn:Hid; [|done].
  destruct (ReadAll r) as [data|] eqn:Hread; [|done].
  destruct (Protojson.Unmarshal_UpdateTaskRequest data) as [req|] eqn:Hreq; [|done].
  destruct (Validate.UpdateTaskRequest_Validate req) eqn:Hval; [done|].
  unfold mbind, State.M_bind.
  cbn [Database.FindByID Database.Update MongoTaskRepository.repository].
  rewrite FindByID_eq.
  destruct (fate c) eqn:Hfirst; [|done..].
  destruct (located id (documents c)) as [[i doc]|] eqn:Hloc; [|done].
  destruct (decode doc) as [prior|] eqn:Hdec; [|done].
  rewrite Update_eq, after_documents, Hloc.
  destruct (fate (after c)) eqn:Hsecond; [|done..].
  destruct (Protojson.Marshal_GetTaskResponse _) as [wire|] eqn:Hwire; [|done].
  intros _. exists id, data, req, i, doc, prior, wire. split_and!; try done.
  apply delivers_S. split; [done|]. apply delivers_S. split; [done|]. constructor.
Qed.

(** X16.  A 404 means a well-formed identifier that no document
    carries.  The get-by-id endpoint answers 404 exactly when the path
    id parses, the lookup goes through and no document of the
    collection carries the identifier; the update endpoint answers 404
    only in that case. *)
Theorem not_found_means_absent (env : Env) (r : Request) (c : Collection) :
  (Status (fst (GetByID env r c)) = StatusNotFound
   ↔ ∃ id, Uuid.Parse (URLParam_id r) = Some id ∧ fate c = Delivered ∧ unused id c)
  ∧ (Status (fst (Update env r c)) = StatusNotFound
     → ∃ id, Uuid.Parse (URLParam_id r) = Some id ∧ fate c = Delivered ∧ unused id c).
Proof.
  split.
  - destruct (Uuid.Parse (URLParam_id r)) as [id|] eqn:Hparse.
    + rewrite (GetByID_eq env r id c Hparse). cbn [fst]. split.
      * intros Hstatus. exists id. rewrite unused_located.
        destruct (fate c); try done.
        destruct (located id (documents c)) as [[i doc]|]; [|done].
        destruct (decode doc); [|done].
        by destruct (Protojson.Marshal_GetTaskResponse _).
      * by intros (id' & [= <-] & -> & ->%unused_located).
    + unfold GetByID. rewrite Hparse. split; [done|]. by intros (id & ? & _).
  - unfold Update.
    destruct (Uuid.Parse _) as [id|] eqn:Hid; [|done].
    destruct (ReadAll r) as [data|] eqn:Hread; [|done].
    destruct (Protojson.Unmarshal_UpdateTaskRequest data) as [req|] eqn:Hreq; [|done].
    destruct (Validate.UpdateTaskRequest_Validate req) eqn:Hval; [done|].
    unfold mbind, State.M_bind.
    cbn [Database.FindByID Database.Update MongoTaskRepository.repository].
    rewrite FindByID_eq.
    intros Hstatus. exists id. rewrite unused_located.
    destruct (fate c) eqn:Hfirst; [|done..].
    destruct (located id (documents c)) as [[i doc]|] eqn:Hloc; [|done].
    destruct (decode doc) as [prior|] eqn:Hdec; [|done].
    rewrite Update_eq in Hstatus.
    destruct (fate (after c)); try done.
    by destruct (Protojson.Marshal_GetTaskResponse _).
Qed.

(** X17.  An update answered 200 is what a following get-by-id for the
    same path id returns: when that lookup goes through, its response,
    status and body, is the response of the update. *)
Theorem updated_task_is_fetched (env env' : Env) (r : Request) (c : Collection) :
  Status (fst (Update env r c)) = StatusOK →
  fate (snd (Update env r c)) = Delivered →
  fst (GetByID env' r (snd (Update env r c))) = fst (Update env r c).
Proof.
  intros (id & data & req & i & doc & prior & wire & Hparse & _ & _ & _ & _
          & Hloc & Hdec & Hwire & ->)%Update_200.
  cbn [fst snd]. intros Hfate.
  rewrite (GetByID_eq env' r id _ Hparse), Hfate. cbn [fst documents].
  rewrite (located_assigned id _ i doc _ Hloc), (decode_assigned _ prior doc Hdec).
  change (ToProto _) with (ToProto (amend prior req (Now env))).
  by rewrite Hwire.
Qed.

End Answers.

(** X17 on the store and the request of [TestIntegrationUpdateCompleted]. *)
Lemma updated_task_is_fetched_witness :
  let id := default Uuid.Nil (Uuid.Parse "550e8400-e29b-41d4-a716-446655440003") in
  let prior := {| Database.ID := id; Database.Title := "Task to Complete";
                  Database.Description := "Description"; Database.Completed := false;
                  Database.CreatedAt := 1234567890; Database.UpdatedAt := 1234567890 |} in
  let c := {| Mongo.documents := [Database.marshal prior]; Mongo.network := [] |} in
  let env := {| Handlers.Now := 1234567899; Handlers.New := Uuid.Nil |} in
  let env' := {| Handlers.Now := 1234567900; Handlers.New := Uuid.Nil |} in
  let r := {| Http.URLParam_id := "550e8400-e29b-41d4-a716-446655440003";
              Http.ReadAll := Some (Protojson.Text (Json.Object
                [("title", Json.Str "Task to Complete");
                 ("description", Json.Str "Description");
                 ("completed", Json.Bool true)])) |} in
  fst (Handlers.GetByID env' r (snd (Handlers.Update env r c)))
  = fst (Handlers.Update env r c).
Proof.
  intros id prior c env env' r.
  apply (updated_task_is_fetched env env' r c); vm_compute; reflexivity.
Defined.

Section Bodies.
Import Tasks GoError Errors Http Database Mongo Handlers Spec.

Lemma located_decode_ID id docs i doc t :
  located id docs = Some (i, doc) → decode doc = Ok t → ID t = id.
Proof.
  intros [_ Hid]%located_Some [Hdec _]%decode_Ok.
  rewrite Hid, decodeID_to_bytes in Hdec. by simplify_eq.
Qed.

(** X18.  The identifier in a response body is the canonical spelling of
    the task's identifier: a create answered 201 carries the drawn
    identifier, a get-by-id or an update answered 200 carries the
    identifier the path id parses to, each printed by [UUID.String]
    (lower case, dashed) whatever spelling the path used; and that
    spelling parses back to the same identifier. *)
Theorem answers_carry_canonical_id (env : Env) (r : Request) (c : Collection) :
  (Status (fst (Create env r c)) = StatusCreated →
     task_member "id" (fst (Create env r c))
     = Some (Json.Str (Uuid.String_ (New env))))
  ∧ (Status (fst (GetByID env r c)) = StatusOK →
     ∃ id, Uuid.Parse (URLParam_id r) = Some id
           ∧ task_member "id" (fst (GetByID env r c)) = Some (Json.Str (Uuid.String_ id)))
  ∧ (Status (fst (Update env r c)) = StatusOK →
     ∃ id, Uuid.Parse (URLParam_id r) = Some id
           ∧ task_member "id" (fst (Update env r c)) = Some (Json.Str (Uuid.String_ id)))
  ∧ ∀ id, Uuid.Parse (Uuid.String_ id) = Some id.
Proof.
  split_and!.
  - intros (data & req & wire & _ & _ & _ & _ & _ & Hwire & ->)%Create_201.
    cbn [fst]. by rewrite (task_member_id _ _ _ Hwire).
  - destruct (Uuid.Parse (URLParam_id r)) as [id|] eqn:Hparse;
      [|unfold GetByID; by rewrite Hparse].
    rewrite (GetByID_eq env r id c Hparse). cbn [fst]. intros Hstatus. exists id.
    split; [done|].
    destruct (fate c); try done.
    destruct (located id (documents c)) as [[i doc]|] eqn:Hloc; [|done].
    destruct (decode doc) as [t|] eqn:Hdec; [|done].
    destruct (Protojson.Marshal_GetTaskResponse _) as [wire|] eqn:Hwire; [|done].
    unfold Write. rewrite (task_member_id _ _ _ Hwire).
    by rewrite (located_decode_ID id _ i doc t Hloc Hdec).
  - intros (id & data & req & i & doc & prior & wire & Hparse & _ & _ & _ & _
            & Hloc & Hdec & Hwire & ->)%Update_200.
    exists id. split; [done|]. cbn [fst]. unfold Write.
    rewrite (task_member_id _ _ _ Hwire). cbn [amend ID].
    by rewrite (located_decode_ID id _ i doc prior Hloc Hdec).
  - apply Parse_String.
Qed.

Lemma marshalTask_Some (t : Task) :
  encodable t →
  ∃ j, Protojson.marshalTask (ToProto t) = Some j
       ∧ Protojson.Marshal_GetTaskResponse {| Task_ := Some (ToProto t) |}
         = Some (Json.Object [("task", j)]).
Proof.
  intros (Htitle & Hdescription & Hcreated & Hupdated).
  destruct (Marshal_ToProto_Some t Htitle Hdescription Hcreated Hupdated) as [wire Hwire].
  unfold Protojson.Marshal_GetTaskResponse in Hwire |- *. cbn [Task_] in Hwire |- *.
  destruct (Protojson.marshalTask (ToProto t)) as [j|]; [|done]. by exists j.
Qed.

Lemma mapM_marshalTask (ts : list Task) :
  Forall encodable ts →
  ∃ js, mapM Protojson.marshalTask (ToProto <$> ts) = Some js
        ∧ Forall2 (λ t j, Protojson.Marshal_GetTaskResponse {| Task_ := Some (ToProto t) |}
                          = Some (Json.Object [("task", j)])) ts js.
Proof.
  induction 1 as [|t ts Ht _ (js & Hjs & Hall)].
  - exists []. split; [done|constructor].
  - destruct (marshalTask_Some t Ht) as (j & Hj & Hwire).
    exists (j :: js). split; [|by constructor].
    cbn. rewrite Hj. cbn. fold (@fmap list _ _ _ ToProto ts). by rewrite Hjs.
Qed.

(** X19.  The listing shows every stored task, in the order of the
    collection, each as the task object the get-by-id endpoint answers
    with: when both driver calls go through and the collection holds the
    storage forms of a non-empty list of printable records, the answer is
    200 and its [tasks] member is the array of their wire forms. *)
Theorem listing_shows_stored_tasks_in_order
    (env : Env) (r : Request) (c : Collection) (ts : list Task) :
  delivers 2 c →
  documents c = marshal <$> ts →
  ts ≠ [] →
  Forall encodable ts →
  ∃ js,
    fst (GetAll env r c) = Write (Json.Object [("tasks", Json.Array js)])
    ∧ Forall2 (λ t j, Protojson.Marshal_GetTaskResponse {| Task_ := Some (ToProto t) |}
                      = Some (Json.Object [("task", j)])) ts js.
Proof.
  intros (Hfirst & (Hsecond & _)%delivers_S)%delivers_S Hdocs Hsome Hts.
  destruct (mapM_marshalTask ts Hts) as (js & Hjs & Hall).
  exists js. split; [|done].
  unfold GetAll, mbind, State.M_bind.
  cbn [Database.FindAll MongoTaskRepository.repository].
  rewrite FindAll_eq, Hfirst, Hsecond, Hdocs, decodeAll_marshal.
  unfold Protojson.Marshal_ListTasksResponse, Map. cbn [Tasks_].
  destruct ts as [|t ts']; [done|].
  rewrite fmap_cons in Hjs |- *. cbv beta iota. by rewrite Hjs.
Qed.

End Bodies.

(** X19 on two stored tasks of the integration tests. *)
Lemma listing_shows_stored_tasks_in_order_witness :
  let a := default Uuid.Nil (Uuid.Parse "550e8400-e29b-41d4-a716-446655440001") in
  let b := default Uuid.Nil (Uuid.Parse "550e8400-e29b-41d4-a716-446655440002") in
  let first := {| Database.ID := a; Database.Title := "Test Task";
                  Database.Description := "Test Description"; Database.Completed := false;
                  Database.CreatedAt := 1234567890; Database.UpdatedAt := 1234567890 |} in
  let second := {| Database.ID := b; Database.Title := "Original Title";
                   Database.Description := "Original Description";
                   Database.Completed := true;
                   Database.CreatedAt := 1234567890; Database.UpdatedAt := 1234567899 |} in
  let c := {| Mongo.documents := [Database.marshal first; Database.marshal second];
              Mongo.network := [] |} in
  let env := {| Handlers.Now := 1234567900; Handlers.New := Uuid.Nil |} in
  let r := {| Http.URLParam_id := ""; Http.ReadAll := None |} in
  ∃ js,
    fst (Handlers.GetAll env r c) = Http.Write (Json.Object [("tasks", Json.Array js)])
    ∧ Forall2 (λ t j, Protojson.Marshal_GetTaskResponse
                        {| Tasks.Task_ := Some (Database.ToProto t) |}
                      = Some (Json.Object [("task", j)])) [first; second] js.
Proof.
  intros a b first second c env r.
  apply (listing_shows_stored_tasks_in_order env r c [first; second]).
  - constructor.
  - reflexivity.
  - discriminate.
  - repeat constructor.
Defined.

(* ===================================================================== *)
(** * Further properties: what the service stores it can always show *)
(* ===================================================================== *)

Section Presentable.
Import Tasks GoError Errors Http Database Mongo Handlers Spec.

(** A decoded update request carries valid UTF-8 only. *)
Lemma Unmarshal_UpdateTaskRequest_valid d req :
  Protojson.Unmarshal_UpdateTaskRequest d = Some req →
  Utf8.ValidString (UpdateTitle req) = true
  ∧ Utf8.ValidString (UpdateDescription req) = true.
Proof.
  unfold Protojson.Unmarshal_UpdateTaskRequest.
  destruct (Protojson.unmarshalMessage _ d) as [msg|] eqn:Hmsg; [|done].
  apply unmarshalMessage_valid in Hmsg. cbn. intros [= <-]. cbn.
  split; by apply getString_valid.
Qed.

Lemma Create_stores (env : Env) (r : Request) (c : Collection) :
  documents (snd (Create env r c)) = documents c
  ∨ ∃ data req,
      Protojson.Unmarshal_CreateTaskRequest data = Some req
      ∧ documents (snd (Create env r c))
        = (documents c ++ [marshal (created env req)])%list.
Proof.
  destruct (ReadAll r) as [data|] eqn:Hread; [|left; unfold Create; by rewrite Hread].
  destruct (Protojson.Unmarshal_CreateTaskRequest data) as [req|] eqn:Hreq;
    [|left; unfold Create; by rewrite Hread, Hreq].
  destruct (Validate.CreateTaskRequest_Validate req) as [err|] eqn:Hval;
    [left; unfold Create; by rewrite Hread, Hreq, Hval|].
  rewrite (Create_accepted env r data req c Hread Hreq Hval), Create_eq.
  destruct (fate c); try case_bool_decide; try (by left);
    right; exists data, req; (split; [done|]);
    first [done | by destruct (Protojson.Marshal_GetTaskResponse _)].
Qed.

Lemma created_encodable (env : Env) data req :
  Protojson.Unmarshal_CreateTaskRequest data = Some req →
  printable (Now env) →
  encodable (created env req).
Proof. intros [? ?]%Unmarshal_CreateTaskRequest_valid ?. by split_and!. Qed.

Lemma amend_encodable (prior : Task) data req now :
  Protojson.Unmarshal_UpdateTaskRequest data = Some req →
  encodable prior →
  printable now →
  encodable (amend prior req now).
Proof.
  intros [? ?]%Unmarshal_UpdateTaskRequest_valid (_ & _ & ? & _) ?. by split_and!.
Qed.

Lemma located_presentable id docs i doc :
  Forall presentable docs →
  located id docs = Some (i, doc) →
  ∃ t, doc = marshal t ∧ decode doc = Ok t ∧ encodable t.
Proof.
  intros Hdocs [Hi _]%located_Some.
  destruct (Forall_lookup_1 _ _ _ _ Hdocs Hi) as (t & -> & Ht).
  exists t. by rewrite decode_marshal.
Qed.

(** One request at a printable clock reading keeps every document
    presentable. *)
Lemma serve_presentable route (env : Env) (r : Request) (c : Collection) :
  Forall presentable (documents c) →
  printable (Now env) →
  Forall presentable (documents (snd (serve route env r c))).
Proof.
  intros Hdocs Hnow. destruct route; cbn [serve].
  - by rewrite GetAll_effect.
  - destruct (Create_stores env r c) as [-> | (data & req & Hreq & ->)]; [done|].
    apply Forall_app. split; [done|]. apply Forall_singleton.
    exists (created env req). split; [done|]. by eapply created_encodable.
  - by rewrite GetByID_effect.
  - destruct (Update_effect env r c)
      as [-> | (id & data & req & i & doc & prior & _ & _ & Hreq & _ & Hloc & Hdec & ->)];
      [done|].
    apply Forall_insert; [done|].
    destruct (located_presentable id _ i doc Hdocs Hloc) as (t & -> & Ht & Henc).
    rewrite Ht in Hdec. injection Hdec as <-.
    rewrite assigned_marshal. eexists. split; [done|]. by eapply amend_encodable.
  - destruct (Delete_effect env r c) as [-> | [i ->]]; [done|].
    by apply Forall_delete.
Qed.

Lemma run_presentable calls :
  ∀ c : Collection,
    Forall presentable (documents c) →
    Forall (λ call, printable (clock call)) calls →
    Forall presentable (documents (run calls c)).
Proof.
  induction calls as [|[[route env] r] rest IH]; intros c Hdocs Hclocks; [done|].
  cbn [run]. apply Forall_cons in Hclocks as [Hnow Hrest].
  apply IH; [|done]. by apply serve_presentable.
Qed.

Lemma presentable_tasks docs :
  Forall presentable docs → ∃ ts, docs = marshal <$> ts ∧ Forall encodable ts.
Proof.
  induction 1 as [|doc docs (t & -> & Ht) _ (ts & -> & Hts)].
  - by exists [].
  - exists (t :: ts). split; [done|by constructor].
Qed.

Lemma validation_is_no_encode_failure status err :
  ¬ encode_failure (RespondWithError status (Validation.convertValidationError err)).
Proof.
  unfold encode_failure. cbn. intros [= Heq].
  apply (f_equal Type_) in Heq. by rewrite convertValidationError_type in Heq.
Qed.

(** On presentable documents no handler fails to encode its response. *)
Lemma serve_encodes route (env : Env) (r : Request) (c : Collection) :
  Forall presentable (documents c) →
  printable (Now env) →
  ¬ encode_failure (fst (serve route env r c)).
Proof.
  intros Hdocs Hnow. destruct route; cbn [serve].
  - unfold GetAll, mbind, State.M_bind.
    cbn [Database.FindAll MongoTaskRepository.repository]. rewrite FindAll_eq.
    destruct (fate c); [|by intros [=]..].
    destruct (fate (after c)); [|by intros [=]..].
    destruct (presentable_tasks _ Hdocs) as (ts & -> & Hts).
    rewrite decodeAll_marshal.
    destruct (mapM_marshalTask ts Hts) as (js & Hjs & _).
    unfold Protojson.Marshal_ListTasksResponse, Map. cbn [Tasks_].
    destruct ts as [|t ts']; [by intros [=]|].
    rewrite fmap_cons in Hjs |- *. cbv beta iota. rewrite Hjs. by intros [=].
  - destruct (ReadAll r) as [data|] eqn:Hread;
      [|unfold Create; rewrite Hread; by intros [=]].
    destruct (Protojson.Unmarshal_CreateTaskRequest data) as [req|] eqn:Hreq;
      [|unfold Create; rewrite Hread, Hreq; by intros [=]].
    destruct (Validate.CreateTaskRequest_Validate req) as [err|] eqn:Hval;
      [unfold Create; rewrite Hread, Hreq, Hval; apply validation_is_no_encode_failure|].
    rewrite (Create_accepted env r data req c Hread Hreq Hval).
    destruct (MongoTaskRepository.Create _ c) as [[e|] c']; [by intros [=]|].
    destruct (marshalTask_Some (created env req)) as (j & _ & ->);
      [by eapply created_encodable|]. by intros [=].
  - destruct (Uuid.Parse (URLParam_id r)) as [id|] eqn:Hparse;
      [|unfold GetByID; rewrite Hparse; by intros [=]].
    rewrite (GetByID_eq env r id c Hparse). cbn [fst].
    destruct (fate c); [|by intros [=]..].
    destruct (located id (documents c)) as [[i doc]|] eqn:Hloc; [|by intros [=]].
    destruct (located_presentable id _ i doc Hdocs Hloc) as (t & _ & -> & Henc).
    destruct (marshalTask_Some t Henc) as (j & _ & ->). by intros [=].
  - unfold Update.
    destruct (Uuid.Parse _) as [id|] eqn:Hid; [|by intros [=]].
    destruct (ReadAll r) as [data|] eqn:Hread; [|by intros [=]].
    destruct (Protojson.Unmarshal_UpdateTaskRequest data) as [req|] eqn:Hreq;
      [|by intros [=]].
    destruct (Validate.UpdateTaskRequest_Validate req) eqn:Hval;
      [apply validation_is_no_encode_failure|].
    unfold mbind, State.M_bind.
    cbn [Database.FindByID Database.Update MongoTaskRepository.repository].
    rewrite FindByID_eq.
    destruct (fate c); [|by intros [=]..].
    destruct (located id (documents c)) as [[i doc]|] eqn:Hloc; [|by intros [=]].
    destruct (located_presentable id _ i doc Hdocs Hloc) as (t & _ & -> & Henc).
    destruct (MongoTaskRepository.Update _ _ _) as [[e|] c']; [by intros [=]|].
    destruct (marshalTask_Some (amend t req (Now env))) as (j & _ & ->);
      [by eapply amend_encodable|]. by intros [=].
  - unfold Delete, mbind, State.M_bind.
    destruct (Uuid.Parse _) as [id|]; [|by intros [=]].
    by destruct (Database.Delete id c) as [[e|] c']; intros [=].
Qed.

(** X20.  The service can always show what it stored.  Starting from the
    empty collection and serving any requests at clock readings that are
    printable dates (years 1 to 9999), whatever the driver calls do: every
    document of the collection is the storage form of a record with valid
    UTF-8 text and printable times, and no handler then answers with the
    failure to encode its response. *)
Theorem stored_tasks_can_always_be_shown
    (calls : list (Route * Env * Request)) (c : Collection) :
  documents c = [] →
  Forall (λ call, printable (clock call)) calls →
  Forall presentable (documents (run calls c))
  ∧ ∀ route env r,
      printable (Now env) →
      ¬ encode_failure (fst (serve route env r (run calls c))).
Proof.
  intros Hempty Hclocks.
  assert (Forall presentable (documents (run calls c))) as Hall.
  { apply run_presentable; [|done]. rewrite Hempty. constructor. }
  split; [done|]. intros route env r Hnow. by apply serve_encodes.
Qed.

(** X21.  The two read endpoints never write: after any sequence of
    listing and get-by-id requests, whatever their path ids and the fate
    of the driver calls, the documents of the collection are what they
    were. *)
Theorem reads_never_write (calls : list (Route * Env * Request)) (c : Collection) :
  Forall reads calls →
  documents (run calls c) = documents c.
Proof.
  revert c. induction calls as [|[[route env] r] rest IH]; intros c Hreads; [done|].
  apply Forall_cons in Hreads as [[Hroute|Hroute] Hrest];
    cbn in Hroute; subst route; cbn [run serve]; rewrite (IH _ Hrest).
  - apply GetAll_effect.
  - apply GetByID_effect.
Qed.

End Presentable.

(** X20 on a create, an update and a listing. *)
Lemma stored_tasks_can_always_be_shown_witness :
  let c := {| Mongo.documents := []; Mongo.network := [] |} in
  let a := default Uuid.Nil (Uuid.Parse "550e8400-e29b-41d4-a716-446655440000") in
  let body members := Some (Protojson.Text (Json.Object members)) in
  let calls :=
    [ (Handlers.POST_tasks, {| Handlers.Now := 1234567890; Handlers.New := a |},
       {| Http.URLParam_id := "";
          Http.ReadAll := body [("title", Json.Str "Workflow Task")] |});
      (Handlers.PUT_task, {| Handlers.Now := 1234567899; Handlers.New := Uuid.Nil |},
       {| Http.URLParam_id := "550e8400-e29b-41d4-a716-446655440000";
          Http.ReadAll := body [("title", Json.Str "Updated Workflow Task");
                                ("completed", Json.Bool true)] |}) ] in
  length (Mongo.documents (Handlers.run calls c)) = 1%nat
  ∧ Forall Spec.presentable (Mongo.documents (Handlers.run calls c))
  ∧ ∀ route env r,
      Spec.printable (Handlers.Now env) →
      ¬ Spec.encode_failure (fst (Handlers.serve route env r (Handlers.run calls c))).
Proof.
  intros c a body calls. split; [vm_compute; reflexivity|].
  apply (stored_tasks_can_always_be_shown calls c); [reflexivity|].
  repeat constructor.
Defined.

(** X21 on a listing and a get-by-id over a collection of one task. *)
Lemma reads_never_write_witness :
  let id := default Uuid.Nil (Uuid.Parse "550e8400-e29b-41d4-a716-446655440001") in
  let task := {| Database.ID := id; Database.Title := "Test Task";
                 Database.Description := "Test Description"; Database.Completed := false;
                 Database.CreatedAt := 1234567890; Database.UpdatedAt := 1234567890 |} in
  let c := {| Mongo.documents := [Database.marshal task];
              Mongo.network := [Mongo.Delivered; Mongo.ReplyLost] |} in
  let env := {| Handlers.Now := 1234567900; Handlers.New := Uuid.Nil |} in
  let calls :=
    [ (Handlers.GET_tasks, env, {| Http.URLParam_id := ""; Http.ReadAll := None |});
      (Handlers.GET_task, env,
       {| Http.URLParam_id := "550e8400-e29b-41d4-a716-446655440001";
          Http.ReadAll := None |}) ] in
  Mongo.documents (Handlers.run calls c) = Mongo.documents c.
Proof.
  intros id task c env calls. apply (reads_never_write calls c).
  apply Forall_cons; split; [by left|].
  apply Forall_cons; split; [by right|]. constructor.
Defined.

(* ===================================================================== *)
(** * Further properties: [convertValidationError] *)
(* ===================================================================== *)

Section StringFacts.
Import GoStrings Spec.

Lemma append_nil_l (s : string) : "" +:+ s = s.
Proof. reflexivity. Qed.

Lemma append_cons (c : byte) (a b : string) : String c a +:+ b = String c (a +:+ b).
Proof. reflexivity. Qed.

Lemma append_nil_r (s : string) : s +:+ "" = s.
Proof. induction s as [|c s IH]; [done|]. by rewrite append_cons, IH. Qed.

Lemma append_assoc (a b c : string) : (a +:+ b) +:+ c = a +:+ (b +:+ c).
Proof. induction a as [|x a IH]; [done|]. by rewrite !append_cons, IH. Qed.

Lemma free_of_app c a b : free_of c (a +:+ b) = free_of c a && free_of c b.
Proof.
  induction a as [|x a IH]; [done|].
  rewrite append_cons. cbn [free_of]. by rewrite IH, andb_assoc.
Qed.

Lemma Split_free sep s : free_of sep s = true → Split s sep = [s].
Proof.
  induction s as [|c s IH]; [done|]. cbn [free_of Split].
  intros [Hc Hs]%andb_prop. apply negb_true_iff in Hc. by rewrite Hc, (IH Hs).
Qed.

Lemma Split_app sep a b :
  free_of sep a = true → Split (a +:+ String sep b) sep = a :: Split b sep.
Proof.
  induction a as [|c a IH].
  - intros _. rewrite append_nil_l. cbn [Split]. by rewrite Ascii.eqb_refl.
  - cbn [free_of]. intros [Hc Ha]%andb_prop. apply negb_true_iff in Hc.
    rewrite append_cons. cbn [Split]. by rewrite Hc, (IH Ha).
Qed.

Lemma Split_concat (lines : list string) :
  lines ≠ [] →
  Forall (λ l, free_of "010" l = true) lines →
  Split (String.concat GoError.newline lines) "010" = lines.
Proof.
  induction lines as [|l lines IH]; [done|]. intros _ [Hl Hrest]%Forall_cons.
  destruct lines as [|l' lines].
  - by apply Split_free.
  - change (String.concat GoError.newline (l :: l' :: lines))
      with (l +:+ String "010" (String.concat GoError.newline (l' :: lines))).
    rewrite Split_app by done. f_equal. by apply IH.
Qed.

Lemma Split_last sep p f :
  free_of sep f = true →
  ∃ pieces, pieces ≠ [] ∧ Split (p +:+ String sep f) sep = (pieces ++ [f])%list.
Proof.
  intros Hf. induction p as [|c p (pieces & Hne & IH)].
  - exists [""]. split; [done|].
    rewrite append_nil_l. cbn [Split]. by rewrite Ascii.eqb_refl, Split_free.
  - rewrite append_cons. cbn [Split]. rewrite IH. destruct (Ascii.eqb c sep).
    + by exists ("" :: pieces).
    + destruct pieces as [|piece rest]; [done|]. by exists (String c piece :: rest).
Qed.

Lemma Cut_app sep a b :
  free_of sep a = true → Cut (a +:+ String sep b) sep = Some (a, b).
Proof.
  induction a as [|c a IH].
  - intros _. rewrite append_nil_l. cbn [Cut]. by rewrite Ascii.eqb_refl.
  - cbn [free_of]. intros [Hc Ha]%andb_prop. apply negb_true_iff in Hc.
    rewrite append_cons. cbn [Cut]. by rewrite Hc, (IH Ha).
Qed.

Lemma prefix_app (a b : string) : String.prefix a (a +:+ b) = true.
Proof.
  induction a as [|c a IH]; [by destruct b|].
  rewrite append_cons. cbn [String.prefix]. by destruct (ascii_dec c c).
Qed.

Lemma find_high spaces c s :
  forallb high spaces = true →
  plain c = true →
  List.find (HasPrefix (String c s)) spaces = None.
Proof.
  intros Hspaces [Hc _]%andb_prop. apply N.ltb_lt in Hc.
  induction spaces as [|sp spaces IH]; [done|].
  cbn [forallb] in Hspaces. apply andb_prop in Hspaces as [Hsp Hrest].
  cbn [List.find]. destruct sp as [|b sp]; [done|].
  unfold HasPrefix at 1. cbn [String.prefix].
  destruct (ascii_dec b c) as [->|_]; [|by apply IH].
  cbn [high] in Hsp. apply N.leb_le in Hsp. lia.
Qed.

Lemma trimLeft_plain spaces fuel c s :
  forallb high spaces = true →
  plain c = true →
  trimLeft spaces fuel (String c s) = String c s.
Proof.
  intros Hspaces Hc. destruct fuel; [done|]. cbn [trimLeft].
  rewrite (find_high spaces c s Hspaces Hc).
  apply andb_prop in Hc as [_ Hc]. apply negb_true_iff in Hc. by rewrite Hc.
Qed.

Lemma rev_app_rev_app (a b c : string) :
  String.rev_app (String.rev_app a b) c = String.rev_app b (a +:+ c).
Proof.
  revert b. induction a as [|x a IH]; intros b; [done|].
  cbn [String.rev_app]. by rewrite IH.
Qed.

Lemma rev_involutive (s : string) : String.rev (String.rev s) = s.
Proof. unfold String.rev. rewrite rev_app_rev_app. cbn. apply append_nil_r. Qed.

Lemma ends_plain_rev_app (s acc : string) :
  ends_plain s = true →
  ∃ c rest, String.rev_app s acc = String c rest ∧ plain c = true.
Proof.
  revert acc. induction s as [|a s IH]; intros acc; [done|].
  destruct s as [|b s]; cbn [ends_plain String.rev_app].
  - intros Ha. by exists a, acc.
  - intros Hs. apply (IH (String a acc) Hs).
Qed.

Lemma ends_plain_app (a b : string) : ends_plain b = true → ends_plain (a +:+ b) = true.
Proof.
  intros Hb. induction a as [|c a IH]; [done|].
  rewrite append_cons. destruct (a +:+ b); [done|]. done.
Qed.

(** The right-hand side of [TrimSpace] on a text that ends with a plain
    byte. *)
Lemma trimRight_plain (s : string) :
  ends_plain s = true →
  String.rev (trimLeft (String.rev <$> wideSpaces) (String.length s) (String.rev s)) = s.
Proof.
  intros (c & rest & Hrev & Hc)%(ends_plain_rev_app s "").
  fold (String.rev s) in Hrev. rewrite Hrev, trimLeft_plain by done.
  rewrite <- Hrev. apply rev_involutive.
Qed.

Lemma TrimSpace_trimmed (s : string) : trimmed s = true → TrimSpace s = s.
Proof.
  unfold trimmed, TrimSpace. destruct s as [|c s]; [done|].
  intros [Hc Hends]%andb_prop. cbv zeta.
  rewrite (trimLeft_plain wideSpaces _ c s) by done. by apply trimRight_plain.
Qed.

Lemma TrimSpace_space (s : string) : trimmed s = true → TrimSpace (String " " s) = s.
Proof.
  unfold trimmed, TrimSpace. destruct s as [|c s]; [done|].
  intros [Hc Hends]%andb_prop. cbv zeta.
  change (trimLeft wideSpaces (String.length (String " " (String c s)))
            (String " " (String c s)))
    with (trimLeft wideSpaces (String.length (String c s)) (String c s)).
  rewrite (trimLeft_plain wideSpaces _ c s) by done. by apply trimRight_plain.
Qed.

Lemma Cut_free sep s a b : Cut s sep = Some (a, b) → free_of sep a = true.
Proof.
  revert a. induction s as [|c s IH]; intros a; [done|]. cbn [Cut].
  destruct (Ascii.eqb c sep) eqn:Hc; [by intros [= <- _]|].
  destruct (Cut s sep) as [[before after]|]; [|done].
  intros [= <- <-]. cbn [free_of]. by rewrite Hc, (IH before eq_refl).
Qed.

Lemma free_of_drop c n s : free_of c s = true → free_of c (drop n s) = true.
Proof.
  revert s. induction n as [|n IH]; intros [|a s]; try done.
  cbn [free_of drop]. intros [_ Hs]%andb_prop. by apply IH.
Qed.

Lemma Split_nonempty sep s : Split s sep ≠ [].
Proof.
  destruct s as [|c s]; [done|]. cbn [Split].
  destruct (Ascii.eqb c sep); [done|]. by destruct (Split s sep).
Qed.

(** The pieces hold no separator, and no byte the text does not hold. *)
Lemma Split_pieces_free sep s : Forall (λ p, free_of sep p = true) (Split s sep).
Proof.
  induction s as [|c s IH]; [by repeat constructor|]. cbn [Split].
  destruct (Ascii.eqb c sep) eqn:Hc; [by constructor|].
  destruct (Split s sep) as [|piece pieces]; [by repeat constructor; cbn; rewrite Hc|].
  apply Forall_cons in IH as [Hpiece Hpieces].
  constructor; [|done]. cbn [free_of]. by rewrite Hc.
Qed.

Lemma Split_keeps_free c sep s :
  free_of c s = true → Forall (λ p, free_of c p = true) (Split s sep).
Proof.
  induction s as [|a s IH]; [by repeat constructor|]. cbn [free_of Split].
  intros [Ha Hs]%andb_prop. specialize (IH Hs).
  destruct (Ascii.eqb a sep); [by constructor|].
  destruct (Split s sep) as [|piece pieces]; [by repeat constructor; cbn; rewrite Ha|].
  apply Forall_cons in IH as [Hpiece Hpieces].
  constructor; [|done]. cbn [free_of]. by rewrite Ha.
Qed.

Lemma Split_single sep s : (length (Split s sep) ≤ 1)%nat → free_of sep s = true.
Proof.
  induction s as [|c s IH]; [done|]. cbn [Split free_of].
  destruct (Ascii.eqb c sep).
  - pose proof (Split_nonempty sep s). destruct (Split s sep); [done|]. cbn. lia.
  - destruct (Split s sep) as [|piece pieces] eqn:Hs; [by destruct (Split_nonempty sep s)|].
    cbn [length] in IH |- *. intros Hlen. by rewrite IH.
Qed.

Lemma last_Forall {A} (P : A → Prop) (l : list A) (d : A) :
  l ≠ [] → Forall P l → P (List.last l d).
Proof.
  induction l as [|x l IH]; [done|]. intros _ [Hx Hl]%Forall_cons.
  destruct l as [|y l]; [done|]. by apply IH.
Qed.

Lemma omap_nil {A B} (f : A → option B) (l : list A) :
  omap f l = [] → Forall (λ x, f x = None) l.
Proof.
  induction l as [|x l IH]; [constructor|]. cbn.
  destruct (f x) eqn:Hx; [done|]. intros Hl. constructor; auto.
Qed.

Lemma omap_Forall {A B} (f : A → option B) (P : B → Prop) (l : list A) :
  (∀ x y, f x = Some y → P y) → Forall P (omap f l).
Proof.
  intros Hf. induction l as [|x l IH]; [constructor|]. cbn.
  destruct (f x) eqn:Hx; [|done]. constructor; eauto.
Qed.

End StringFacts.

Section ConvertValidationError.
Import GoStrings GoError Errors Validation Spec.

Lemma diagnostic_line_cut (d : Diagnostic) :
  diagnostic_line d
  = ("invalid " +:+ Path d +:+ String "." (Name d)) +:+ String ":" (String " " (Reason d)).
Proof. unfold diagnostic_line. rewrite !append_assoc. reflexivity. Qed.

Lemma diagnostic_line_trimmed (d : Diagnostic) :
  trimmed (Reason d) = true → trimmed (diagnostic_line d) = true.
Proof.
  unfold trimmed at 1. intros [_ Hends]%andb_prop.
  unfold trimmed. apply andb_true_intro. split; [reflexivity|].
  unfold diagnostic_line. by repeat apply ends_plain_app.
Qed.

Lemma diagnostic_line_free (d : Diagnostic) :
  well_formed d → free_of "010" (diagnostic_line d) = true.
Proof.
  intros (_ & Hpath & _ & _ & Hname & Hreason & _).
  unfold diagnostic_line. rewrite !free_of_app, Hpath, Hname, Hreason. reflexivity.
Qed.

(** A well-formed diagnostic line is read back as its field and reason. *)
Lemma lineDetail_diagnostic (d : Diagnostic) :
  well_formed d → lineDetail (diagnostic_line d) = Some (diagnostic_detail d).
Proof.
  intros (Hpath & _ & Hdot & Hcolon & _ & _ & Hreason).
  unfold lineDetail. cbv zeta.
  rewrite (TrimSpace_trimmed _ (diagnostic_line_trimmed d Hreason)).
  rewrite bool_decide_eq_false_2 by (unfold diagnostic_line; discriminate).
  assert (HasPrefix (diagnostic_line d) "invalid " = true) as ->
    by apply prefix_app.
  assert (SplitN (diagnostic_line d) ":" 2
          = ["invalid " +:+ Path d +:+ String "." (Name d); String " " (Reason d)]) as ->.
  { rewrite diagnostic_line_cut. cbn [SplitN]. rewrite Cut_app; [done|].
    rewrite !free_of_app. cbn [free_of]. rewrite Hpath, Hcolon. reflexivity. }
  assert (TrimPrefix ("invalid " +:+ Path d +:+ String "." (Name d)) "invalid "
          = Path d +:+ String "." (Name d)) as ->.
  { unfold TrimPrefix, HasPrefix. by rewrite prefix_app. }
  destruct (Split_last "." (Path d) (Name d) Hdot) as (pieces & Hpieces & ->).
  rewrite List.last_last, length_app, (TrimSpace_space _ Hreason).
  destruct pieces; [done|]. cbn [length]. rewrite Nat.add_1_r. reflexivity.
Qed.

Lemma omap_lineDetail (ds : list Diagnostic) :
  Forall well_formed ds →
  omap lineDetail (diagnostic_line <$> ds) = diagnostic_detail <$> ds.
Proof.
  induction 1 as [|d ds Hd _ IH]; [done|].
  cbn. by rewrite (lineDetail_diagnostic d Hd), IH.
Qed.

(** X22.  [convertValidationError] reads a validation message back into
    its diagnostics: for an error whose text is one line per diagnostic,
    [invalid Path.Name: Reason], the details are the list of the
    diagnostics in the order of the lines, each with the last component
    of the dotted path as field and the reason, with the blank after the
    colon removed, as message. *)
Theorem validation_lines_become_details (err : error) (ds : list Diagnostic) :
  ds ≠ [] →
  Forall well_formed ds →
  Error err = String.concat newline (diagnostic_line <$> ds) →
  convertValidationError err
  = NewValidationError "Validation failed" (FieldDetails (diagnostic_detail <$> ds)).
Proof.
  intros Hsome Hds Herr. unfold convertValidationError. cbv zeta.
  rewrite Herr, Split_concat.
  - rewrite (omap_lineDetail ds Hds), bool_decide_eq_false_2; [done|].
    by destruct ds.
  - by destruct ds.
  - apply Forall_fmap. eapply Forall_impl; [done|]. apply diagnostic_line_free.
Qed.

(** Whatever the line, a detail read from it names a bare field. *)
Lemma lineDetail_Some (line : string) (d : ValidationErrorDetail) :
  lineDetail line = Some d →
  free_of "." (Field d) = true ∧ free_of ":" (Field d) = true.
Proof.
  unfold lineDetail. cbv zeta. case_bool_decide; [done|].
  destruct (HasPrefix _ _); [|done].
  destruct (SplitN _ ":" 2) as [|part0 [|part1 [|]]] eqn:Hparts; try done.
  intros [= <-]. cbn [Field].
  assert (free_of ":" (TrimPrefix part0 "invalid ") = true) as Hcolon.
  { cbn [SplitN] in Hparts.
    destruct (Cut _ ":") as [[before after]|] eqn:Hcut; [|done].
    injection Hparts as <- _. apply Cut_free in Hcut.
    unfold TrimPrefix. destruct (HasPrefix before _); [by apply free_of_drop|done]. }
  destruct (1 <? length _)%nat eqn:Hlen.
  - split; (apply last_Forall; [apply Split_nonempty|]).
    + apply Split_pieces_free.
    + by apply Split_keeps_free.
  - split; [|done]. apply Nat.ltb_ge in Hlen. by eapply Split_single.
Qed.

(** X23.  The envelope [convertValidationError] builds always says what
    failed: its kind is VALIDATION_ERROR and its message is fixed; its
    details are never absent and never an empty list.  They are the list
    of the details read from the lines, each naming a field without dot
    or colon, or, when no line of the error text yields a detail, a map
    that carries the whole text under the key [error]. *)
Theorem validation_details_are_never_empty (err : error) :
  Type_ (convertValidationError err) = VALIDATION_ERROR
  ∧ ErrMessage (convertValidationError err) = "Validation failed"
  ∧ match ErrDetails (convertValidationError err) with
    | NoDetails => False
    | MapDetails m =>
        m = {[ "error" := Error err ]}
        ∧ Forall (λ line, lineDetail line = None) (Split (Error err) "010")
    | FieldDetails details =>
        details ≠ []
        ∧ Forall (λ d, free_of "." (Field d) = true ∧ free_of ":" (Field d) = true) details
    end.
Proof.
  unfold convertValidationError. cbv zeta. case_bool_decide as Hlen; cbn.
  - split_and!; try done. apply omap_nil. by apply nil_length_inv.
  - split_and!; try done.
    + intros Hnil. by rewrite Hnil in Hlen.
    + apply omap_Forall. intros line d. apply lineDetail_Some.
Qed.

End ConvertValidationError.

(** X22 on the message of the README's example and a second diagnostic. *)
Lemma validation_lines_become_details_witness :
  let err := GoError.DriverError
    (String.concat GoError.newline
       [ "invalid CreateTaskRequest.Title: value length must be at least 1 characters";
         "invalid CreateTaskRequest.Description: value length must be at most 500 characters" ]) in
  Validation.convertValidationError err
  = Errors.NewValidationError "Validation failed"
      (Errors.FieldDetails
         [ {| Errors.Field := "Title";
              Errors.Message := "value length must be at least 1 characters" |};
           {| Errors.Field := "Description";
              Errors.Message := "value length must be at most 500 characters" |} ]).
Proof.
  intros err.
  apply (validation_lines_become_details err
           [ {| Spec.Path := "CreateTaskRequest"; Spec.Name := "Title";
                Spec.Reason := "value length must be at least 1 characters" |};
             {| Spec.Path := "CreateTaskRequest"; Spec.Name := "Description";
                Spec.Reason := "value length must be at most 500 characters" |} ]).
  - discriminate.
  - repeat constructor.
  - reflexivity.
Defined.

(* ===================================================================== *)
(** * Further properties: the projection to the wire *)
(* ===================================================================== *)

Section Projection.
Import Uuid Database.

Lemma String_inj (u v : UUID) : String_ u = String_ v → u = v.
Proof.
  intros Heq. apply (f_equal Parse) in Heq. rewrite !Parse_String in Heq.
  by simplify_eq.
Qed.

(** X24.  [ToProto] loses nothing of the storage record: two records
    with the same wire form have the same identifier, title, description,
    completed flag and times, so distinct stored tasks are never shown
    alike. *)
Theorem ToProto_injective (t t' : Task) : ToProto t = ToProto t' → t = t'.
Proof.
  destruct t, t'. unfold ToProto, Timestamppb.New_Unix.
  cbn [ID Title Description Completed CreatedAt UpdatedAt].
  intros [= Hid%String_inj -> -> -> -> ->]. by subst.
Qed.

End Projection.

(** X24 on a record whose identifier was parsed from the upper-case
    spelling and one whose identifier was parsed from the lower-case
    one. *)
Lemma ToProto_injective_witness :
  let upper := default Uuid.Nil (Uuid.Parse "550E8400-E29B-41D4-A716-446655440000") in
  let lower := default Uuid.Nil (Uuid.Parse "550e8400-e29b-41d4-a716-446655440000") in
  let task id := {| Database.ID := id; Database.Title := "Test Task";
                    Database.Description := "Test Description";
                    Database.Completed := false;
                    Database.CreatedAt := 1234567890; Database.UpdatedAt := 1234567890 |} in
  task upper = task lower.
Proof.
  intros upper lower task. apply (ToProto_injective (task upper) (task lower)).
  vm_compute. reflexivity.
Defined.

(* ===================================================================== *)
(** * Further properties: repeated deletes, fetches, response bodies *)
(* ===================================================================== *)

Section More.
Import Tasks GoError Errors Http Database Mongo Handlers Spec.

Lemma Delete_documents (id : Uuid.UUID) (c : Collection) :
  fate c ≠ Dropped →
  snd (MongoTaskRepository.Delete id c)
  = {| documents :=
         match located id (documents c) with
         | Some (i, _) => delete i (documents c)
         | None => documents c
         end;
       network := tl (network c) |}.
Proof. intros Hfate. rewrite Delete_eq. by destruct (fate c). Qed.

(** X25.  Deleting is idempotent.  With pairwise distinct identifiers in
    the collection, once a delete reached the server a second delete of
    the same identifier changes nothing more; and the delete handler,
    asked again for the same path id, answers 204 again when its call
    goes through, although the task is gone. *)
Theorem delete_twice_is_delete_once (id : Uuid.UUID) (c : Collection) :
  NoDup (identifiers (documents c)) →
  fate c ≠ Dropped →
  documents (snd (MongoTaskRepository.Delete id (snd (MongoTaskRepository.Delete id c))))
  = documents (snd (MongoTaskRepository.Delete id c))
  ∧ ∀ env env' r,
      Uuid.Parse (URLParam_id r) = Some id →
      fate (snd (Handlers.Delete env r c)) = Delivered →
      fst (Handlers.Delete env' r (snd (Handlers.Delete env r c)))
      = WriteHeader StatusNoContent
      ∧ documents (snd (Handlers.Delete env' r (snd (Handlers.Delete env r c))))
        = documents (snd (Handlers.Delete env r c)).
Proof.
  intros Hunique Hfate.
  assert (∀ c', documents c' = documents (snd (MongoTaskRepository.Delete id c)) →
            located id (documents c') = None) as Hgone.
  { intros c' ->. rewrite (Delete_documents id c Hfate). cbn [documents].
    destruct (located id (documents c)) as [[i doc]|] eqn:Hloc; [|done].
    by eapply located_deleted. }
  split.
  - rewrite (Delete_eq id (snd _)), (Hgone _ eq_refl).
    by destruct (fate (snd (MongoTaskRepository.Delete id c))).
  - intros env env' r Hparse.
    assert (snd (Handlers.Delete env r c) = snd (MongoTaskRepository.Delete id c)) as ->.
    { unfold Handlers.Delete, mbind, State.M_bind. rewrite Hparse.
      cbn [Database.Delete MongoTaskRepository.repository].
      by destruct (MongoTaskRepository.Delete id c) as [[e|] c']. }
    intros Hnext. unfold Handlers.Delete, mbind, State.M_bind. rewrite Hparse.
    cbn [Database.Delete MongoTaskRepository.repository].
    by rewrite (Delete_eq id (snd _)), Hnext, (Hgone _ eq_refl).
Qed.

(** X26.  A 200 from the get-by-id endpoint means the stored record:
    the answer is 200 exactly when the path id parses, the lookup goes
    through, the first document with that identifier decodes to a record
    and that record can be encoded; and under those four conditions the
    response is the wire form of that record. *)
Theorem ok_means_the_stored_record (env : Env) (r : Request) (c : Collection) :
  (Status (fst (GetByID env r c)) = StatusOK
   ↔ ∃ id t wire,
       Uuid.Parse (URLParam_id r) = Some id
       ∧ fate c = Delivered
       ∧ stored id c = Some t
       ∧ Protojson.Marshal_GetTaskResponse {| Task_ := Some (ToProto t) |} = Some wire)
  ∧ (∀ id t wire,
       Uuid.Parse (URLParam_id r) = Some id →
       fate c = Delivered →
       stored id c = Some t →
       Protojson.Marshal_GetTaskResponse {| Task_ := Some (ToProto t) |} = Some wire →
       fst (GetByID env r c) = Write wire).
Proof.
  assert (∀ id t wire,
            Uuid.Parse (URLParam_id r) = Some id →
            fate c = Delivered →
            stored id c = Some t →
            Protojson.Marshal_GetTaskResponse {| Task_ := Some (ToProto t) |} = Some wire →
            fst (GetByID env r c) = Write wire) as Hfound.
  { intros id t wire Hparse Hfate (i & doc & Hloc & Hdec)%stored_Some Hwire.
    by rewrite (GetByID_eq env r id c Hparse), Hfate, Hloc, Hdec, Hwire. }
  split; [|exact Hfound]. split.
  - destruct (Uuid.Parse (URLParam_id r)) as [id|] eqn:Hparse;
      [|unfold GetByID; by rewrite Hparse].
    rewrite (GetByID_eq env r id c Hparse). cbn [fst].
    destruct (fate c); try done.
    destruct (located id (documents c)) as [[i doc]|] eqn:Hloc; [|done].
    destruct (decode doc) as [t|] eqn:Hdec; [|done].
    destruct (Protojson.Marshal_GetTaskResponse _) as [wire|] eqn:Hwire; [|done].
    intros _. exists id, t, wire. unfold stored. by rewrite Hloc, Hdec.
  - intros (id & t & wire & Hparse & Hfate & Hstored & Hwire).
    by rewrite (Hfound id t wire Hparse Hfate Hstored Hwire).
Qed.

(** X27.  What the body of a successful create or update shows.  A
    create answered 201 carries the decoded title and description (a
    member is left out when its text is empty), no [completed] member
    (the flag is false and [protojson] leaves false out), and
    [createdAt] and [updatedAt] equal to the RFC 3339 text of the one
    clock reading.  An update answered 200 carries the decoded title and
    description, [completed] only when the resulting flag is true,
    [createdAt] of the stored record and [updatedAt] of the clock
    reading. *)
Theorem response_bodies_show_the_record (env : Env) (r : Request) (c : Collection) :
  (Status (fst (Create env r c)) = StatusCreated →
   ∃ data req,
     ReadAll r = Some data
     ∧ Protojson.Unmarshal_CreateTaskRequest data = Some req
     ∧ task_member "title" (fst (Create env r c))
       = (if bool_decide (CreateTitle req = "") then None
          else Some (Json.Str (CreateTitle req)))
     ∧ task_member "description" (fst (Create env r c))
       = (if bool_decide (CreateDescription req = "") then None
          else Some (Json.Str (CreateDescription req)))
     ∧ task_member "completed" (fst (Create env r c)) = None
     ∧ task_member "createdAt" (fst (Create env r c))
       = Some (Json.Str (Timestamppb.rfc3339 (Timestamppb.New_Unix (Now env))))
     ∧ task_member "updatedAt" (fst (Create env r c))
       = task_member "createdAt" (fst (Create env r c)))
  ∧ (Status (fst (Update env r c)) = StatusOK →
     ∃ id data req prior,
       Uuid.Parse (URLParam_id r) = Some id
       ∧ ReadAll r = Some data
       ∧ Protojson.Unmarshal_UpdateTaskRequest data = Some req
       ∧ stored id c = Some prior
       ∧ task_member "title" (fst (Update env r c))
         = (if bool_decide (UpdateTitle req = "") then None
            else Some (Json.Str (UpdateTitle req)))
       ∧ task_member "description" (fst (Update env r c))
         = (if bool_decide (UpdateDescription req = "") then None
            else Some (Json.Str (UpdateDescription req)))
       ∧ task_member "completed" (fst (Update env r c))
         = (if Completed (amend prior req (Now env)) then Some (Json.Bool true) else None)
       ∧ task_member "createdAt" (fst (Update env r c))
         = Some (Json.Str (Timestamppb.rfc3339 (Timestamppb.New_Unix (CreatedAt prior))))
       ∧ task_member "updatedAt" (fst (Update env r c))
         = Some (Json.Str (Timestamppb.rfc3339 (Timestamppb.New_Unix (Now env))))).
Proof.
  split.
  - intros (data & req & wire & Hread & Hreq & _ & _ & _ & Hwire & ->)%Create_201.
    exists data, req. cbn [fst].
    destruct (task_members _ _ StatusCreated Hwire) as (-> & -> & -> & -> & ->).
    by split_and!.
  - intros (id & data & req & i & doc & prior & wire & Hparse & Hread & Hreq & _ & _
            & Hloc & Hdec & Hwire & ->)%Update_200.
    exists id, data, req, prior. cbn [fst]. unfold Write, stored.
    destruct (task_members _ _ StatusOK Hwire) as (-> & -> & -> & -> & ->).
    rewrite Hloc, Hdec. by split_and!.
Qed.

End More.

(* ===================================================================== *)
(** * Further properties: a task's life, from create to delete *)
(* ===================================================================== *)

Section Workflow.
Import Tasks GoError Errors Http Database Mongo Handlers Spec.

Lemma Create_done (env : Env) (r : Request) data req (c : Collection) wire :
  ReadAll r = Some data →
  Protojson.Unmarshal_CreateTaskRequest data = Some req →
  Validate.CreateTaskRequest_Validate req = None →
  fate c = Delivered →
  unused (New env) c →
  Protojson.Marshal_GetTaskResponse {| Task_ := Some (ToProto (created env req)) |}
  = Some wire →
  Create env r c
  = (WriteHeader_Write StatusCreated wire,
     {| documents := documents c ++ [marshal (created env req)];
        network := tl (network c) |}).
Proof.
  intros Hread Hreq Hval Hfate Hunused Hwire.
  rewrite (Create_accepted env r data req c Hread Hreq Hval), Create_eq, Hfate, Hwire.
  rewrite bool_decide_eq_false_2; [done|].
  intros (d & Hd & Hid)%Exists_exists.
  by eapply Forall_forall in Hunused.
Qed.

Lemma GetByID_done (env : Env) (r : Request) id (c : Collection) t wire :
  Uuid.Parse (URLParam_id r) = Some id →
  fate c = Delivered →
  stored id c = Some t →
  Protojson.Marshal_GetTaskResponse {| Task_ := Some (ToProto t) |} = Some wire →
  GetByID env r c = (Write wire, after c).
Proof.
  intros Hparse Hfate (i & doc & Hloc & Hdec)%stored_Some Hwire.
  by rewrite (GetByID_eq env r id c Hparse), Hfate, Hloc, Hdec, Hwire.
Qed.

Lemma Update_done (env : Env) (r : Request) id data req (c : Collection) i doc prior wire :
  Uuid.Parse (URLParam_id r) = Some id →
  ReadAll r = Some data →
  Protojson.Unmarshal_UpdateTaskRequest data = Some req →
  Validate.UpdateTaskRequest_Validate req = None →
  delivers 2 c →
  located id (documents c) = Some (i, doc) →
  decode doc = Ok prior →
  Protojson.Marshal_GetTaskResponse
    {| Task_ := Some (ToProto (amend prior req (Now env))) |} = Some wire →
  Update env r c
  = (Write wire,
     {| documents := <[i := assignments (amend prior req (Now env)) ∪ doc]> (documents c);
        network := tl (tl (network c)) |}).
Proof.
  intros Hid Hread Hreq Hval (Hfirst & (Hsecond & _)%delivers_S)%delivers_S Hloc Hdec Hwire.
  unfold Update. rewrite Hid, Hread, Hreq, Hval.
  unfold mbind, State.M_bind.
  cbn [Database.FindByID Database.Update MongoTaskRepository.repository].
  by rewrite FindByID_eq, Hfirst, Hloc, Hdec, Update_eq, Hsecond, after_documents, Hloc, Hwire.
Qed.

Lemma Delete_done (env : Env) (r : Request) id (c : Collection) :
  Uuid.Parse (URLParam_id r) = Some id →
  fate c = Delivered →
  Delete env r c
  = (WriteHeader StatusNoContent,
     {| documents :=
          match located id (documents c) with
          | Some (i, _) => delete i (documents c)
          | None => documents c
          end;
        network := tl (network c) |}).
Proof.
  intros Hparse Hfate. unfold Delete, mbind, State.M_bind. rewrite Hparse.
  cbn [Database.Delete MongoTaskRepository.repository].
  by rewrite Delete_eq, Hfate.
Qed.

Lemma GetAll_done (env : Env) (r : Request) (c : Collection) (ts : list Task) js :
  delivers 2 c →
  documents c = marshal <$> ts →
  ts ≠ [] →
  mapM Protojson.marshalTask (ToProto <$> ts) = Some js →
  GetAll env r c = (Write (Json.Object [("tasks", Json.Array js)]), after (after c)).
Proof.
  intros (Hfirst & (Hsecond & _)%delivers_S)%delivers_S Hdocs Hsome Hjs.
  unfold GetAll, mbind, State.M_bind.
  cbn [Database.FindAll MongoTaskRepository.repository].
  rewrite FindAll_eq, Hfirst, Hsecond, Hdocs, decodeAll_marshal.
  unfold Protojson.Marshal_ListTasksResponse, Map. cbn [Tasks_].
  destruct ts as [|t ts']; [done|].
  rewrite fmap_cons in Hjs |- *. cbv beta iota. by rewrite Hjs.
Qed.

(** X28.  The life of a task, as [TestIntegrationFullWorkflow] walks it,
    for any requests that decode and pass validation.  On an empty
    collection with every driver call going through and printable clock
    readings: the create answers 201; a get-by-id for the identifier
    printed in that answer returns 200 with the same body; an update
    under that identifier answers 200 and the stored record is the created
    one amended by the request; the listing then answers 200 with exactly
    one task, carrying that identifier; the delete answers 204; a last
    get-by-id answers 404 and the collection is empty again. *)
Theorem task_life_from_create_to_delete
    (env1 env2 env3 env4 env5 env6 : Env) (data1 data2 : Protojson.data)
    (req1 : CreateTaskRequest) (req2 : UpdateTaskRequest)
    (listing : Request) (c : Collection) :
  documents c = [] →
  network c = [] →
  Protojson.Unmarshal_CreateTaskRequest data1 = Some req1 →
  Validate.CreateTaskRequest_Validate req1 = None →
  Protojson.Unmarshal_UpdateTaskRequest data2 = Some req2 →
  Validate.UpdateTaskRequest_Validate req2 = None →
  printable (Now env1) →
  printable (Now env3) →
  let id := New env1 in
  let post := {| URLParam_id := ""; ReadAll := Some data1 |} in
  let at_id body := {| URLParam_id := Uuid.String_ id; ReadAll := body |} in
  let c1 := snd (Create env1 post c) in
  let c2 := snd (GetByID env2 (at_id None) c1) in
  let c3 := snd (Update env3 (at_id (Some data2)) c2) in
  let c4 := snd (GetAll env4 listing c3) in
  let c5 := snd (Delete env5 (at_id None) c4) in
  Status (fst (Create env1 post c)) = StatusCreated
  ∧ task_member "id" (fst (Create env1 post c)) = Some (Json.Str (Uuid.String_ id))
  ∧ Status (fst (GetByID env2 (at_id None) c1)) = StatusOK
  ∧ Body_ (fst (GetByID env2 (at_id None) c1)) = Body_ (fst (Create env1 post c))
  ∧ Status (fst (Update env3 (at_id (Some data2)) c2)) = StatusOK
  ∧ stored id c3 = Some (amend (created env1 req1) req2 (Now env3))
  ∧ (∃ j, fst (GetAll env4 listing c3) = Write (Json.Object [("tasks", Json.Array [j])])
          ∧ Json.member "id" j = Some (Json.Str (Uuid.String_ id)))
  ∧ fst (Delete env5 (at_id None) c4) = WriteHeader StatusNoContent
  ∧ Status (fst (GetByID env6 (at_id None) c5)) = StatusNotFound
  ∧ documents c5 = [].
Proof.
  intros Hdocs Hnet Hreq1 Hval1 Hreq2 Hval2 Hnow1 Hnow3 id post at_id.
  destruct c as [docs net]. cbn in Hdocs, Hnet. subst docs net.
  set (made := created env1 req1).
  set (amended := amend made req2 (Now env3)).
  assert (encodable made) as Hmade by by eapply created_encodable.
  assert (encodable amended) as Hamended by by eapply amend_encodable.
  destruct (marshalTask_Some made Hmade) as (j1 & Hj1 & Hwire1).
  destruct (marshalTask_Some amended Hamended) as (j3 & Hj3 & Hwire3).
  assert (∀ body, Uuid.Parse (URLParam_id (at_id body)) = Some id) as Hparse
    by (intros body; apply Parse_String).
  assert (located id [marshal made] = Some (0%nat, marshal made)) as Hloc1
    by apply (located_appended id [] made eq_refl eq_refl).
  (* create *)
  rewrite (Create_done env1 post data1 req1 {| documents := []; network := [] |} _
             eq_refl Hreq1 Hval1 eq_refl (Forall_nil_2 _) Hwire1).
  cbn [fst snd documents network tl app]. fold made.
  (* first fetch *)
  rewrite (GetByID_done env2 (at_id None) id
             {| documents := [marshal made]; network := [] |} made
             (Json.Object [("task", j1)]) (Hparse None) eq_refl);
    [|unfold stored; cbn [documents]; by rewrite Hloc1, decode_marshal
     |exact Hwire1].
  unfold after. cbn [fst snd documents network tl].
  (* update *)
  rewrite (Update_done env3 (at_id (Some data2)) id data2 req2
             {| documents := [marshal made]; network := [] |} 0 (marshal made) made
             (Json.Object [("task", j3)]) (Hparse _) eq_refl Hreq2 Hval2);
    [|by repeat constructor
     |exact Hloc1
     |apply decode_marshal
     |exact Hwire3].
  cbn [fst snd documents network tl]. rewrite assigned_marshal.
  change (<[0%nat := marshal (amend made req2 (Now env3))]> [marshal made])
    with [marshal amended].
  (* listing *)
  rewrite (GetAll_done env4 listing
             {| documents := [marshal amended]; network := [] |} [amended] [j3]);
    [|by repeat constructor|done|done|by cbn; rewrite Hj3].
  unfold after. cbn [fst snd documents network tl].
  (* delete *)
  assert (located id [marshal amended] = Some (0%nat, marshal amended)) as Hloc
    by apply (located_appended id [] amended eq_refl eq_refl).
  rewrite (Delete_done env5 (at_id None) id
             {| documents := [marshal amended]; network := [] |} (Hparse None) eq_refl).
  cbn [fst snd documents network tl]. rewrite Hloc. cbn [delete list_delete].
  (* last fetch *)
  rewrite (GetByID_eq env6 (at_id None) id
             {| documents := []; network := [] |} (Hparse None)).
  unfold fate. cbn [fst snd documents network hd].
  assert (located id [] = None) as -> by reflexivity.
  split_and!.
  - reflexivity.
  - exact (task_member_id made _ _ Hwire1).
  - reflexivity.
  - reflexivity.
  - reflexivity.
  - unfold stored. cbn [documents]. rewrite Hloc, decode_marshal. reflexivity.
  - exists j3. split; [reflexivity|].
    exact (task_member_id amended _ StatusOK Hwire3).
  - reflexivity.
  - reflexivity.
  - reflexivity.
Qed.

End Workflow.

(** X25 on the store and the request of [TestIntegrationDelete], the
    delete being repeated. *)
Lemma delete_twice_is_delete_once_witness :
  let id := default Uuid.Nil (Uuid.Parse "550e8400-e29b-41d4-a716-446655440004") in
  let task := {| Database.ID := id; Database.Title := "Task to Delete";
                 Database.Description := "Will be deleted"; Database.Completed := false;
                 Database.CreatedAt := 1234567890; Database.UpdatedAt := 1234567890 |} in
  let c := {| Mongo.documents := [Database.marshal task]; Mongo.network := [] |} in
  Mongo.documents
    (snd (MongoTaskRepository.Delete id (snd (MongoTaskRepository.Delete id c))))
  = Mongo.documents (snd (MongoTaskRepository.Delete id c))
  ∧ ∀ env env' r,
      Uuid.Parse (Http.URLParam_id r) = Some id →
      Spec.fate (snd (Handlers.Delete env r c)) = Mongo.Delivered →
      fst (Handlers.Delete env' r (snd (Handlers.Delete env r c)))
      = Http.WriteHeader Http.StatusNoContent
      ∧ Mongo.documents (snd (Handlers.Delete env' r (snd (Handlers.Delete env r c))))
        = Mongo.documents (snd (Handlers.Delete env r c)).
Proof.
  intros id task c. apply (delete_twice_is_delete_once id c).
  - apply NoDup_singleton.
  - discriminate.
Defined.

(** X28 on the requests of [TestIntegrationFullWorkflow]. *)
Lemma task_life_from_create_to_delete_witness :
  let c := {| Mongo.documents := []; Mongo.network := [] |} in
  let id := default Uuid.Nil (Uuid.Parse "550e8400-e29b-41d4-a716-446655440000") in
  let env n := {| Handlers.Now := 1234567890 + n; Handlers.New := id |} in
  let data1 := Protojson.Text (Json.Object
                 [("title", Json.Str "Workflow Task");
                  ("description", Json.Str "Testing full workflow")]) in
  let data2 := Protojson.Text (Json.Object
                 [("title", Json.Str "Updated Workflow Task");
                  ("description", Json.Str "Updated description");
                  ("completed", Json.Bool true)]) in
  let req1 := {| Tasks.CreateTitle := "Workflow Task";
                 Tasks.CreateDescription := "Testing full workflow" |} in
  let req2 := {| Tasks.UpdateTitle := "Updated Workflow Task";
                 Tasks.UpdateDescription := "Updated description";
                 Tasks.UpdateCompleted := Some true |} in
  let listing := {| Http.URLParam_id := ""; Http.ReadAll := None |} in
  let post := {| Http.URLParam_id := ""; Http.ReadAll := Some data1 |} in
  let at_id body := {| Http.URLParam_id := Uuid.String_ id; Http.ReadAll := body |} in
  let c1 := snd (Handlers.Create (env 1) post c) in
  let c2 := snd (Handlers.GetByID (env 2) (at_id None) c1) in
  let c3 := snd (Handlers.Update (env 3) (at_id (Some data2)) c2) in
  let c4 := snd (Handlers.GetAll (env 4) listing c3) in
  let c5 := snd (Handlers.Delete (env 5) (at_id None) c4) in
  Http.Status (fst (Handlers.Create (env 1) post c)) = Http.StatusCreated
  ∧ Spec.task_member "id" (fst (Handlers.Create (env 1) post c))
    = Some (Json.Str (Uuid.String_ id))
  ∧ Http.Status (fst (Handlers.GetByID (env 2) (at_id None) c1)) = Http.StatusOK
  ∧ Http.Body_ (fst (Handlers.GetByID (env 2) (at_id None) c1))
    = Http.Body_ (fst (Handlers.Create (env 1) post c))
  ∧ Http.Status (fst (Handlers.Update (env 3) (at_id (Some data2)) c2)) = Http.StatusOK
  ∧ Spec.stored id c3
    = Some (Handlers.amend (Spec.created (env 1) req1) req2 (Handlers.Now (env 3)))
  ∧ (∃ j, fst (Handlers.GetAll (env 4) listing c3)
          = Http.Write (Json.Object [("tasks", Json.Array [j])])
          ∧ Json.member "id" j = Some (Json.Str (Uuid.String_ id)))
  ∧ fst (Handlers.Delete (env 5) (at_id None) c4) = Http.WriteHeader Http.StatusNoContent
  ∧ Http.Status (fst (Handlers.GetByID (env 6) (at_id None) c5)) = Http.StatusNotFound
  ∧ Mongo.documents c5 = [].
Proof.
  intros c id env data1 data2 req1 req2 listing.
  apply (task_life_from_create_to_delete (env 1) (env 2) (env 3) (env 4) (env 5) (env 6)
           data1 data2 req1 req2 listing c); vm_compute; reflexivity.
Defined.

(* ===================================================================== *)
(** * Further properties: creates add up *)
(* ===================================================================== *)

Section Accumulation.
Import Tasks GoError Errors Http Database Mongo Handlers Spec.

Lemma to_bytes_inj (u v : Uuid.UUID) : Uuid.to_bytes u = Uuid.to_bytes v → u = v.
Proof.
  intros Heq. pose proof (of_bytes_to_bytes u) as Hu.
  rewrite Heq, of_bytes_to_bytes in Hu. by simplify_eq.
Qed.

(** An accepted create on a collection whose driver calls all go
    through, with an unused identifier: the document is appended. *)
Lemma Create_appends (env : Env) (r : Request) (c : Collection) :
  network c = [] →
  accepted_create (POST_tasks, env, r) →
  unused (New env) c →
  ∃ req, snd (Create env r c)
         = {| documents := documents c ++ [marshal (created env req)]; network := [] |}.
Proof.
  intros Hnet (_ & data & req & Hread & Hreq & Hval) Hunused. cbn in Hread.
  exists req.
  rewrite (Create_accepted env r data req c Hread Hreq Hval), Create_eq.
  unfold fate. rewrite Hnet. cbn [hd tl].
  rewrite bool_decide_eq_false_2.
  - by destruct (Protojson.Marshal_GetTaskResponse _).
  - intros (d & Hd & Hid)%Exists_exists. by eapply Forall_forall in Hunused.
Qed.

(** X29.  Creates add up.  On a collection whose driver calls all go
    through, a sequence of create requests that decode and pass
    validation, drawing pairwise distinct identifiers none of which is in
    use, appends exactly one document per request, in the order of the
    requests, each carrying the identifier its request drew; so the
    collection grows by the number of requests. *)
Theorem creates_add_up (calls : list (Route * Env * Request)) (c : Collection) :
  network c = [] →
  Forall accepted_create calls →
  NoDup (drawn <$> calls) →
  Forall (λ call, unused (drawn call) c) calls →
  ∃ made,
    documents (run calls c) = (documents c ++ made)%list
    ∧ identifiers made
      = (λ call, Some (Bson.Binary (Uuid.to_bytes (drawn call)))) <$> calls
    ∧ length (documents (run calls c)) = (length (documents c) + length calls)%nat.
Proof.
  revert c. induction calls as [|[[route env] r] rest IH]; intros c Hnet Hcalls Hdrawn Hunused.
  - exists []. by rewrite app_nil_r, Nat.add_0_r.
  - apply Forall_cons in Hcalls as [Hcall Hrest].
    apply Forall_cons in Hunused as [Hfresh Hothers].
    rewrite fmap_cons in Hdrawn. apply NoDup_cons in Hdrawn as [Hnew Hdistinct].
    assert (route = POST_tasks) as -> by apply Hcall.
    destruct (Create_appends env r c Hnet Hcall Hfresh) as [req Hstate].
    cbn [run serve]. rewrite Hstate.
    destruct (IH {| documents := documents c ++ [marshal (created env req)];
                    network := [] |}) as (made & Hdocs & Hids & Hlen); try done.
    { apply Forall_forall. intros call Hin. unfold unused. cbn [documents].
      apply Forall_app. split.
      - by eapply Forall_forall in Hothers.
      - apply Forall_singleton. rewrite marshal_id. intros [= Hsame%to_bytes_inj].
        apply Hnew, list_elem_of_fmap. by exists call. }
    cbn [documents] in Hdocs, Hlen.
    exists (marshal (created env req) :: made). split_and!.
    + by rewrite Hdocs, <- app_assoc.
    + unfold identifiers in Hids |- *. rewrite !fmap_cons, Hids, marshal_id. reflexivity.
    + rewrite Hlen, length_app. cbn. lia.
Qed.

End Accumulation.

(** X29 on three creates, as [TestConcurrentAccess] issues them, served
    one after the other. *)
Lemma creates_add_up_witness :
  let c := {| Mongo.documents := []; Mongo.network := [] |} in
  let id n := Uuid.MkUUID n n n n n n n n n n n n n n n n in
  let call n :=
    (Handlers.POST_tasks, {| Handlers.Now := 1234567890; Handlers.New := id n |},
     {| Http.URLParam_id := "";
        Http.ReadAll := Some (Protojson.Text (Json.Object
          [("title", Json.Str "Concurrent Task"); ("description", Json.Str "Test")])) |}) in
  let calls := [call "001"%char; call "002"%char; call "003"%char] in
  ∃ made,
    Mongo.documents (Handlers.run calls c) = (Mongo.documents c ++ made)%list
    ∧ Spec.identifiers made
      = (λ call, Some (Bson.Binary (Uuid.to_bytes (Spec.drawn call)))) <$> calls
    ∧ length (Mongo.documents (Handlers.run calls c))
      = (length (Mongo.documents c) + length calls)%nat.
Proof.
  intros c id call calls. apply (creates_add_up calls c).
  - reflexivity.
  - assert (∀ n, Spec.accepted_create (call n)) as Haccepted.
    { intros n. split; [reflexivity|].
      exists (Protojson.Text (Json.Object
                [("title", Json.Str "Concurrent Task"); ("description", Json.Str "Test")])),
        {| Tasks.CreateTitle := "Concurrent Task"; Tasks.CreateDescription := "Test" |}.
      split_and!; [reflexivity|vm_compute; reflexivity..]. }
    repeat (apply Forall_cons; split; [apply Haccepted|]). apply Forall_nil_2.
  - apply (bool_decide_unpack (NoDup (Spec.drawn <$> calls))). vm_compute. exact I.
  - repeat (apply Forall_cons; split; [apply Forall_nil_2|]). apply Forall_nil_2.
Defined.

Section CreateFrame.
Import Tasks GoError Errors Http Database Mongo Handlers Spec.


End CreateFrame.

